(** * DORA metrics from build timelines: a shallow embedding of [config.py]

    The development follows the source top-down: Python string helpers,
    the time helpers ([utc], [fmtiso], [day_key], [human_dur]), the ADO
    client ([list_builds] and the remote calls), the GitHub helpers
    ([extract_owner_repo], [github_commit_api]), [get_commit_time], and the
    body of [main] from the build listing to the four record sets.

    Conventions.
    - A Python [dict] read from JSON with a fixed schema is a record whose
      fields are [option]s: [None] stands for an absent key or a JSON null
      (both make [d.get(k)] return [None]).  The free-form [properties]
      dictionary of a repository is a [gmap string string].
    - Exceptions are values of [exn]; code that can raise lives in the
      monad [M], which threads the console log and the two accumulators
      [deployments] and [failures] of [main].
    - Library functions whose behaviour is not part of this repository
      ([datetime.fromisoformat], [datetime.isoformat], [urlparse], the HTTP
      endpoints) are the fields of the record [Env], with the exceptions
      they raise; reference instances used to run the model on concrete
      inputs are in [Module Ref].
    - Texts are [string]s of 8-bit characters, and [lower] and [strip] are
      those of Python on ASCII texts ([ascii_text]).  The seconds of a
      duration are the exact ones on spans under [2^34] seconds
      ([short_span]), where the binary64 computation of the interpreter is
      exact as well. *)

From Stdlib Require Import ZArith String Ascii List Bool Lia Floats Sorted.
From stdpp Require Import gmap strings list pretty.

Local Open Scope string_scope.
Local Open Scope Z_scope.

(** ** Python [str] methods used by the source *)

Module PyStr.

(** [c.lower()] on one ASCII character: only the letters [A] to [Z]
    change. *)
Definition lower_ascii (c : ascii) : ascii :=
  let n := nat_of_ascii c in
  if ((65 <=? n)%nat && (n <=? 90)%nat)%bool then ascii_of_nat (n + 32) else c.

(** [s.lower()] on a text of ASCII characters.  Python lowers the letters
    of the other alphabets as well; a text with such letters is outside
    this function. *)
Fixpoint lower (s : string) : string :=
  match s with
  | EmptyString => EmptyString
  | String c s' => String (lower_ascii c) (lower s')
  end.

(** [s.startswith(p)] *)
Definition startswith (p s : string) : bool := String.prefix p s.

(** [sub in s] *)
Fixpoint contains (sub s : string) : bool :=
  if startswith sub s then true
  else match s with
       | EmptyString => false
       | String _ s' => contains sub s'
       end.

(** [bool(s)] *)
Definition truthy (s : string) : bool :=
  match s with EmptyString => false | _ => true end.

(** [s.replace(c, new)] for a one-character pattern [c]. *)
Fixpoint replace_char (c : ascii) (new s : string) : string :=
  match s with
  | EmptyString => EmptyString
  | String a s' =>
      if Ascii.eqb a c then new +:+ replace_char c new s'
      else String a (replace_char c new s')
  end.

(** [s.lstrip(chars)], [s.rstrip(chars)], [s.strip(chars)] with the set of
    characters given as a predicate. *)
Fixpoint lstrip (p : ascii -> bool) (s : string) : string :=
  match s with
  | EmptyString => EmptyString
  | String a s' => if p a then lstrip p s' else s
  end.

Fixpoint rstrip (p : ascii -> bool) (s : string) : string :=
  match s with
  | EmptyString => EmptyString
  | String a s' =>
      match rstrip p s' with
      | EmptyString => if p a then EmptyString else String a EmptyString
      | r => String a r
      end
  end.

Definition strip (p : ascii -> bool) (s : string) : string :=
  rstrip p (lstrip p s).

Definition is_slash (a : ascii) : bool := Ascii.eqb a "/".

(** ASCII white space, the characters [str.strip()] removes. *)
Definition is_space (a : ascii) : bool :=
  let n := nat_of_ascii a in
  ((n =? 32)%nat || ((9 <=? n)%nat && (n <=? 13)%nat)
   || ((28 <=? n)%nat && (n <=? 31)%nat))%bool.

(** [s.endswith(suf)] *)
Definition endswith (suf s : string) : bool :=
  let n := String.length s in
  let k := String.length suf in
  ((k <=? n)%nat && String.eqb (String.substring (n - k) k s) suf)%bool.

(** [s[:-k]] *)
Definition drop_last (k : nat) (s : string) : string :=
  String.substring 0 (String.length s - k) s.

(** All suffixes [s[i:]] of [s], from [i = 0] to [i = len(s)]. *)
Fixpoint suffixes (s : string) : list string :=
  s :: match s with
       | EmptyString => []
       | String _ s' => suffixes s'
       end.

(** The longest prefix of [s] without a slash, and the rest. *)
Fixpoint span_nonslash (s : string) : string * string :=
  match s with
  | EmptyString => (EmptyString, EmptyString)
  | String a s' =>
      if is_slash a then (EmptyString, s)
      else let '(x, r) := span_nonslash s' in (String a x, r)
  end.

(** [str(n)] for an [int] *)
Definition str_of_Z (n : Z) : string := pretty n.

End PyStr.

(** ** The regular expressions of the source

    Three patterns occur: [/repos/([^/]+/[^/]+)] and
    [^(https?://[^/]+)/repos/([^/]+/[^/]+)] (searched, groups returned) and
    [/repos/[^/]+/[^/]+$] (searched, tested).  [[^/]+] is greedy and is
    followed by a slash or by the end of the pattern, so the only way it can
    match is on the whole run of non-slash characters. *)

Module PyRe.
Import PyStr.

(** [[^/]+/[^/]+] matched at the start of [s]: the matched text and what
    follows it. *)
Definition owner_repo_at (s : string) : option (string * string) :=
  let '(x, r) := span_nonslash s in
  match x, r with
  | String _ _, String _ r' =>
      let '(y, rest) := span_nonslash r' in
      match y with
      | String _ _ => Some (x +:+ "/" +:+ y, rest)
      | EmptyString => None
      end
  | _, _ => None
  end.

(** The text after the prefix [p] of [s], when [s] starts with [p]. *)
Fixpoint after_prefix (p s : string) : option string :=
  match p, s with
  | EmptyString, _ => Some s
  | String a p', String b s' =>
      if Ascii.eqb a b then after_prefix p' s' else None
  | String _ _, EmptyString => None
  end.

(** [/repos/([^/]+/[^/]+)] matched at the start of [s]. *)
Definition repos_at (s : string) : option (string * string) :=
  match after_prefix "/repos/" s with
  | Some r => owner_repo_at r
  | None => None
  end.

Fixpoint first_some {A B} (f : A -> option B) (l : list A) : option B :=
  match l with
  | [] => None
  | x :: l' => match f x with Some y => Some y | None => first_some f l' end
  end.

(** [re.search(r"/repos/([^/]+/[^/]+)", s)]: group 1 of the leftmost
    match. *)
Definition search_repos (s : string) : option string :=
  first_some (fun t => option_map fst (repos_at t)) (suffixes s).

(** [re.search(r"/repos/[^/]+/[^/]+$", s)] as a test.  [$] needs the end
    of the string (a final newline is itself matched by [[^/]+]). *)
Definition search_repos_end (s : string) : bool :=
  existsb (fun t => match repos_at t with
                    | Some (_, EmptyString) => true
                    | _ => false
                    end) (suffixes s).

(** [re.search(r"^(https?://[^/]+)/repos/([^/]+/[^/]+)", s)]: groups 1
    and 2. *)
Definition search_host_repos (s : string) : option (string * string) :=
  let try (scheme : string) :=
    match after_prefix scheme s with
    | Some r =>
        let '(host, r') := span_nonslash r in
        match host with
        | String _ _ =>
            match repos_at r' with
            | Some (g2, _) => Some (scheme +:+ host, g2)
            | None => None
            end
        | EmptyString => None
        end
    | None => None
    end in
  match try "https://" with
  | Some g => Some g
  | None => try "http://"
  end.

End PyRe.

(** ** Python [float] values that reach the outputs

    Rates and hour columns are binary64 numbers; they are primitive floats
    here, so that the model computes the digits the program prints. *)

Module PyFloat.

(** [float(n)] for an [int]; exact for [|n| < 2^53]. *)
Definition of_Z (n : Z) : float :=
  match n with
  | Z0 => PrimFloat.zero
  | Zpos _ => PrimFloat.of_uint63 (Uint63.of_Z n)
  | Zneg _ => PrimFloat.opp (PrimFloat.of_uint63 (Uint63.of_Z (- n)))
  end.

(** [a / b] on two [int]s with [b != 0] (true division); the quotient of
    the converted operands is the correctly rounded one as long as both
    convert exactly. *)
Definition truediv (a b : Z) : float := PrimFloat.div (of_Z a) (of_Z b).

(** The integer nearest to [num / den], ties to the even one
    ([0 <= num], [0 < den]). *)
Definition round_half_even (num den : Z) : Z :=
  let q := num / den in
  let r := num mod den in
  match Z.compare (2 * r) den with
  | Lt => q
  | Gt => q + 1
  | Eq => if Z.even q then q else q + 1
  end.

(** [int(a / b)] on two [int]s with [0 < a] and [0 < b]: the true division
    gives the binary64 number nearest to the quotient, ties to the even
    mantissa, and [int] cuts it toward zero.  The mantissa has 53 bits: the
    quotient is scaled by the power of two [2^(-e)] that brings it into
    [[2^52, 2^53)], rounded to an integer, and scaled back.  (Quotients
    under [2^-1022], which binary64 holds with fewer bits, are left out.) *)
Definition int_truediv (a b : Z) : Z :=
  let scaled (e : Z) := if 0 <=? e then (a, b * 2 ^ e) else (a * 2 ^ (- e), b) in
  let e0 := Z.log2 a - Z.log2 b - 52 in
  let e := if fst (scaled e0) / snd (scaled e0) <? 2 ^ 52 then e0 - 1 else e0 in
  let mantissa := round_half_even (fst (scaled e)) (snd (scaled e)) in
  if 0 <=? e then mantissa * 2 ^ e else mantissa / 2 ^ (- e).

(** [round(x, nd)] for [nd >= 0].  CPython prints [x] with [nd] digits
    after the point, correctly rounded on its exact binary value, and
    reads the decimals back; zeros, infinities and NaN are returned
    unchanged, and so is a value without fractional bits.  The last
    division is the correctly rounded reading as long as the scaled
    integer is below [2^53]. *)
Definition round (x : float) (nd : nat) : float :=
  match Prim2SF x with
  | S754_finite s m e =>
      if 0 <=? e then x
      else
        let n := round_half_even (Zpos m * 10 ^ Z.of_nat nd) (2 ^ (- e)) in
        let r := PrimFloat.div (of_Z n) (of_Z (10 ^ Z.of_nat nd)) in
        if s then PrimFloat.opp r else r
  | _ => x
  end.

End PyFloat.

(** ** Time helpers *)

(** A [datetime]: the reading [wall] of the clock of its own zone, in
    microseconds from 1970-01-01T00:00:00, and its UTC offset in
    microseconds ([None] for a naive value). *)
Record datetime := mk_datetime { wall : Z; tzoffset : option Z }.

(** The clock readings of [datetime.min] and [datetime.max],
    0001-01-01T00:00:00 and 9999-12-31T23:59:59.999999: arithmetic that
    leaves them raises [OverflowError]. *)
Definition min_wall : Z := -62135596800000000.
Definition max_wall : Z := 253402300799999999.

Definition in_range (w : Z) : bool := ((min_wall <=? w) && (w <=? max_wall))%bool.

Global Instance datetime_eq_dec : EqDecision datetime.
Proof. solve_decision. Defined.

(** The instant an aware value denotes; comparison and subtraction of
    aware values go through it. *)
Definition timestamp (d : datetime) : Z :=
  wall d - match tzoffset d with Some o => o | None => 0 end.

(** [a < b], [a > b] on datetimes *)
Definition dt_ltb (a b : datetime) : bool := timestamp a <? timestamp b.
Definition dt_gtb (a b : datetime) : bool := dt_ltb b a.

(** [a - b], a [timedelta] counted in microseconds *)
Definition dt_sub (a b : datetime) : Z := timestamp a - timestamp b.

(** [int(td.total_seconds())] as the interpreter computes it:
    [total_seconds()] is the true division of the microsecond count by
    [10^6], a binary64 number, and [int] cuts it toward zero. *)
Definition int_total_seconds_binary64 (td : Z) : Z :=
  match td with
  | Z0 => 0
  | Zpos _ => PyFloat.int_truediv td 1000000
  | Zneg _ => - PyFloat.int_truediv (- td) 1000000
  end.

(** The spans on which the rows are modelled: shorter than [2^34] seconds,
    some 544 years. *)
Definition short_span (td : Z) : Prop := Z.abs td < 2 ^ 34 * 1000000.

(** [int(td.total_seconds())] on a short span: the exact quotient cut toward
    zero, which is what the binary64 computation gives there
    ([int_total_seconds_short]); on a longer span the latter can be one
    second further from zero ([int_total_seconds_long]). *)
Definition int_total_seconds (td : Z) : Z := Z.quot td 1000000.

(** [round(td.total_seconds())], Python's rounding to the nearest integer
    with ties to even, on the exact quotient as well. *)
Definition round_total_seconds (td : Z) : Z :=
  if 0 <=? td then PyFloat.round_half_even td 1000000
  else - PyFloat.round_half_even (- td) 1000000.

(** [round(secs/3600, 3)] *)
Definition hours_of (secs : Z) : float :=
  PyFloat.round (PyFloat.truediv secs 3600) 3.

(** [human_dur] *)
Definition human_dur (seconds : Z) : string :=
  let neg := seconds <? 0 in
  let s := Z.abs seconds in
  let d := s / 86400 in
  let rem := s mod 86400 in
  let h := rem / 3600 in
  let rem := rem mod 3600 in
  let m := rem / 60 in
  let s := rem mod 60 in
  let nz (x : Z) := negb (x =? 0) in
  let parts :=
    ((if nz d then [PyStr.str_of_Z d +:+ "d"] else [])
     ++ (if (nz h || nz d)%bool then [PyStr.str_of_Z h +:+ "h"] else [])
     ++ (if (nz m || nz h || nz d)%bool then [PyStr.str_of_Z m +:+ "m"] else [])
     ++ [PyStr.str_of_Z s +:+ "s"])%list in
  let out := String.concat " " parts in
  if neg then "-" +:+ out else out.

(** ** Exceptions *)

Inductive exn :=
| HTTPError        (** [requests.HTTPError], from [raise_for_status] *)
| ConnectionError  (** [requests.ConnectionError] *)
| Timeout          (** [requests.Timeout], the 60 s bound of a request *)
| ValueError       (** from [datetime.fromisoformat] and from [urlparse] *)
| OverflowError.   (** from [datetime.astimezone], date value out of range *)

(** [isinstance(e, requests.HTTPError)] *)
Definition is_HTTPError (e : exn) : bool :=
  match e with HTTPError => true | _ => false end.

(** [isinstance(e, requests.RequestException)]: the base class of the three
    exceptions of [requests]. *)
Definition is_RequestException (e : exn) : bool :=
  match e with
  | HTTPError | ConnectionError | Timeout => true
  | ValueError | OverflowError => false
  end.

(** [isinstance(e, Exception)] *)
Definition is_Exception (e : exn) : bool := true.

(** The result of a call that returns or raises. *)
Inductive result (A : Type) :=
| Ok (a : A)
| Err (e : exn).
Arguments Ok {A} a.
Arguments Err {A} e.

(** ** The JSON documents the program reads *)

(** A repository descriptor of a build. *)
Record Repo := mk_Repo {
  repo_type : option string;
  repo_id : option string;
  repo_name : option string;
  repo_url : option string;
  repo_properties : option (gmap string string)
}.

(** A build; [repository = None] is an absent, null or empty descriptor
    (the three for which [b.get("repository") or {}] is [{}]), and
    [definition_id] is [(b.get("definition") or {}).get("id")]. *)
Record Build := mk_Build {
  build_id : option Z;
  sourceVersion : option string;
  repository : option Repo;
  definition_id : option Z
}.

(** A record of a build timeline; [rec_name = None] is an absent key. *)
Record TimelineRecord := mk_TimelineRecord {
  rec_type : option string;
  rec_name : option string;
  rec_result : option string;
  rec_finishTime : option string
}.

(** A commit as both providers describe it:
    [{"author": {"date": ..}, "committer": {"date": ..}}]. *)
Record Commit := mk_Commit {
  author_date : option string;
  committer_date : option string
}.

(** An HTTP response of the GitHub API: the status and, parsed from the
    body, the value under ["commit"]. *)
Record Response := mk_Response {
  status_code : Z;
  json_commit : option Commit
}.

(** The query string of [GET /_apis/build/builds]. *)
Record BuildQuery := mk_BuildQuery {
  q_top : Z;
  q_minTime : string;
  q_maxTime : string;
  q_definitions : string;
  q_branchName : option string;
  q_continuationToken : option string
}.

(** One page of builds: [j.get("value", [])] and
    [j.get("continuationToken")]. *)
Record BuildPage := mk_BuildPage {
  page_value : list Build;
  page_continuationToken : option string
}.

(** ** Values of [main] *)

(** [{"buildId": bid, "when": t}], the shape of a Deployment and of a
    FailureEvent. *)
Record Event := mk_Event { buildId : option Z; when : datetime }.

Global Instance Event_eq_dec : EqDecision Event.
Proof. solve_decision. Defined.

(** The lines [print] writes under [--verbose]. *)
Inductive log_line :=
| LeadNoSourceVersion (bid : option Z)
| LeadMissingAzureId (bid : option Z)
| LeadAdoLookupFailed (sha : string) (e : exn)
| LeadNoGitHubRepo (bid : option Z) (props : list string)
| LeadGitHubStatus (status : Z) (url : string)
| LeadGitHubFailed (e : exn)
| LeadUnknownRepoType (rtype : string) (bid : option Z)
| DeployTrace (def_id : option Z) (def_name : option string) (bid : option Z)
    (when_iso : string) (rtype rname sha : option string).

(** What a run has written and accumulated so far. *)
Record run_state := mk_state {
  console : list log_line;
  deployments : list Event;
  failures : list Event
}.

Definition initial_state : run_state :=
  {| console := []; deployments := []; failures := [] |}.

(** ** The monad of code that prints, appends and raises *)

Inductive outcome (A : Type) :=
| Returned (a : A)
| Raised (e : exn)
| OutOfFuel.
Arguments Returned {A} a.
Arguments Raised {A} e.
Arguments OutOfFuel {A}.

Definition M (A : Type) : Type := run_state -> outcome A * run_state.

Global Instance M_ret : MRet M := fun A a s => (Returned a, s).

Global Instance M_bind : MBind M := fun A B f c s =>
  match c s with
  | (Returned a, s') => f a s'
  | (Raised e, s') => (Raised e, s')
  | (OutOfFuel, s') => (OutOfFuel, s')
  end.

Definition raise {A} (e : exn) : M A := fun s => (Raised e, s).

Definition out_of_fuel {A} : M A := fun s => (OutOfFuel, s).

(** A call that returns or raises, run inside [M]. *)
Definition lift {A} (r : result A) : M A :=
  match r with
  | Ok a => mret a
  | Err e => raise e
  end.

(** [try: c  except E as e: h(e)], with [E] given by its instance test. *)
Definition try_except {A} (c : M A) (E : exn -> bool) (h : exn -> M A) : M A :=
  fun s =>
    match c s with
    | (Raised e, s') => if E e then h e s' else (Raised e, s')
    | r => r
    end.

(** [if verbose: print(line)] *)
Definition print_if (verbose : bool) (line : log_line) : M unit :=
  fun s =>
    (Returned tt,
     if verbose
     then {| console := console s ++ [line];
             deployments := deployments s; failures := failures s |}
     else s).

(** [deployments.append(e)], [failures.append(e)] *)
Definition append_deployment (e : Event) : M unit :=
  fun s => (Returned tt,
            {| console := console s;
               deployments := deployments s ++ [e]; failures := failures s |}).

Definition append_failure (e : Event) : M unit :=
  fun s => (Returned tt,
            {| console := console s;
               deployments := deployments s; failures := failures s ++ [e] |}).

Definition get_deployments : M (list Event) := fun s => (Returned (deployments s), s).
Definition get_failures : M (list Event) := fun s => (Returned (failures s), s).

(** [for x in l: body(x)] *)
Fixpoint for_each {A} (l : list A) (body : A -> M unit) : M unit :=
  match l with
  | [] => mret tt
  | x :: l' => body x ;; for_each l' body
  end.

(** ** Python idioms on optional strings *)

(** [v] when [v] is a non-empty string, the case in which [if v:] holds. *)
Definition nonempty (v : option string) : option string :=
  match v with
  | Some s => if PyStr.truthy s then Some s else None
  | None => None
  end.

(** [a or b] *)
Definition py_or (a b : option string) : option string :=
  match nonempty a with
  | Some s => Some s
  | None => b
  end.

(** [(v or "")] *)
Definition or_empty (v : option string) : string :=
  match v with Some s => s | None => "" end.

(** [sorted(l, key=key)]: stable, and built on [<] alone as Python's is. *)
Fixpoint insert_sorted {A K} (lt : K -> K -> bool) (key : A -> K) (x : A)
    (l : list A) : list A :=
  match l with
  | [] => [x]
  | y :: l' =>
      if lt (key y) (key x) then y :: insert_sorted lt key x l'
      else x :: y :: l'
  end.

Definition sorted {A K} (lt : K -> K -> bool) (key : A -> K) (l : list A) : list A :=
  List.fold_right (insert_sorted lt key) [] l.

(** ** The four record sets *)

(** A row of [deployment_frequency.csv] (the weekday label, a rendering of
    [date], is left out). *)
Record FrequencyRow := mk_FrequencyRow {
  freq_app : string;
  date : string;
  freq_deployments : Z;
  firstDeployAtUtc : string;
  lastDeployAtUtc : string
}.

(** A row of [lead_time_for_changes.csv] (without its run URL, a rendering
    of [buildId]). *)
Record LeadRow := mk_LeadRow {
  lead_app : string;
  lead_buildId : option Z;
  commit : option string;
  commitTimeUtc : string;
  deployTimeUtc : string;
  leadTimeSeconds : Z;
  leadTimeHours : float;
  leadTimeHuman : string
}.

(** The row of [change_failure_rate.csv]. *)
Record CfrRow := mk_CfrRow {
  cfr_app : string;
  windowStartUtc : string;
  windowEndUtc : string;
  totalDeployments : Z;
  failedChanges : Z;
  changeFailureRatePct : float
}.

(** A row of [failed_deployment_recovery_time.csv] (without its two run
    URLs). *)
Record MttrRow := mk_MttrRow {
  mttr_app : string;
  failedBuildId : option Z;
  failedAtUtc : string;
  restoredBuildId : option Z;
  restoredAtUtc : string;
  mttrSeconds : Z;
  mttrHours : float;
  mttrHuman : string
}.

(** Everything a run computes. *)
Record Outputs := mk_Outputs {
  out_deployments : list Event;
  out_failures : list Event;
  out_frequency : list FrequencyRow;
  out_lead : list LeadRow;
  out_cfr : CfrRow;
  out_mttr : list MttrRow
}.

(** The inputs of the core: the resolved definition ids, the window, and
    the options of the command line. *)
Record Args := mk_Args {
  arg_defs : list Z;
  arg_since : datetime;
  arg_until : datetime;
  arg_branch : option string;
  arg_github_token : option string;
  arg_github_repo : option string;
  arg_app : string;
  arg_verbose : bool
}.

(** ** What the program calls but does not define *)

Record Env := mk_Env {
  (** [datetime.fromisoformat]; [None] when it raises [ValueError]. *)
  fromisoformat : string -> option datetime;
  (** The UTC offset of the system's local zone at a naive clock reading,
      which [astimezone] uses for a naive value. *)
  localtz : Z -> Z;
  (** [datetime.isoformat] and [d.date().isoformat()]. *)
  isoformat : datetime -> string;
  date_isoformat : datetime -> string;
  (** [urlparse(u).path]; [None] when [urlparse] raises [ValueError] (an
      unbalanced bracket in the host, for one). *)
  urlparse_path : string -> option string;
  (** [ADO._get] on the four paths the client uses: the parsed body, or the
      exception of [session.get] or of [raise_for_status]. *)
  http_builds : BuildQuery -> result BuildPage;
  http_timeline : option Z -> result (list TimelineRecord);
  http_definition : Z -> result (option string);
  http_ado_commit : string -> string -> result Commit;
  (** [requests.get(url, headers=headers, timeout=60)]. *)
  http_github : string -> list (string * string) -> result Response
}.

(** ** The program *)

Section Model.

Variable env : Env.

(** *** Time helpers *)

(** The reading in UTC of the instant [d] denotes, a naive [d] being taken
    in the local zone of the system: the arithmetic of [astimezone]. *)
Definition to_utc (d : datetime) : datetime :=
  {| wall := wall d - match tzoffset d with
                      | Some o => o
                      | None => localtz env (wall d)
                      end;
     tzoffset := Some 0 |}.

(** [dt.astimezone(timezone.utc)]: the reading in UTC, or [OverflowError]
    when that reading leaves the years 1 to 9999. *)
Definition astimezone_utc (d : datetime) : result datetime :=
  let t := to_utc d in
  if in_range (wall t) then Ok t else Err OverflowError.

(** [utc] *)
Definition utc (dt_str : option string) : result (option datetime) :=
  match nonempty dt_str with
  | None => Ok None
  | Some s =>
      match fromisoformat env (PyStr.replace_char "Z" "+00:00" s) with
      | Some d =>
          match astimezone_utc d with
          | Ok t => Ok (Some t)
          | Err e => Err e
          end
      | None => Err ValueError
      end
  end.

(** [fmtiso].  [main] formats the values [utc] returned and the two ends of
    the window, all of them readings in UTC within the years 1 to 9999, on
    which [astimezone] is the identity; its range check is left out here. *)
Definition fmtiso (dt : datetime) : string := isoformat env (to_utc dt).

(** [day_key] *)
Definition day_key (dt_utc : datetime) : string := date_isoformat env dt_utc.

(** *** ADO client *)

(** [ADO.get_timeline] followed by [timeline.get("records", [])]. *)
Definition get_timeline (bid : option Z) : M (list TimelineRecord) :=
  lift (http_timeline env bid).

(** [ADO.get_ado_commit] *)
Definition get_ado_commit (repo_id sha : string) : M Commit :=
  lift (http_ado_commit env repo_id sha).

(** [ADO.get_definition] followed by [dd.get("name")]. *)
Definition get_definition (def_id : Z) : M (option string) :=
  lift (http_definition env def_id).

(** [if cont: params["continuationToken"] = cont] *)
Definition set_continuation (params : BuildQuery) (cont : option string)
    : BuildQuery :=
  match nonempty cont with
  | Some c =>
      {| q_top := q_top params; q_minTime := q_minTime params;
         q_maxTime := q_maxTime params;
         q_definitions := q_definitions params;
         q_branchName := q_branchName params;
         q_continuationToken := Some c |}
  | None => params
  end.

(** The [while True] loop of [ADO.list_builds], at most [fuel] rounds. *)
Fixpoint list_builds_loop (fuel : nat) (params : BuildQuery)
    (builds : list Build) (cont : option string) : M (list Build) :=
  match fuel with
  | O => out_of_fuel
  | S fuel' =>
      let params := set_continuation params cont in
      j ← lift (http_builds env params);
      let builds := (builds ++ page_value j)%list in
      let cont := page_continuationToken j in
      match nonempty cont with
      | None => mret builds
      | Some _ => list_builds_loop fuel' params builds cont
      end
  end.

(** The [params] dictionary [ADO.list_builds] starts from. *)
Definition list_builds_params (def_ids : list Z) (min_time max_time : datetime)
    (branch : option string) (top : Z) : BuildQuery :=
  {| q_top := top;
     q_minTime := isoformat env min_time;
     q_maxTime := isoformat env max_time;
     q_definitions := String.concat "," (map PyStr.str_of_Z def_ids);
     q_branchName :=
       match nonempty branch with
       | Some b => nonempty (Some (PyStr.strip PyStr.is_space b))
       | None => None
       end;
     q_continuationToken := None |}.

(** [ADO.list_builds] *)
Definition list_builds (fuel : nat) (def_ids : list Z)
    (min_time max_time : datetime) (branch : option string) (top : Z)
    : M (list Build) :=
  list_builds_loop fuel (list_builds_params def_ids min_time max_time branch top)
    [] None.

(** *** GitHub repository helpers *)

Definition has_slash (v : option string) : option string :=
  match nonempty v with
  | Some s => if PyStr.contains "/" s then Some s else None
  | None => None
  end.

(** [extract_owner_repo].  The call of [urlparse] stands in no [try]: its
    [ValueError] leaves the function. *)
Definition extract_owner_repo (repo : option Repo) : result (option string) :=
  match repo with
  | None => Ok None
  | Some repo =>
      let props := default ∅ (repo_properties repo) in
      match PyRe.first_some (fun k => has_slash (props !! k))
              ["fullName"; "full_name"; "repoFullName"; "repositoryFullName"] with
      | Some v => Ok (Some v)
      | None =>
          let api_url := py_or (props !! "apiUrl") (repo_url repo) in
          match nonempty api_url ≫= PyRe.search_repos with
          | Some g => Ok (Some g)
          | None =>
              let by_name :=
                PyRe.first_some has_slash [repo_name repo; repo_id repo] in
              match nonempty (props !! "cloneUrl") with
              | Some clone =>
                  match urlparse_path env clone with
                  | None => Err ValueError
                  | Some p =>
                      let path := PyStr.strip PyStr.is_slash p in
                      let path := if PyStr.endswith ".git" path
                                  then PyStr.drop_last 4 path else path in
                      if PyStr.contains "/" path then Ok (Some path)
                      else Ok by_name
                  end
              | None => Ok by_name
              end
          end
      end
  end.

(** [gh_repo_override or extract_owner_repo(repo)]: the descriptor is not
    looked at when an override is given. *)
Definition owner_repo_of (gh_repo_override : option string)
    (repo : option Repo) : result (option string) :=
  match nonempty gh_repo_override with
  | Some o => Ok (Some o)
  | None => extract_owner_repo repo
  end.

(** [github_commit_api] *)
Definition github_commit_api (owner_repo sha : string)
    (props : gmap string string) : string :=
  let fallback := "https://api.github.com/repos/" +:+ owner_repo +:+ "/commits/" +:+ sha in
  match nonempty (props !! "apiUrl") with
  | Some api_url =>
      let base := PyStr.rstrip PyStr.is_slash api_url in
      if PyRe.search_repos_end base then base +:+ "/commits/" +:+ sha
      else match PyRe.search_host_repos base with
           | Some (g1, g2) => g1 +:+ "/repos/" +:+ g2 +:+ "/commits/" +:+ sha
           | None => fallback
           end
  | None => fallback
  end.

(** The date both providers' commit documents are read for:
    [(c.get("author", {}) or {}).get("date") or
     (c.get("committer", {}) or {}).get("date")], then
    [utc(dt) if dt else None]. *)
Definition commit_date (c : Commit) : M (option datetime) :=
  match nonempty (py_or (author_date c) (committer_date c)) with
  | Some dt => lift (utc (Some dt))
  | None => mret None
  end.

(** [get_commit_time] *)
Definition get_commit_time (build : Build)
    (gh_token gh_repo_override : option string) (verbose : bool)
    : M (option datetime) :=
  match nonempty (sourceVersion build) with
  | None =>
      print_if verbose (LeadNoSourceVersion (build_id build)) ;; mret None
  | Some sha =>
      let repo := repository build in
      let rtype := PyStr.lower (or_empty (repo ≫= repo_type)) in
      if (PyStr.contains "tfs" rtype || PyStr.contains "azure" rtype)%bool then
        match nonempty (repo ≫= repo_id) with
        | None =>
            print_if verbose (LeadMissingAzureId (build_id build)) ;; mret None
        | Some rid =>
            try_except
              (c ← get_ado_commit rid sha; commit_date c)
              is_HTTPError
              (fun e => print_if verbose (LeadAdoLookupFailed sha e) ;; mret None)
        end
      else if (PyStr.contains "github" rtype
               || bool_decide (is_Some (nonempty gh_repo_override)))%bool then
        owner_repo ← lift (owner_repo_of gh_repo_override repo);
        match owner_repo with
        | None =>
            print_if verbose
              (LeadNoGitHubRepo (build_id build)
                 (map fst (map_to_list (default ∅ (repo ≫= repo_properties))))) ;;
            mret None
        | Some owner_repo =>
            let api_url :=
              github_commit_api owner_repo sha
                (default ∅ (repo ≫= repo_properties)) in
            let headers :=
              (("Accept", "application/vnd.github+json")
                 :: match nonempty gh_token with
                    | Some t => [("Authorization", "Bearer " +:+ t)]
                    | None => []
                    end)%list in
            try_except
              (r ← lift (http_github env api_url headers);
               if status_code r =? 200 then
                 commit_date (default (mk_Commit None None) (json_commit r))
               else
                 print_if verbose (LeadGitHubStatus (status_code r) api_url) ;;
                 mret None)
              is_RequestException
              (fun e => print_if verbose (LeadGitHubFailed e) ;; mret None)
        end
      else
        print_if verbose (LeadUnknownRepoType rtype (build_id build)) ;;
        mret None
  end.

(** *** [main], from the build listing to the record sets *)

(** [has_job] and [has_stage], the two closures of the loop over builds *)
Definition has_kind (kind : string) (recs : list TimelineRecord) (sub : string)
    : option TimelineRecord :=
  let sub := PyStr.lower sub in
  List.find (fun r => (bool_decide (rec_type r = Some kind)
                       && PyStr.contains sub (PyStr.lower (or_empty (rec_name r))))%bool)
    recs.

Definition has_job := has_kind "Job".
Definition has_stage := has_kind "Stage".

(** [j and (j.get("result") or "").lower() == v] *)
Definition job_result_is (j : option TimelineRecord) (v : string) : bool :=
  match j with
  | Some r => String.eqb (PyStr.lower (or_empty (rec_result r))) v
  | None => false
  end.

(** The loop that fills [def_names]; a failed lookup is skipped. *)
Fixpoint def_names_loop (defs : list Z) (def_names : gmap Z (option string))
    : M (gmap Z (option string)) :=
  match defs with
  | [] => mret def_names
  | did :: defs' =>
      def_names ←
        try_except
          (name ← get_definition did; mret (<[did := name]> def_names))
          is_Exception
          (fun _ => mret def_names);
      def_names_loop defs' def_names
  end.

(** The block under [# Post-deploy failures for CFR/MTTR]. *)
Definition post_deploy_failures (bid : option Z)
    (validate_swap rollback : option TimelineRecord) : M unit :=
  fail_t ←
    (if job_result_is validate_swap "failed" then
       t ← lift (utc (validate_swap ≫= rec_finishTime)); mret (true, t)
     else if job_result_is rollback "succeeded" then
       t ← lift (utc (rollback ≫= rec_finishTime)); mret (true, t)
     else mret (false, None));
  match fail_t with
  | (true, Some t) => append_failure {| buildId := bid; when := t |}
  | _ => mret tt
  end.

(** The body of [for b in builds] that classifies one build: the failure
    block sits under the test of the swap result, next to the test of
    [dep_time] and not under it. *)
Definition process_build (verbose : bool) (def_names : gmap Z (option string))
    (b : Build) : M unit :=
  let bid := build_id b in
  recs ← get_timeline bid;
  let swap := has_job recs "swap" in
  let validate_swap := has_job recs "validate" in
  let rollback := has_job recs "rollback" in
  let _ := has_stage recs "deploylive" in
  if job_result_is swap "succeeded" then
    dep_time ← lift (utc (swap ≫= rec_finishTime));
    match dep_time with
    | Some t =>
        append_deployment {| buildId := bid; when := t |} ;;
        let repo := repository b in
        let def_id := definition_id b in
        let def_name := match def_id with
                        | Some i => default None (def_names !! i)
                        | None => None
                        end in
        print_if verbose
          (DeployTrace def_id def_name bid (fmtiso t)
             (repo ≫= repo_type) (repo ≫= repo_name) (sourceVersion b))
    | None => mret tt
    end ;;
    post_deploy_failures bid validate_swap rollback
  else mret tt.

(** The [daily] dictionary, each day's list sorted. *)
Definition daily_of (deployments : list Event) : gmap string (list datetime) :=
  let daily :=
    foldl (fun (daily : gmap string (list datetime)) d =>
             let k := day_key (when d) in
             <[k := (default [] (daily !! k) ++ [when d])%list]> daily)
      ∅ deployments in
  sorted dt_ltb id <$> daily.

(** The rows of the deployment-frequency file, [sorted(daily.keys())]. *)
Definition frequency_rows (app : string) (daily : gmap string (list datetime))
    : list FrequencyRow :=
  omap (fun day =>
          match daily !! day with
          | Some (first :: rest) =>
              Some {| freq_app := app; date := day;
                      freq_deployments := Z.of_nat (length (first :: rest));
                      firstDeployAtUtc := fmtiso first;
                      lastDeployAtUtc := fmtiso (List.last rest first) |}
          | _ => None
          end)
    (sorted String.ltb id (map fst (map_to_list daily))).

(** [(len(failures) / len(deployments) * 100.0) if deployments else 0.0] *)
Definition cfr_pct (deployments failures : list Event) : float :=
  match deployments with
  | [] => 0%float
  | _ => PrimFloat.mul
           (PyFloat.truediv (Z.of_nat (length failures))
              (Z.of_nat (length deployments)))
           100%float
  end.

(** [{d["buildId"]: d for d in deployments}] *)
Definition dep_by_build_of (deployments : list Event) : gmap (option Z) Event :=
  foldl (fun (m : gmap (option Z) Event) d => <[buildId d := d]> m) ∅ deployments.

Definition lead_row (app : string) (b : Build) (dep : Event) (ct : datetime)
    : LeadRow :=
  let secs := int_total_seconds (dt_sub (when dep) ct) in
  {| lead_app := app;
     lead_buildId := build_id b;
     commit := sourceVersion b;
     commitTimeUtc := fmtiso ct;
     deployTimeUtc := fmtiso (when dep);
     leadTimeSeconds := secs;
     leadTimeHours := hours_of secs;
     leadTimeHuman := human_dur secs |}.

(** The loop that fills [lead_rows]. *)
Fixpoint lead_loop (args : Args) (dep_by_build : gmap (option Z) Event)
    (builds : list Build) (lead_rows : list LeadRow) : M (list LeadRow) :=
  match builds with
  | [] => mret lead_rows
  | b :: builds' =>
      match dep_by_build !! build_id b with
      | None => lead_loop args dep_by_build builds' lead_rows
      | Some dep =>
          ct ← get_commit_time b (arg_github_token args)
                 (arg_github_repo args) (arg_verbose args);
          match ct with
          | Some ct =>
              lead_loop args dep_by_build builds'
                (lead_rows ++ [lead_row (arg_app args) b dep ct])%list
          | None => lead_loop args dep_by_build builds' lead_rows
          end
      end
  end.

(** [next((s for s in successes_sorted if s["when"] > f["when"]), None)] *)
Definition next_success_of (successes_sorted : list Event) (f : Event)
    : option Event :=
  List.find (fun s => dt_gtb (when s) (when f)) successes_sorted.

Definition mttr_row (app : string) (f next_success : Event) : MttrRow :=
  let secs := int_total_seconds (dt_sub (when next_success) (when f)) in
  {| mttr_app := app;
     failedBuildId := buildId f;
     failedAtUtc := fmtiso (when f);
     restoredBuildId := buildId next_success;
     restoredAtUtc := fmtiso (when next_success);
     mttrSeconds := secs;
     mttrHours := hours_of secs;
     mttrHuman := human_dur secs |}.

(** The loop that fills [mttr_rows]. *)
Definition mttr_rows_of (app : string) (successes_sorted failures : list Event)
    : list MttrRow :=
  omap (fun f => mttr_row app f <$> next_success_of successes_sorted f)
    (sorted dt_ltb when failures).

Definition cfr_row (args : Args) (successes_sorted failures : list Event)
    (pct : float) : CfrRow :=
  {| cfr_app := arg_app args;
     windowStartUtc := fmtiso (arg_since args);
     windowEndUtc := fmtiso (arg_until args);
     totalDeployments := Z.of_nat (length successes_sorted);
     failedChanges := Z.of_nat (length failures);
     changeFailureRatePct := PyFloat.round pct 2 |}.

(** [main] after the command line has been read and the definition ids
    resolved, up to the rows handed to the CSV writers. *)
Definition main (fuel : nat) (args : Args) : M Outputs :=
  def_names ← def_names_loop (arg_defs args) ∅;
  builds ← list_builds fuel (arg_defs args) (arg_since args) (arg_until args)
             (arg_branch args) 200;
  for_each builds (process_build (arg_verbose args) def_names) ;;
  deployments ← get_deployments;
  failures ← get_failures;
  let daily := daily_of deployments in
  let pct := cfr_pct deployments failures in
  let dep_by_build := dep_by_build_of deployments in
  lead_rows ← lead_loop args dep_by_build builds [];
  let successes_sorted := sorted dt_ltb when deployments in
  let mttr_rows := mttr_rows_of (arg_app args) successes_sorted failures in
  mret {| out_deployments := deployments;
          out_failures := failures;
          out_frequency := frequency_rows (arg_app args) daily;
          out_lead := sorted String.ltb deployTimeUtc lead_rows;
          out_cfr := cfr_row args successes_sorted failures pct;
          out_mttr := sorted String.ltb failedAtUtc mttr_rows |}.

End Model.

(** ** Reference instances of the library functions

    Enough of [datetime] and [urlparse] to run the model on the timestamps
    and URLs the two providers send: the calendar arithmetic is the
    proleptic Gregorian one, the text format is the one [isoformat] emits
    ([YYYY-MM-DD[THH[:MM[:SS[.fff[fff]]]]][+HH:MM]]). *)

Module Ref.

Definition us_per_day : Z := 86400000000.

(** Days from 1970-01-01 to the civil date [y]-[m]-[d]. *)
Definition days_from_civil (y m d : Z) : Z :=
  let y := if m <=? 2 then y - 1 else y in
  let era := y / 400 in
  let yoe := y - era * 400 in
  let doy := (153 * (if 2 <? m then m - 3 else m + 9) + 2) / 5 + d - 1 in
  let doe := yoe * 365 + yoe / 4 - yoe / 100 + doy in
  era * 146097 + doe - 719468.

(** The civil date of a day number. *)
Definition civil_from_days (z : Z) : Z * Z * Z :=
  let z := z + 719468 in
  let era := z / 146097 in
  let doe := z - era * 146097 in
  let yoe := (doe - doe / 1460 + doe / 36524 - doe / 146096) / 365 in
  let doy := doe - (365 * yoe + yoe / 4 - yoe / 100) in
  let mp := (5 * doy + 2) / 153 in
  let d := doy - (153 * mp + 2) / 5 + 1 in
  let m := if mp <? 10 then mp + 3 else mp - 9 in
  let y := yoe + era * 400 in
  (if m <=? 2 then y + 1 else y, m, d).

Definition is_leap (y : Z) : bool :=
  ((y mod 4 =? 0) && (negb (y mod 100 =? 0) || (y mod 400 =? 0)))%bool.

Definition days_in_month (y m : Z) : Z :=
  if m =? 2 then (if is_leap y then 29 else 28)
  else if ((m =? 4) || (m =? 6) || (m =? 9) || (m =? 11))%bool then 30 else 31.

Definition is_Some_b {A} (o : option A) : bool :=
  match o with Some _ => true | None => false end.

Definition digit (a : ascii) : option Z :=
  let n := nat_of_ascii a in
  if ((48 <=? n)%nat && (n <=? 57)%nat)%bool then Some (Z.of_nat n - 48) else None.

(** Exactly [n] decimal digits at the start of [s]. *)
Fixpoint digits (n : nat) (acc : Z) (s : string) : option (Z * string) :=
  match n with
  | O => Some (acc, s)
  | S n' =>
      match s with
      | String a s' =>
          match digit a with
          | Some v => digits n' (10 * acc + v) s'
          | None => None
          end
      | EmptyString => None
      end
  end.

(** The character [c] at the start of [s]. *)
Definition expect (c : ascii) (s : string) : option string :=
  match s with
  | String a s' => if Ascii.eqb a c then Some s' else None
  | EmptyString => None
  end.

(** [[+-]HH:MM] up to the end of the text, in microseconds. *)
Definition parse_offset (s : string) : option Z :=
  match s with
  | String sign s' =>
      if (Ascii.eqb sign "+" || Ascii.eqb sign "-")%bool then
        '(hh, s1) ← digits 2 0 s';
        s2 ← expect ":" s1;
        '(mm, s3) ← digits 2 0 s2;
        match s3 with
        | EmptyString =>
            if ((hh <? 24) && (mm <? 60))%bool then
              let v := (hh * 3600 + mm * 60) * 1000000 in
              Some (if Ascii.eqb sign "-" then - v else v)
            else None
        | _ => None
        end
      else None
  | EmptyString => None
  end.

(** The optional [:MM[:SS[.fff[fff]]]] after the hour: microseconds past
    the hour, and the rest of the text. *)
Definition parse_minutes (s : string) : option (Z * string) :=
  match expect ":" s with
  | None => Some (0, s)
  | Some s1 =>
      '(mm, s2) ← digits 2 0 s1;
      if 60 <=? mm then None else
      match expect ":" s2 with
      | None => Some (mm * 60000000, s2)
      | Some s3 =>
          '(ss, s4) ← digits 2 0 s3;
          if 60 <=? ss then None else
          let base := mm * 60000000 + ss * 1000000 in
          match expect "." s4 with
          | None => Some (base, s4)
          | Some s5 =>
              match digits 6 0 s5 with
              | Some (us, s6) => Some (base + us, s6)
              | None =>
                  '(ms, s6) ← digits 3 0 s5; Some (base + ms * 1000, s6)
              end
          end
      end
  end.

(** [datetime.fromisoformat] on that format. *)
Definition fromisoformat (s : string) : option datetime :=
  '(y, s1) ← digits 4 0 s;
  s2 ← expect "-" s1;
  '(m, s3) ← digits 2 0 s2;
  s4 ← expect "-" s3;
  '(d, s5) ← digits 2 0 s4;
  if negb ((1 <=? y) && (1 <=? m) && (m <=? 12) && (1 <=? d)
           && (d <=? days_in_month y m))%bool then None else
  let day := days_from_civil y m d * us_per_day in
  match s5 with
  | EmptyString => Some {| wall := day; tzoffset := None |}
  | String _ s6 =>
      '(hh, s7) ← digits 2 0 s6;
      if 24 <=? hh then None else
      '(rest, s8) ← parse_minutes s7;
      let w := day + hh * 3600000000 + rest in
      match s8 with
      | EmptyString => Some {| wall := w; tzoffset := None |}
      | _ => off ← parse_offset s8; Some {| wall := w; tzoffset := Some off |}
      end
  end.

(** [n] in decimal, at least [width] characters wide, zero-filled. *)
Definition pad (width : nat) (n : Z) : string :=
  let s := PyStr.str_of_Z n in
  String.concat "" (repeat "0" (width - String.length s)) +:+ s.

(** [d.date().isoformat()] *)
Definition date_isoformat (d : datetime) : string :=
  let '(y, m, dd) := civil_from_days (wall d / us_per_day) in
  pad 4 y +:+ "-" +:+ pad 2 m +:+ "-" +:+ pad 2 dd.

(** [d.isoformat()] *)
Definition isoformat (d : datetime) : string :=
  let t := wall d mod us_per_day in
  let us := t mod 1000000 in
  let secs := t / 1000000 in
  date_isoformat d +:+ "T" +:+ pad 2 (secs / 3600) +:+ ":"
    +:+ pad 2 (secs / 60 mod 60) +:+ ":" +:+ pad 2 (secs mod 60)
    +:+ (if us =? 0 then "" else "." +:+ pad 6 us)
    +:+ match tzoffset d with
        | None => ""
        | Some o =>
            let mins := Z.abs o / 60000000 in
            (if o <? 0 then "-" else "+") +:+ pad 2 (mins / 60) +:+ ":"
              +:+ pad 2 (mins mod 60)
        end.

(** A system clock set to UTC. *)
Definition localtz (w : Z) : Z := 0.

(** The first position of a character satisfying [p], as the text before
    it and the text from it on. *)
Fixpoint break (p : ascii -> bool) (s : string) : string * string :=
  match s with
  | EmptyString => (EmptyString, EmptyString)
  | String a s' =>
      if p a then (EmptyString, s)
      else let '(x, r) := break p s' in (String a x, r)
  end.

Definition is_alpha (a : ascii) : bool :=
  let n := nat_of_ascii a in
  (((97 <=? n)%nat && (n <=? 122)%nat) || ((65 <=? n)%nat && (n <=? 90)%nat))%bool.

Definition is_scheme_char (a : ascii) : bool :=
  (is_alpha a || is_Some_b (digit a)
   || Ascii.eqb a "+" || Ascii.eqb a "-" || Ascii.eqb a ".")%bool.

(** [urlparse(u).path] for [scheme://netloc/path?query#fragment] and its
    shorter forms; [None], the [ValueError] of [urlparse], when one of the
    brackets of an IPv6 host stands in the netloc without the other. *)
Definition urlparse_path (u : string) : option string :=
  let '(sch, r) := break (fun a => Ascii.eqb a ":") u in
  let u :=
    match sch, r with
    | String a _, String _ r' =>
        if (is_alpha a && forallb is_scheme_char (list_ascii_of_string sch))%bool
        then r' else u
    | _, _ => u
    end in
  let '(netloc, u) :=
    match PyRe.after_prefix "//" u with
    | Some r =>
        break (fun a => (Ascii.eqb a "/" || Ascii.eqb a "?"
                         || Ascii.eqb a "#")%bool) r
    | None => (EmptyString, u)
    end in
  if negb (Bool.eqb (PyStr.contains "[" netloc) (PyStr.contains "]" netloc))
  then None
  else
    let u := fst (break (fun a => Ascii.eqb a "#") u) in
    Some (fst (break (fun a => Ascii.eqb a "?") u)).

End Ref.

(** ** Fake services for running the model *)

Module Scenario.

Definition job (name result : string) (finish : option string) : TimelineRecord :=
  {| rec_type := Some "Job"; rec_name := Some name;
     rec_result := Some result; rec_finishTime := finish |}.

Definition stage (name result : string) : TimelineRecord :=
  {| rec_type := Some "Stage"; rec_name := Some name;
     rec_result := Some result; rec_finishTime := None |}.

Definition github_repo : Repo :=
  {| repo_type := Some "GitHub"; repo_id := None; repo_name := None;
     repo_url := None;
     repo_properties :=
       Some {[ "cloneUrl" := "https://github.com/acme/app.git" ]} |}.

Definition azure_repo (rid : string) : Repo :=
  {| repo_type := Some "TfsGit"; repo_id := Some rid; repo_name := Some "app";
     repo_url := None; repo_properties := None |}.

Definition build (bid : Z) (sha : string) (repo : Repo) : Build :=
  {| build_id := Some bid; sourceVersion := Some sha;
     repository := Some repo; definition_id := Some 7 |}.

Definition b1 : Build := build 1 "aaa" github_repo.
Definition b2 : Build := build 2 "bbb" (azure_repo "r2").
Definition b3 : Build := build 3 "ccc" (azure_repo "r3").

(** Three pages of one build each, chained by continuation tokens. *)
Definition pages (q : BuildQuery) : result BuildPage :=
  match q_continuationToken q with
  | None => Ok {| page_value := [b1]; page_continuationToken := Some "p2" |}
  | Some t =>
      if String.eqb t "p2"
      then Ok {| page_value := [b2]; page_continuationToken := Some "p3" |}
      else if String.eqb t "p3"
      then Ok {| page_value := [b3]; page_continuationToken := None |}
      else Err HTTPError
  end.

(** Build 1 deploys; build 2 deploys and fails its validation five
    minutes later; build 3 deploys the next day. *)
Definition timelines (bid : option Z) : result (list TimelineRecord) :=
  match bid with
  | Some 1 =>
      Ok [stage "DeployLive" "succeeded";
          job "Build" "succeeded" (Some "2024-01-01T09:30:00Z");
          job "Swap Slots" "Succeeded" (Some "2024-01-01T10:00:01.600000Z")]
  | Some 2 =>
      Ok [job "Swap Slots" "succeeded" (Some "2024-01-02T10:00:00Z");
          job "Validate Swap" "failed" (Some "2024-01-02T10:05:00Z");
          job "Rollback" "succeeded" (Some "2024-01-02T10:10:00Z")]
  | Some 3 =>
      Ok [job "swap" "succeeded" (Some "2024-01-03T10:00:00Z");
          job "Second swap" "failed" (Some "2024-01-03T11:00:00Z")]
  | Some 4 =>
      Ok [job "Swap Slots" "succeeded" None;
          job "Validate Swap" "failed" (Some "2024-01-04T10:05:00Z")]
  | _ => Err HTTPError
  end.

Definition definitions (did : Z) : result (option string) :=
  if did =? 7 then Ok (Some "app-ci") else Err HTTPError.

Definition ado_commits (rid sha : string) : result Commit :=
  if String.eqb rid "r2"
  then Ok {| author_date := Some "2024-01-02T08:00:00Z"; committer_date := None |}
  else if String.eqb rid "r3"
  then Ok {| author_date := None; committer_date := Some "2024-01-03T10:30:00+00:00" |}
  else Err HTTPError.

Definition github (url : string) (headers : list (string * string))
    : result Response :=
  if String.eqb url "https://api.github.com/repos/acme/app/commits/aaa"
  then Ok {| status_code := 200;
             json_commit := Some {| author_date := Some "2024-01-01T10:00:00Z";
                                    committer_date := None |} |}
  else Ok {| status_code := 404; json_commit := None |}.

Definition env : Env :=
  {| fromisoformat := Ref.fromisoformat; localtz := Ref.localtz;
     isoformat := Ref.isoformat; date_isoformat := Ref.date_isoformat;
     urlparse_path := Ref.urlparse_path;
     http_builds := pages; http_timeline := timelines;
     http_definition := definitions; http_ado_commit := ado_commits;
     http_github := github |}.

(** The same services, listing one build whose swap job succeeded without
    a finish time and whose validation failed. *)
Definition b4 : Build := build 4 "ddd" (azure_repo "r2").

Definition env_unfinished_swap : Env :=
  {| fromisoformat := Ref.fromisoformat; localtz := Ref.localtz;
     isoformat := Ref.isoformat; date_isoformat := Ref.date_isoformat;
     urlparse_path := Ref.urlparse_path;
     http_builds :=
       fun _ => Ok {| page_value := [b4]; page_continuationToken := None |};
     http_timeline := timelines;
     http_definition := definitions; http_ado_commit := ado_commits;
     http_github := github |}.

(** The same services with the commit endpoint of Azure Repos failing with
    the exception [e]. *)
Definition env_ado_failing (e : exn) : Env :=
  {| fromisoformat := Ref.fromisoformat; localtz := Ref.localtz;
     isoformat := Ref.isoformat; date_isoformat := Ref.date_isoformat;
     urlparse_path := Ref.urlparse_path;
     http_builds := pages; http_timeline := timelines;
     http_definition := definitions;
     http_ado_commit := fun _ _ => Err e;
     http_github := github |}.

(** The same services with GitHub unreachable. *)
Definition env_github_failing (e : exn) : Env :=
  {| fromisoformat := Ref.fromisoformat; localtz := Ref.localtz;
     isoformat := Ref.isoformat; date_isoformat := Ref.date_isoformat;
     urlparse_path := Ref.urlparse_path;
     http_builds := pages; http_timeline := timelines;
     http_definition := definitions; http_ado_commit := ado_commits;
     http_github := fun _ _ => Err e |}.

Definition at_utc (y m d hh mm ss us : Z) : datetime :=
  {| wall := Ref.days_from_civil y m d * Ref.us_per_day
             + ((hh * 60 + mm) * 60 + ss) * 1000000 + us;
     tzoffset := Some 0 |}.

Definition args (verbose : bool) : Args :=
  {| arg_defs := [7]; arg_since := at_utc 2023 10 10 0 0 0 0;
     arg_until := at_utc 2024 1 8 0 0 0 0;
     arg_branch := Some "refs/heads/main";
     arg_github_token := None; arg_github_repo := None;
     arg_app := "app"; arg_verbose := verbose |}.

End Scenario.

(** ** Notions the statements are written with *)

(** The pages a source serves to [list_builds]: the first answers the query
    sent with the cursor [cont], each next one the query that carries the
    cursor of the page before, and the last one carries no cursor. *)
Inductive served (env : Env) (params : BuildQuery)
  : option string -> list BuildPage -> Prop :=
| served_last cont j :
    http_builds env (set_continuation params cont) = Ok j ->
    nonempty (page_continuationToken j) = None ->
    served env params cont [j]
| served_next cont j c js :
    http_builds env (set_continuation params cont) = Ok j ->
    nonempty (page_continuationToken j) = Some c ->
    served env params (Some c) js ->
    served env params cont (j :: js).

(** A record of kind Job whose lowercased name contains [sub]. *)
Definition is_job_named (sub : string) (r : TimelineRecord) : Prop :=
  rec_type r = Some "Job"
  /\ PyStr.contains sub (PyStr.lower (or_empty (rec_name r))) = true.

(** [r] is the first such record of [recs]. *)
Definition first_job (sub : string) (recs : list TimelineRecord)
    (r : TimelineRecord) : Prop :=
  exists pre post,
    recs = (pre ++ r :: post)%list
    /\ is_job_named sub r
    /\ Forall (fun x => ~ is_job_named sub x) pre.

(** The swap job of [recs] succeeded and finished at [t]. *)
Definition swap_deployed_at (env : Env) (recs : list TimelineRecord)
    (t : datetime) : Prop :=
  exists r,
    first_job "swap" recs r
    /\ PyStr.lower (or_empty (rec_result r)) = "succeeded"
    /\ utc env (rec_finishTime r) = Ok (Some t).




(** Two run states that hold the same Deployments and FailureEvents; the
    console is left out of the comparison. *)
Definition same_data (s1 s2 : run_state) : Prop :=
  deployments s1 = deployments s2 /\ failures s1 = failures s2.

(** Two computations that, from states with the same data, end the same way
    (the same value, the same exception, or both out of fuel) in states with
    the same data. *)
Definition sim {A} (c1 c2 : M A) : Prop :=
  forall s1 s2, same_data s1 s2 ->
    fst (c1 s1) = fst (c2 s2) /\ same_data (snd (c1 s1)) (snd (c2 s2)).

(** A computation that prints nothing. *)
Definition silent {A} (c : M A) : Prop :=
  forall s, console (snd (c s)) = console s.



(** [args] with the verbosity flag set to [v]. *)
Definition with_verbose (v : bool) (args : Args) : Args :=
  {| arg_defs := arg_defs args; arg_since := arg_since args;
     arg_until := arg_until args; arg_branch := arg_branch args;
     arg_github_token := arg_github_token args;
     arg_github_repo := arg_github_repo args;
     arg_app := arg_app args; arg_verbose := v |}.

(** *** The identity of a GitHub-like repository, as the specification
    words it

    The notions below are stated on the texts themselves, with
    concatenation, and not with the functions of the model. *)



















(** ** Notions for the further properties *)

(** A listing that breaks: the query sent with the cursor [cont] is answered
    by [n - 1] pages that each carry a cursor, and the next query fails with
    [e]. *)
Inductive page_failure (env : Env) (params : BuildQuery)
  : option string -> nat -> exn -> Prop :=
| failure_now cont e :
    http_builds env (set_continuation params cont) = Err e ->
    page_failure env params cont 1 e
| failure_later cont j c n e :
    http_builds env (set_continuation params cont) = Ok j ->
    nonempty (page_continuationToken j) = Some c ->
    page_failure env params (Some c) n e ->
    page_failure env params cont (S n) e.

(** The outcome of a call that returns or raises. *)
Definition outcome_of {A} (r : result A) : outcome A :=
  match r with
  | Ok a => Returned a
  | Err e => Raised e
  end.

(** The sum of a list of integers. *)
Definition sum_Z (l : list Z) : Z := List.fold_right Z.add 0 l.

(** Every character of [s] satisfies [p]. *)
Definition all_chars (p : ascii -> bool) (s : string) : Prop :=
  forallb p (list_ascii_of_string s) = true.

(** A source that answers every query with the same page and the same
    cursor. *)
Definition endless_env : Env :=
  {| fromisoformat := Ref.fromisoformat; localtz := Ref.localtz;
     isoformat := Ref.isoformat; date_isoformat := Ref.date_isoformat;
     urlparse_path := Ref.urlparse_path;
     http_builds :=
       fun _ => Ok {| page_value := [Scenario.b1];
                      page_continuationToken := Some "again" |};
     http_timeline := Scenario.timelines;
     http_definition := Scenario.definitions;
     http_ado_commit := Scenario.ado_commits;
     http_github := Scenario.github |}.

(** A source whose second page fails with a server error. *)
Definition broken_page_env : Env :=
  {| fromisoformat := Ref.fromisoformat; localtz := Ref.localtz;
     isoformat := Ref.isoformat; date_isoformat := Ref.date_isoformat;
     urlparse_path := Ref.urlparse_path;
     http_builds :=
       fun q => match q_continuationToken q with
                | None => Ok {| page_value := [Scenario.b1];
                                page_continuationToken := Some "p2" |}
                | Some _ => Err HTTPError
                end;
     http_timeline := Scenario.timelines;
     http_definition := Scenario.definitions;
     http_ado_commit := Scenario.ado_commits;
     http_github := Scenario.github |}.

(** A source with no build in the window. *)
Definition empty_env : Env :=
  {| fromisoformat := Ref.fromisoformat; localtz := Ref.localtz;
     isoformat := Ref.isoformat; date_isoformat := Ref.date_isoformat;
     urlparse_path := Ref.urlparse_path;
     http_builds :=
       fun _ => Ok {| page_value := []; page_continuationToken := None |};
     http_timeline := Scenario.timelines;
     http_definition := Scenario.definitions;
     http_ado_commit := Scenario.ado_commits;
     http_github := Scenario.github |}.

(** The number of deploy times a [daily] dictionary holds. *)
Definition daily_total (m : gmap string (list datetime)) : Z :=
  sum_Z (map (fun kv => Z.of_nat (length (snd kv))) (map_to_list m)).

(** A list of rows in ascending order of a text column. *)
Definition ascending {A} (key : A -> string) (l : list A) : Prop :=
  StronglySorted (fun a b => String.leb (key a) (key b) = true) l.

(** A text without a slash. *)
Definition slash_free (s : string) : Prop :=
  all_chars (fun a => negb (PyStr.is_slash a)) s.

(** An event whose time is aware and carried in UTC. *)
Definition utc_event (e : Event) : Prop := tzoffset (when e) = Some 0.

Definition events_in_utc (s : run_state) : Prop :=
  Forall utc_event (deployments s) /\ Forall utc_event (failures s).

(** ** The start of a run

    [resolve_definition_ids], the constructor of the client, and the part of
    [main] between the reading of the command line and the listing of the
    builds.  The environment variables, the clock and
    [ado_client.list_definitions()] are arguments. *)

(** [s.split(c)] for a one-character separator: the pieces between the
    separators, empty ones included. *)
Fixpoint split_char (c : ascii) (s : string) : list string :=
  match s with
  | EmptyString => [EmptyString]
  | String a s' =>
      if Ascii.eqb a c then EmptyString :: split_char c s'
      else match split_char c s' with
           | h :: t => String a h :: t
           | [] => [String a EmptyString]
           end
  end.

(** [s.strip()] *)
Definition strip_ws (s : string) : string := PyStr.strip PyStr.is_space s.

(** The digits of [int(s)] after the sign: decimal digits, with single
    underscores allowed between two digits. *)
Fixpoint int_digits (acc : Z) (after_digit : bool) (s : string) : option Z :=
  match s with
  | EmptyString => if after_digit then Some acc else None
  | String a s' =>
      match Ref.digit a with
      | Some v => int_digits (10 * acc + v) true s'
      | None =>
          if (Ascii.eqb a "_" && after_digit)%bool then int_digits acc false s'
          else None
      end
  end.

(** [int(s)] on ASCII text; [None] when it raises [ValueError].  (The bound
    of CPython on the number of digits is not modelled.) *)
Definition py_int (s : string) : option Z :=
  match strip_ws s with
  | String a t =>
      if Ascii.eqb a "-" then option_map Z.opp (int_digits 0 false t)
      else if Ascii.eqb a "+" then int_digits 0 false t
      else int_digits 0 false (String a t)
  | EmptyString => None
  end.

(** A pipeline definition as [list_definitions] returns it; [d["id"]] is
    read without a default. *)
Record PipelineDefinition := mk_PipelineDefinition {
  pd_id : Z;
  pd_name : option string
}.

(** A text of ASCII characters, on which [PyStr.lower] and [strip_ws] are
    Python's [lower] and [strip]. *)
Definition ascii_text (s : string) : Prop :=
  all_chars (fun a => (nat_of_ascii a <? 128)%nat) s.

(** The patterns of [resolve_definition_ids]:
    [[s.strip().lower() for s in (names_csv or "").split(",") if s.strip()]] *)
Definition name_patterns (names_csv : option string) : list string :=
  map (fun s => PyStr.lower (strip_ws s))
    (List.filter (fun s => PyStr.truthy (strip_ws s))
       (split_char "," (or_empty names_csv))).

(** [any(p in n for p in pats)] with [n = (d.get("name") or "").lower()] *)
Definition name_matches (pats : list string) (d : PipelineDefinition) : bool :=
  existsb (fun p => PyStr.contains p (PyStr.lower (or_empty (pd_name d)))) pats.

(** [sorted(set(out))] on integers *)
Definition sorted_set (out : list Z) : list Z :=
  sorted Z.ltb id (remove_dups out).

(** [resolve_definition_ids] *)
Definition resolve_definition_ids
    (list_definitions : result (list PipelineDefinition))
    (names_csv : option string) : result (list Z) :=
  let pats := name_patterns names_csv in
  match pats with
  | [] => Ok []
  | _ =>
      match list_definitions with
      | Err e => Err e
      | Ok defs =>
          Ok (sorted_set (map pd_id (List.filter (name_matches pats) defs)))
      end
  end.

(** How the client authenticates. *)
Inductive Auth :=
| BearerAuth (token : string)
| BasicAuth (pat : string).

(** The ways the start of a run ends: it goes on, it stops on [SystemExit],
    or it fails on an exception. *)
Inductive startup (A : Type) :=
| Started (a : A)
| SystemExit (message : string)
| StartFailed (e : exn).
Arguments Started {A} a.
Arguments SystemExit {A} message.
Arguments StartFailed {A} e.

(** The choice of credentials in [ADO.__init__]. *)
Definition ado_auth (getenv : string -> option string) (pat : option string)
    : startup Auth :=
  match nonempty (py_or (getenv "SYSTEM_ACCESSTOKEN") (getenv "AZDO_BEARER")) with
  | Some bearer => Started (BearerAuth bearer)
  | None =>
      match nonempty pat with
      | Some p => Started (BasicAuth p)
      | None =>
          SystemExit "Set SYSTEM_ACCESSTOKEN (in pipeline) or provide --pat / AZDO_PAT"
      end
  end.

(** The command line after [argparse]. *)
Record Cli := mk_Cli {
  cli_pipeline_ids : option string;
  cli_pipeline_names : option string;
  cli_days : Z;
  cli_branch : option string;
  cli_pat : option string;
  cli_github_token : option string;
  cli_github_repo : option string;
  cli_app : option string;
  cli_verbose : bool
}.

(** [[int(x) for x in ids.split(",") if x.strip()]] *)
Fixpoint parse_ids (pieces : list string) : result (list Z) :=
  match pieces with
  | [] => Ok []
  | x :: rest =>
      if PyStr.truthy (strip_ws x) then
        match py_int x with
        | None => Err ValueError
        | Some n =>
            match parse_ids rest with
            | Ok ns => Ok (n :: ns)
            | Err e => Err e
            end
        end
      else parse_ids rest
  end.

(** [s and s.strip()] as a test *)
Definition not_blank (s : option string) : bool :=
  match nonempty s with
  | Some t => PyStr.truthy (strip_ws t)
  | None => false
  end.

(** The choice of the definition ids in [main]. *)
Definition select_definitions
    (list_definitions : result (list PipelineDefinition)) (cli : Cli)
    : startup (list Z) :=
  if not_blank (cli_pipeline_ids cli) then
    match parse_ids (split_char "," (or_empty (cli_pipeline_ids cli))) with
    | Ok defs => Started defs
    | Err e => StartFailed e
    end
  else if not_blank (cli_pipeline_names cli) then
    match resolve_definition_ids list_definitions (cli_pipeline_names cli) with
    | Err e => StartFailed e
    | Ok [] =>
        SystemExit ("No pipeline definitions matched names: "
                    +:+ or_empty (cli_pipeline_names cli))
    | Ok defs => Started defs
    end
  else SystemExit "Provide --pipeline-ids or --pipeline-names".

(** [d + timedelta(microseconds=us)] *)
Definition dt_add (d : datetime) (us : Z) : datetime :=
  {| wall := wall d + us; tzoffset := tzoffset d |}.

(** [main] from the end of [parse_args] to the call of [list_builds]: the
    fallbacks on the environment, the client, the definition ids and the
    window. *)
Definition start (getenv : string -> option string) (now : datetime)
    (list_definitions : result (list PipelineDefinition)) (cli : Cli)
    : startup (Auth * Args) :=
  let github_token := py_or (cli_github_token cli) (getenv "GITHUB_TOKEN") in
  let github_repo := py_or (cli_github_repo cli) (getenv "GITHUB_REPO") in
  let app := or_empty (cli_app cli) in
  match ado_auth getenv (py_or (cli_pat cli) (getenv "AZDO_PAT")) with
  | SystemExit m => SystemExit m
  | StartFailed e => StartFailed e
  | Started auth =>
      match select_definitions list_definitions cli with
      | SystemExit m => SystemExit m
      | StartFailed e => StartFailed e
      | Started defs =>
          let until := dt_add now (5 * 60 * 1000000) in
          let since := dt_add until (- (cli_days cli * 86400 * 1000000)) in
          Started (auth,
                   {| arg_defs := defs; arg_since := since; arg_until := until;
                      arg_branch := cli_branch cli;
                      arg_github_token := github_token;
                      arg_github_repo := github_repo;
                      arg_app := app; arg_verbose := cli_verbose cli |})
      end
  end.

(** A command line and an environment to run the start on. *)
Definition sample_cli : Cli :=
  {| cli_pipeline_ids := Some " 12, ,7 ,1_0"; cli_pipeline_names := Some "app";
     cli_days := 90; cli_branch := Some "refs/heads/main"; cli_pat := None;
     cli_github_token := None; cli_github_repo := None; cli_app := None;
     cli_verbose := false |}.

Definition sample_getenv (name : string) : option string :=
  if String.eqb name "SYSTEM_ACCESSTOKEN" then Some "tok"
  else if String.eqb name "GITHUB_TOKEN" then Some "gh"
  else None.

Definition sample_definitions : list PipelineDefinition :=
  [ {| pd_id := 9; pd_name := Some "App-CI" |};
    {| pd_id := 3; pd_name := Some "Web Deploy" |};
    {| pd_id := 9; pd_name := Some "app nightly" |};
    {| pd_id := 5; pd_name := None |};
    {| pd_id := 4; pd_name := Some "MY-WEB" |} ].

(** The same services with a swap job whose finish time cannot be read. *)
Definition garbled_time_env : Env :=
  {| fromisoformat := Ref.fromisoformat; localtz := Ref.localtz;
     isoformat := Ref.isoformat; date_isoformat := Ref.date_isoformat;
     urlparse_path := Ref.urlparse_path;
     http_builds := Scenario.pages;
     http_timeline :=
       fun _ => Ok [Scenario.job "swap" "succeeded" (Some "yesterday")];
     http_definition := Scenario.definitions;
     http_ado_commit := Scenario.ado_commits;
     http_github := Scenario.github |}.

(** A build that names no commit. *)
Definition build_without_commit : Build :=
  {| build_id := Some 5; sourceVersion := None;
     repository := Some Scenario.github_repo; definition_id := Some 7 |}.

(** A build whose timeline the service does not hold. *)
Definition build_without_timeline : Build :=
  Scenario.build 9 "eee" Scenario.github_repo.

(** The Deployments that fall on the UTC day [day]. *)
Definition deployed_on (env : Env) (day : string) (deps : list Event)
    : list Event :=
  List.filter (fun d => String.eqb (day_key env (when d)) day) deps.

(** * Properties *)

(** ** Sorting *)

Section Sorting.
Context {A K : Type} (lt : K -> K -> bool) (key : A -> K).

Lemma insert_sorted_length (x : A) (l : list A) :
  length (insert_sorted lt key x l) = S (length l).
Proof.
  induction l as [|y l IH]; simpl; [reflexivity|].
  destruct (lt (key y) (key x)); simpl; [now rewrite IH | reflexivity].
Qed.

Lemma sorted_length (l : list A) : length (sorted lt key l) = length l.
Proof.
  induction l as [|x l IH]; simpl; [reflexivity|].
  unfold sorted in *. simpl. now rewrite insert_sorted_length, IH.
Qed.

Lemma insert_sorted_perm (x : A) (l : list A) :
  Permutation (x :: l) (insert_sorted lt key x l).
Proof.
  induction l as [|y l IH]; simpl; [reflexivity|].
  destruct (lt (key y) (key x)); [|reflexivity].
  rewrite <- IH. apply perm_swap.
Qed.

Lemma sorted_perm (l : list A) : Permutation l (sorted lt key l).
Proof.
  induction l as [|x l IH]; [reflexivity|].
  unfold sorted in *. simpl. rewrite <- insert_sorted_perm. now constructor.
Qed.

Lemma elem_of_sorted (x : A) (l : list A) : x ∈ sorted lt key l <-> x ∈ l.
Proof. now rewrite <- sorted_perm. Qed.

End Sorting.

(** ** The time normalizer *)

Section UtcProperties.
Variable env : Env.

Lemma in_range_spec (w : Z) : in_range w = true <-> min_wall <= w <= max_wall.
Proof. unfold in_range. rewrite andb_true_iff, !Z.leb_le. tauto. Qed.

Lemma astimezone_utc_returns (d t : datetime) :
  astimezone_utc env d = Ok t ->
  t = to_utc env d /\ min_wall <= wall t <= max_wall.
Proof.
  unfold astimezone_utc. cbv zeta.
  destruct (in_range (wall (to_utc env d))) eqn:Hr; [|discriminate].
  intros [= <-]. split; [reflexivity | now apply in_range_spec].
Qed.


Lemma string_app_assoc (s t u : string) : (s +:+ t) +:+ u = s +:+ (t +:+ u).
Proof.
  induction s as [|a s IH]; [reflexivity|].
  change (String a ((s +:+ t) +:+ u) = String a (s +:+ (t +:+ u))).
  now rewrite IH.
Qed.




End UtcProperties.

(** ** Change failure rate *)

Section CfrProperties.
Variable env : Env.

(** The summary row computed from the two collections. *)
Lemma cfr_row_formula (args : Args) (deps fails : list Event) :
  let row := cfr_row env args (sorted dt_ltb when deps) fails (cfr_pct deps fails) in
  totalDeployments row = Z.of_nat (length deps)
  /\ failedChanges row = Z.of_nat (length fails)
  /\ changeFailureRatePct row =
       if totalDeployments row =? 0 then 0%float
       else PyFloat.round
              (PrimFloat.mul
                 (PyFloat.truediv (failedChanges row) (totalDeployments row))
                 100%float) 2.
Proof.
  simpl. rewrite sorted_length. split; [reflexivity|]. split; [reflexivity|].
  unfold cfr_pct. destruct deps as [|d deps']; [reflexivity|].
  replace (Z.of_nat (length (d :: deps')) =? 0) with false; [reflexivity|].
  symmetry. apply Z.eqb_neq. simpl length. lia.
Qed.

End CfrProperties.

(** ** The monad *)

Section MonadFacts.
Context {A B : Type}.

Lemma bind_run (c : M A) (f : A -> M B) (s : run_state) :
  (c ≫= f) s = match c s with
               | (Returned a, s') => f a s'
               | (Raised e, s') => (Raised e, s')
               | (OutOfFuel, s') => (OutOfFuel, s')
               end.
Proof. reflexivity. Qed.

Lemma bind_returned (c : M A) (f : A -> M B) (s s' : run_state) (a : A) :
  c s = (Returned a, s') -> (c ≫= f) s = f a s'.
Proof. intros H. now rewrite bind_run, H. Qed.

Lemma bind_raised (c : M A) (f : A -> M B) (s s' : run_state) (e : exn) :
  c s = (Raised e, s') -> (c ≫= f) s = (Raised e, s').
Proof. intros H. now rewrite bind_run, H. Qed.

Lemma lift_ok (a : A) (s : run_state) : lift (Ok a) s = (Returned a, s).
Proof. reflexivity. Qed.

Lemma lift_err (e : exn) (s : run_state) : lift (A := A) (Err e) s = (Raised e, s).
Proof. reflexivity. Qed.

End MonadFacts.

(** ** Pagination *)

Section Pagination.
Variable env : Env.

Lemma nonempty_Some (v : option string) (c : string) :
  nonempty v = Some c -> v = Some c /\ c <> "".
Proof.
  destruct v as [[|a t]|]; simpl; intros H; inversion H; subst.
  split; [reflexivity | discriminate].
Qed.

Lemma set_continuation_twice (p : BuildQuery) (cont : option string) (c : string)
    (cont' : option string) :
  nonempty cont' = Some c ->
  set_continuation (set_continuation p cont) cont' = set_continuation p cont'.
Proof.
  intros H. unfold set_continuation. rewrite H.
  now destruct (nonempty cont).
Qed.

Lemma list_builds_loop_served (p0 : BuildQuery) (cont : option string)
    (pages : list BuildPage) :
  served env p0 cont pages ->
  forall fuel params builds s,
    set_continuation params cont = set_continuation p0 cont ->
    (length pages <= fuel)%nat ->
    list_builds_loop env fuel params builds cont s
    = (Returned (builds ++ concat (map page_value pages))%list, s).
Proof.
  induction 1 as [cont j Hj Hlast | cont j c js Hj Hnext _ IH];
    intros fuel params builds s Hp Hfuel;
    (destruct fuel as [|fuel]; [simpl in Hfuel; lia|]);
    simpl; rewrite bind_run, Hp, Hj, lift_ok.
  - rewrite Hlast. simpl. now rewrite app_nil_r.
  - rewrite Hnext. destruct (nonempty_Some _ _ Hnext) as [Hc _].
    rewrite Hc in *. rewrite IH.
    + now rewrite <- app_assoc.
    + now apply set_continuation_twice with c.
    + simpl in Hfuel. lia.
Qed.

(** C7.  When the source serves the pages [pages] to the query of
    [list_builds] (each page after the first in answer to the cursor of
    the page before, the last one without a cursor), [list_builds] returns,
    for every fuel that covers the number of pages, the builds of all the
    pages in their order, and leaves the run state alone. *)
Theorem list_builds_all_pages (def_ids : list Z) (min_time max_time : datetime)
    (branch : option string) (top : Z) (pages : list BuildPage) :
  served env (list_builds_params env def_ids min_time max_time branch top)
    None pages ->
  forall (fuel : nat) (s : run_state),
    (length pages <= fuel)%nat ->
    list_builds env fuel def_ids min_time max_time branch top s
    = (Returned (concat (map page_value pages)), s).
Proof.
  intros Hserved fuel s Hfuel. unfold list_builds.
  now rewrite (list_builds_loop_served _ _ _ Hserved).
Qed.

End Pagination.

(** ** The timeline analyzer *)

Section Timeline.
Variable env : Env.

Lemma find_first {T} (p : T -> bool) (l : list T) (x : T) :
  List.find p l = Some x <->
  exists pre post, l = (pre ++ x :: post)%list /\ p x = true
                   /\ Forall (fun y => p y = false) pre.
Proof.
  induction l as [|y l IH]; simpl.
  - split; [discriminate|]. intros (pre & post & H & _). now destruct pre.
  - destruct (p y) eqn:Hy.
    + split.
      * intros [= ->]. exists [], l. repeat split; [assumption | constructor].
      * intros (pre & post & H & Hx & Hpre). destruct pre as [|z pre].
        -- now inversion H.
        -- inversion H; subst z. inversion Hpre; congruence.
    + rewrite IH. split.
      * intros (pre & post & -> & Hx & Hpre). exists (y :: pre), post.
        repeat split; [assumption | now constructor].
      * intros (pre & post & H & Hx & Hpre). destruct pre as [|z pre].
        -- inversion H; congruence.
        -- inversion H; subst. inversion Hpre; subst. now exists pre, post.
Qed.

Lemma job_test_spec (sub : string) (r : TimelineRecord) :
  (bool_decide (rec_type r = Some "Job")
   && PyStr.contains sub (PyStr.lower (or_empty (rec_name r))))%bool = true
  <-> is_job_named sub r.
Proof.
  unfold is_job_named. rewrite andb_true_iff, bool_decide_eq_true. reflexivity.
Qed.

(** [has_job] returns the first record of kind Job whose name matches. *)
Lemma has_job_first (recs : list TimelineRecord) (sub : string) (r : TimelineRecord) :
  has_job recs sub = Some r <-> first_job (PyStr.lower sub) recs r.
Proof.
  unfold has_job, has_kind, first_job. rewrite find_first.
  split; intros (pre & post & H & Hr & Hpre); exists pre, post;
    (split; [exact H|]); (split; [now apply job_test_spec|]);
    eapply Forall_impl; try exact Hpre; simpl; intros x Hx.
  - rewrite <- job_test_spec. now rewrite Hx.
  - rewrite <- job_test_spec in Hx. now destruct (_ && _)%bool.
Qed.

Lemma first_job_unique (sub : string) (recs : list TimelineRecord)
    (r r' : TimelineRecord) :
  first_job sub recs r -> first_job sub recs r' -> r = r'.
Proof.
  unfold first_job.
  intros (pre & post & -> & Hr & Hpre) (pre' & post' & H' & Hr' & Hpre').
  revert pre' H' Hpre'. induction pre as [|x pre IH]; intros [|x' pre'] H' Hpre'.
  - now inversion H'.
  - inversion H'; subst. inversion Hpre'; subst. contradiction.
  - inversion H'; subst. inversion Hpre; subst. contradiction.
  - inversion H'; subst. inversion Hpre; subst. inversion Hpre'; subst.
    now apply (IH H3 pre').
Qed.

Lemma post_deploy_failures_deployments (bid : option Z)
    (validate_swap rollback : option TimelineRecord) (s : run_state) :
  deployments (snd (post_deploy_failures env bid validate_swap rollback s))
  = deployments s.
Proof.
  unfold post_deploy_failures. rewrite bind_run.
  destruct (job_result_is validate_swap "failed");
    [|destruct (job_result_is rollback "succeeded")];
    try (rewrite bind_run;
         match goal with |- context [lift ?r] => destruct r as [[t|]|e] end);
    reflexivity.
Qed.

(** What one build adds to [deployments], whether or not the rest of its
    processing raises. *)
Lemma process_build_deployments (verbose : bool)
    (def_names : gmap Z (option string)) (b : Build)
    (recs : list TimelineRecord) (s : run_state) :
  http_timeline env (build_id b) = Ok recs ->
  deployments (snd (process_build env verbose def_names b s))
  = (deployments s ++
     match has_job recs "swap" with
     | Some r =>
         if String.eqb (PyStr.lower (or_empty (rec_result r))) "succeeded" then
           match utc env (rec_finishTime r) with
           | Ok (Some t) => [ {| buildId := build_id b; when := t |} ]
           | _ => []
           end
         else []
     | None => []
     end)%list.
Proof.
  intros Hrecs. unfold process_build, get_timeline.
  rewrite bind_run, Hrecs, lift_ok.
  destruct (has_job recs "swap") as [r|]; unfold job_result_is;
    [|rewrite app_nil_r; reflexivity].
  destruct (String.eqb _ "succeeded"); [|rewrite app_nil_r; reflexivity].
  cbv beta iota. rewrite bind_run.
  change (Some r ≫= rec_finishTime) with (rec_finishTime r).
  destruct (utc env (rec_finishTime r)) as [[t|]|e].
  - rewrite lift_ok, !bind_run. unfold append_deployment at 1.
    unfold print_if at 1. rewrite post_deploy_failures_deployments.
    now destruct verbose.
  - rewrite lift_ok, bind_run. unfold mret, M_ret. cbv beta iota.
    rewrite post_deploy_failures_deployments. now rewrite app_nil_r.
  - rewrite lift_err. simpl. now rewrite app_nil_r.
Qed.

(** C4.  A build adds a Deployment exactly when the first Job record whose
    lowercased name contains "swap" exists, has the result "succeeded" up to
    case, and has a finish time that is present and parses; the Deployment
    then carries the build id and that finish time, and in every other case
    (no such job, another result, no finish time, an unreadable one)
    [deployments] is left as it was. *)
Theorem deployment_iff_swap_succeeded (verbose : bool)
    (def_names : gmap Z (option string)) (b : Build)
    (recs : list TimelineRecord) (s : run_state) :
  http_timeline env (build_id b) = Ok recs ->
  let s' := snd (process_build env verbose def_names b s) in
  ((exists d, deployments s' = (deployments s ++ [d])%list)
   <-> exists t, swap_deployed_at env recs t)
  /\ (forall t, swap_deployed_at env recs t ->
       deployments s' = (deployments s ++ [ {| buildId := build_id b; when := t |} ])%list)
  /\ ((forall t, ~ swap_deployed_at env recs t) -> deployments s' = deployments s).
Proof.
  intros Hrecs s'.
  pose proof (process_build_deployments verbose def_names b recs s Hrecs) as Hd.
  fold s' in Hd.
  assert (Hyes : forall t, swap_deployed_at env recs t ->
            deployments s' = (deployments s ++ [ {| buildId := build_id b; when := t |} ])%list).
  { intros t (r & Hfirst & Hres & Hutc).
    apply (has_job_first recs "swap") in Hfirst.
    rewrite Hd, Hfirst, Hres, Hutc. reflexivity. }
  assert (Hno : (forall t, ~ swap_deployed_at env recs t) ->
            deployments s' = deployments s).
  { intros Hnone. rewrite Hd.
    destruct (has_job recs "swap") as [r|] eqn:Hjob; [|now rewrite app_nil_r].
    destruct (String.eqb_spec (PyStr.lower (or_empty (rec_result r))) "succeeded")
      as [Hres|_]; [|now rewrite app_nil_r].
    destruct (utc env (rec_finishTime r)) as [[t|]|e] eqn:Hutc;
      try now rewrite app_nil_r.
    exfalso. apply (Hnone t). exists r.
    split; [now apply (has_job_first recs "swap")|]. now split. }
  split; [|split; assumption].
  split.
  - intros [d Hadd]. rewrite Hd in Hadd. apply app_inv_head in Hadd.
    destruct (has_job recs "swap") as [r|] eqn:Hjob; [|discriminate].
    destruct (String.eqb_spec (PyStr.lower (or_empty (rec_result r))) "succeeded")
      as [Hres|Hres]; [|discriminate].
    destruct (utc env (rec_finishTime r)) as [[t|]|e] eqn:Hutc; try discriminate.
    exists t, r. split; [now apply (has_job_first recs "swap")|]. now split.
  - intros [t Ht]. exists {| buildId := build_id b; when := t |}.
    apply Hyes, Ht.
Qed.

(** X1.  A FailureEvent is recorded only for a build whose swap job succeeded:
    the test the failure block sits under. *)
Lemma failure_requires_succeeded_swap (verbose : bool)
    (def_names : gmap Z (option string)) (b : Build)
    (recs : list TimelineRecord) (s : run_state) :
  http_timeline env (build_id b) = Ok recs ->
  failures (snd (process_build env verbose def_names b s)) <> failures s ->
  job_result_is (has_job recs "swap") "succeeded" = true.
Proof.
  intros Hrecs. unfold process_build, get_timeline.
  rewrite bind_run, Hrecs, lift_ok.
  destruct (job_result_is (has_job recs "swap") "succeeded"); [reflexivity|].
  intros H. now contradiction H.
Qed.

End Timeline.

(** ** The commit resolver *)

Section CommitResolver.
Variable env : Env.

























Lemma nonempty_spec (x : option string) :
  match nonempty x with
  | Some v => x = Some v /\ v <> ""
  | None => x = None \/ x = Some ""
  end.
Proof.
  unfold nonempty. destruct x as [[|a v]|]; cbn; auto.
Qed.


(** The relation [resolved] names one identity at most. *)


















(** X2.  When the commit request to Azure Repos fails, [get_commit_time] gives
    up with [None] on an [HTTPError] only; every other exception of the
    request leaves it. *)
Lemma azure_lookup_failure (build : Build) (gh_token gh_repo_override : option string)
    (verbose : bool) (sha rid : string) (e : exn) (s : run_state) :
  nonempty (sourceVersion build) = Some sha ->
  let rtype := PyStr.lower (or_empty (repository build ≫= repo_type)) in
  (PyStr.contains "tfs" rtype || PyStr.contains "azure" rtype)%bool = true ->
  nonempty (repository build ≫= repo_id) = Some rid ->
  http_ado_commit env rid sha = Err e ->
  fst (get_commit_time env build gh_token gh_repo_override verbose s)
  = if is_HTTPError e then Returned None else Raised e.
Proof.
  intros Hsha rtype Htype Hrid Herr. unfold get_commit_time.
  rewrite Hsha. fold rtype. rewrite Htype, Hrid.
  unfold try_except, get_ado_commit. rewrite bind_run, Herr, lift_err.
  now destruct e, verbose.
Qed.

(** X3.  The GitHub-like variant returns [None] on every failure of the request
    and on every status other than 200. *)
Lemma github_lookup_failure (build : Build) (gh_token gh_repo_override : option string)
    (verbose : bool) (sha owner_repo : string) (s : run_state) :
  nonempty (sourceVersion build) = Some sha ->
  let rtype := PyStr.lower (or_empty (repository build ≫= repo_type)) in
  (PyStr.contains "tfs" rtype || PyStr.contains "azure" rtype)%bool = false ->
  (PyStr.contains "github" rtype
   || bool_decide (is_Some (nonempty gh_repo_override)))%bool = true ->
  owner_repo_of env gh_repo_override (repository build) = Ok (Some owner_repo) ->
  let url := github_commit_api owner_repo sha
               (default ∅ (repository build ≫= repo_properties)) in
  let headers :=
    (("Accept", "application/vnd.github+json")
       :: match nonempty gh_token with
          | Some t => [("Authorization", "Bearer " +:+ t)]
          | None => []
          end)%list in
  (forall e, http_github env url headers = Err e -> is_RequestException e = true ->
     fst (get_commit_time env build gh_token gh_repo_override verbose s)
     = Returned None)
  /\ (forall r, http_github env url headers = Ok r -> status_code r <> 200 ->
       fst (get_commit_time env build gh_token gh_repo_override verbose s)
       = Returned None).
Proof.
  intros Hsha rtype Hnot Hgh Hid url headers.
  split; [intros e Herr He | intros r Hok Hstatus]; unfold get_commit_time;
    rewrite Hsha; fold rtype; rewrite Hnot, Hgh, bind_run, Hid, lift_ok;
    cbv beta iota; fold url; fold headers;
    unfold try_except; rewrite bind_run.
  - rewrite Herr, lift_err, He. now destruct verbose.
  - rewrite Hok, lift_ok. apply Z.eqb_neq in Hstatus. rewrite Hstatus.
    now destruct verbose.
Qed.

End CommitResolver.

(** ** Recovery times *)

Section Recovery.
Variable env : Env.







End Recovery.

(** ** The record sets of a run *)

Section Run.
Variable env : Env.

(** The outputs of a run that returns, in terms of the Deployments and
    FailureEvents it accumulated and of the rows of its lead-time loop. *)
Lemma main_returned (fuel : nat) (args : Args) (s s' : run_state) (out : Outputs) :
  main env fuel args s = (Returned out, s') ->
  exists builds rows s0,
    lead_loop env args (dep_by_build_of (deployments s0)) builds [] s0
    = (Returned rows, s')
    /\ out =
       {| out_deployments := deployments s0;
          out_failures := failures s0;
          out_frequency :=
            frequency_rows env (arg_app args) (daily_of env (deployments s0));
          out_lead := sorted String.ltb deployTimeUtc rows;
          out_cfr :=
            cfr_row env args (sorted dt_ltb when (deployments s0)) (failures s0)
              (cfr_pct (deployments s0) (failures s0));
          out_mttr :=
            sorted String.ltb failedAtUtc
              (mttr_rows_of env (arg_app args)
                 (sorted dt_ltb when (deployments s0)) (failures s0)) |}.
Proof.
  unfold main. rewrite bind_run.
  destruct (def_names_loop env (arg_defs args) ∅ s) as [[names|e|] t0];
    try discriminate.
  rewrite bind_run.
  destruct (list_builds env fuel _ _ _ _ _ t0) as [[builds|e|] t1];
    try discriminate.
  rewrite bind_run.
  destruct (for_each builds _ t1) as [[[]|e|] s0]; try discriminate.
  rewrite bind_run. unfold get_deployments at 1. cbv beta iota.
  rewrite bind_run. unfold get_failures at 1. cbv beta iota.
  rewrite bind_run.
  destruct (lead_loop env args _ builds [] s0) as [[rows|e|] t2] eqn:Hlead;
    try discriminate.
  intros [= <- <-]. exists builds, rows, s0. split; [exact Hlead | reflexivity].
Qed.

Lemma dep_by_build_lookup (deps : list Event) (k : option Z) (d : Event) :
  dep_by_build_of deps !! k = Some d -> d ∈ deps /\ buildId d = k.
Proof.
  unfold dep_by_build_of.
  assert (H : forall (l : list Event) (m : gmap (option Z) Event),
             (forall k d, m !! k = Some d -> d ∈ deps /\ buildId d = k) ->
             (forall d, d ∈ l -> d ∈ deps) ->
             forall k d,
               foldl (fun (m : gmap (option Z) Event) d => <[buildId d := d]> m) m l
               !! k = Some d ->
               d ∈ deps /\ buildId d = k).
  { induction l as [|x l IH]; intros m Hm Hl k' d'; simpl; [apply Hm|].
    apply IH.
    - intros k0 d0. rewrite lookup_insert. case_decide as Hk.
      + intros [= <-]. split; [apply Hl; left | exact Hk].
      + apply Hm.
    - intros d0 Hd0. apply Hl. now right. }
  apply (H deps ∅); [|trivial].
  intros k0 d0. rewrite lookup_empty. discriminate.
Qed.

(** Every row the lead-time loop adds belongs to a build of the list, its
    Deployment, and a commit time [get_commit_time] returned for it. *)
Lemma lead_loop_rows (args : Args) (dbb : gmap (option Z) Event)
    (builds : list Build) (rows0 rows : list LeadRow) (s s' : run_state) :
  lead_loop env args dbb builds rows0 s = (Returned rows, s') ->
  exists new,
    rows = (rows0 ++ new)%list
    /\ Forall (fun row =>
                exists b dep ct s0 s1,
                  b ∈ builds
                  /\ dbb !! build_id b = Some dep
                  /\ get_commit_time env b (arg_github_token args)
                       (arg_github_repo args) (arg_verbose args) s0
                     = (Returned (Some ct), s1)
                  /\ row = lead_row env (arg_app args) b dep ct) new.
Proof.
  revert rows0 s. induction builds as [|b builds IH]; intros rows0 s; simpl.
  - intros [= <- <-]. exists []. split; [now rewrite app_nil_r | constructor].
  - assert (Hweak : forall rows1 s1,
              lead_loop env args dbb builds rows1 s1 = (Returned rows, s') ->
              exists new,
                rows = (rows1 ++ new)%list
                /\ Forall (fun row =>
                      exists b0 dep ct s0 s2,
                        b0 ∈ b :: builds
                        /\ dbb !! build_id b0 = Some dep
                        /\ get_commit_time env b0 (arg_github_token args)
                             (arg_github_repo args) (arg_verbose args) s0
                           = (Returned (Some ct), s2)
                        /\ row = lead_row env (arg_app args) b0 dep ct) new).
    { intros rows1 s1 H. destruct (IH _ _ H) as (new & -> & Hnew).
      exists new. split; [reflexivity|].
      eapply Forall_impl; [exact Hnew|]. simpl.
      intros row (b0 & dep & ct & s0 & s2 & Hb0 & Hrest).
      exists b0, dep, ct, s0, s2. split; [now right | exact Hrest]. }
    destruct (dbb !! build_id b) as [dep|] eqn:Hdep; [|apply Hweak].
    rewrite bind_run.
    destruct (get_commit_time env b _ _ _ s) as [[[ct|]|e|] s1] eqn:Hct;
      try discriminate; [|apply Hweak].
    intros H. destruct (Hweak _ _ H) as (new & -> & Hnew).
    exists (lead_row env (arg_app args) b dep ct :: new).
    split; [now rewrite <- app_assoc|].
    constructor; [|exact Hnew].
    exists b, dep, ct, s, s1. split; [left|]. now repeat split.
Qed.

(** Cutting toward zero: the whole seconds of a span, with its sign. *)
Lemma round_half_even_cut (a K : Z) :
  0 <= a -> 524288 <= K ->
  PyFloat.round_half_even (a * K) 1000000 / K = a / 1000000.
Proof.
  intros Ha HK. unfold PyFloat.round_half_even. cbv zeta.
  pose proof (Z.div_mod a 1000000 ltac:(lia)) as Hdm.
  pose proof (Z.mod_pos_bound a 1000000 ltac:(lia)) as Hr.
  set (s := a / 1000000) in *. set (r := a mod 1000000) in *.
  assert (HaK : a * K = s * K * 1000000 + r * K) by (rewrite Hdm; ring).
  rewrite HaK, Z.div_add_l by lia.
  rewrite (Z.add_comm (s * K * 1000000)), Z.mod_add by lia.
  assert (HRK : 0 <= r * K <= 999999 * K) by nia.
  pose proof (Z.div_mod (r * K) 1000000 ltac:(lia)) as Hdm2.
  pose proof (Z.mod_pos_bound (r * K) 1000000 ltac:(lia)) as Hr2.
  set (t := r * K / 1000000) in *. set (rem := (r * K) mod 1000000) in *.
  set (RK := r * K) in *.
  symmetry.
  destruct (Z.compare_spec (2 * rem) 1000000) as [Heq|Hlt|Hgt];
    [destruct (Z.even (s * K + t))|..].
  - apply (Z.div_unique _ K s t); [left; lia | ring].
  - apply (Z.div_unique _ K s (t + 1)); [left; lia | ring].
  - apply (Z.div_unique _ K s t); [left; lia | ring].
  - apply (Z.div_unique _ K s (t + 1)); [left; lia | ring].
Qed.

Lemma int_truediv_short (a : Z) :
  0 < a < 2 ^ 34 * 1000000 -> PyFloat.int_truediv a 1000000 = a / 1000000.
Proof.
  intros [Hpos Hshort]. unfold PyFloat.int_truediv. cbv zeta.
  change (Z.log2 1000000) with 19.
  assert (HL : 0 <= Z.log2 a < 54).
  { split; [apply Z.log2_nonneg|]. apply Z.log2_lt_pow2; [lia|].
    change (2 ^ 54) with 18014398509481984.
    change (2 ^ 34) with 17179869184 in Hshort. lia. }
  set (e0 := Z.log2 a - 19 - 52) in *.
  assert (He0 : (0 <=? e0) = false) by (apply Z.leb_gt; lia).
  rewrite He0. cbn [fst snd].
  set (e := if _ <? 2 ^ 52 then e0 - 1 else e0).
  assert (He : e <= -19).
  { subst e. destruct (Z.ltb_spec (a * 2 ^ (- e0) / 1000000) (2 ^ 52)) as [_|Hge];
      [lia|].
    destruct (Z.eq_dec (Z.log2 a) 53) as [H53|]; [|lia]. exfalso.
    assert (- e0 = 18) as Heq by lia. rewrite Heq in Hge.
    assert (a * 2 ^ 18 / 1000000 < 2 ^ 52); [|lia].
    apply Z.div_lt_upper_bound; [lia|].
    change (2 ^ 18) with 262144. change (2 ^ 52) with 4503599627370496.
    change (2 ^ 34) with 17179869184 in Hshort. lia. }
  assert (Hneg : (0 <=? e) = false) by (apply Z.leb_gt; lia).
  rewrite Hneg. cbn [fst snd].
  apply round_half_even_cut; [lia|].
  change 524288 with (2 ^ 19). apply Z.pow_le_mono_r; lia.
Qed.

(** On a short span the exact quotient is the value the binary64
    computation gives. *)
Lemma int_total_seconds_short (td : Z) :
  short_span td -> int_total_seconds td = int_total_seconds_binary64 td.
Proof.
  unfold short_span, int_total_seconds, int_total_seconds_binary64.
  intros Hshort. destruct td as [|p|p].
  - reflexivity.
  - rewrite int_truediv_short by lia. apply Z.quot_div_nonneg; lia.
  - change (- Z.neg p) with (Z.pos p).
    rewrite int_truediv_short by lia.
    change (Z.neg p) with (- Z.pos p). rewrite Z.quot_opp_l by lia.
    f_equal. apply Z.quot_div_nonneg; lia.
Qed.

(** On a longer span it need not be: 19691510400.999999 seconds is nearer
    to the binary64 number 19691510401 than to any below it. *)
Lemma int_total_seconds_long :
  int_total_seconds_binary64 19691510400999999 = 19691510401
  /\ int_total_seconds 19691510400999999 = 19691510400.
Proof. split; reflexivity. Qed.

Lemma int_total_seconds_bounds (td : Z) :
  let q := int_total_seconds td in
  Z.abs q * 1000000 <= Z.abs td < (Z.abs q + 1) * 1000000
  /\ (0 <= td -> 0 <= q)
  /\ (td <= 0 -> q <= 0).
Proof.
  unfold int_total_seconds. cbv zeta.
  Z.to_euclidean_division_equations. lia.
Qed.

(** On a whole number of seconds, cutting and rounding agree. *)
Lemma int_total_seconds_whole (n : Z) :
  int_total_seconds (n * 1000000) = n
  /\ round_total_seconds (n * 1000000) = n.
Proof.
  unfold int_total_seconds, round_total_seconds, PyFloat.round_half_even.
  split; [apply Z.quot_mul; lia|].
  destruct (Z.leb_spec 0 (n * 1000000)).
  - rewrite Z.div_mul, Z.mod_mul by lia. reflexivity.
  - replace (- (n * 1000000)) with (- n * 1000000) by lia.
    rewrite Z.div_mul, Z.mod_mul by lia. simpl. lia.
Qed.

(** C6.  In the summary row of a run, [totalDeployments] and
    [failedChanges] are the numbers of Deployments and of FailureEvents, and
    [changeFailureRatePct] is
    [round(failedChanges / totalDeployments * 100, 2)] when there is a
    Deployment and [0.0] when there is none. *)
Theorem change_failure_rate_formula (fuel : nat) (args : Args)
    (s s' : run_state) (out : Outputs) :
  main env fuel args s = (Returned out, s') ->
  let row := out_cfr out in
  totalDeployments row = Z.of_nat (length (out_deployments out))
  /\ failedChanges row = Z.of_nat (length (out_failures out))
  /\ changeFailureRatePct row =
       if totalDeployments row =? 0 then 0%float
       else PyFloat.round
              (PrimFloat.mul
                 (PyFloat.truediv (failedChanges row) (totalDeployments row))
                 100%float) 2.
Proof.
  intros Hmain. destruct (main_returned _ _ _ _ _ Hmain) as (builds & rows & s0 & _ & ->).
  apply cfr_row_formula.
Qed.


(** C3, as the code has it.  Every lead-time row of a run belongs to a
    build, the Deployment of that build and the commit time resolved for
    it, and, the two being less than [2^34] seconds apart, its
    [leadTimeSeconds] is [int((deployTime - commitTime).total_seconds())]:
    the elapsed time cut toward zero to whole seconds, negative when the
    commit is the later of the two, and equal to the rounded value when the
    elapsed time is a whole number of seconds. *)
Theorem lead_time_seconds_truncated (fuel : nat) (args : Args)
    (s s' : run_state) (out : Outputs) :
  main env fuel args s = (Returned out, s') ->
  Forall (fun row =>
    exists b dep ct s0 s1,
      get_commit_time env b (arg_github_token args) (arg_github_repo args)
        (arg_verbose args) s0 = (Returned (Some ct), s1)
      /\ dep ∈ out_deployments out
      /\ buildId dep = build_id b
      /\ lead_buildId row = build_id b
      /\ commit row = sourceVersion b
      /\ commitTimeUtc row = fmtiso env ct
      /\ deployTimeUtc row = fmtiso env (when dep)
      /\ let td := dt_sub (when dep) ct in
         let secs := leadTimeSeconds row in
         short_span td ->
         secs = int_total_seconds_binary64 td
         /\ secs = Z.quot td 1000000
         /\ Z.abs secs * 1000000 <= Z.abs td < (Z.abs secs + 1) * 1000000
         /\ (0 <= td -> 0 <= secs)
         /\ (td <= 0 -> secs <= 0)
         /\ (td mod 1000000 = 0 -> secs = round_total_seconds td))
    (out_lead out).
Proof.
  intros Hmain.
  destruct (main_returned _ _ _ _ _ Hmain) as (builds & rows & s0 & Hlead & ->).
  cbn [out_lead out_deployments].
  destruct (lead_loop_rows _ _ _ _ _ _ _ Hlead) as (new & -> & Hnew).
  rewrite app_nil_l. rewrite <- (sorted_perm String.ltb deployTimeUtc new).
  eapply Forall_impl; [exact Hnew|]. simpl.
  intros row (b & dep & ct & t0 & t1 & _ & Hdep & Hct & ->).
  apply dep_by_build_lookup in Hdep as [Hin Hid].
  exists b, dep, ct, t0, t1.
  do 7 (split; [first [assumption | reflexivity]|]).
  cbn [leadTimeSeconds lead_row]. cbv zeta. intros Hshort.
  split; [now apply int_total_seconds_short|].
  split; [reflexivity|].
  destruct (int_total_seconds_bounds (dt_sub (when dep) ct)) as (Hb & Hp & Hn).
  do 3 (split; [assumption|]).
  intros Hmod.
  destruct (int_total_seconds_whole (dt_sub (when dep) ct / 1000000)) as [Hi Hr].
  replace (dt_sub (when dep) ct / 1000000 * 1000000) with (dt_sub (when dep) ct)
    in Hi, Hr by (pose proof (Z.div_mod (dt_sub (when dep) ct) 1000000); lia).
  now rewrite Hi, Hr.
Qed.

End Run.

(** ** Verbosity *)

Section Verbosity.
Variable env : Env.

Lemma sim_ret {A} (a : A) : sim (mret a) (mret a).
Proof. intros s1 s2 H. now split. Qed.

Lemma sim_raise {A} (e : exn) : sim (raise (A := A) e) (raise e).
Proof. intros s1 s2 H. now split. Qed.

Lemma sim_out_of_fuel {A} : sim (out_of_fuel (A := A)) out_of_fuel.
Proof. intros s1 s2 H. now split. Qed.

Lemma sim_lift {A} (r : result A) : sim (lift r) (lift r).
Proof. destruct r; [apply sim_ret | apply sim_raise]. Qed.

Lemma sim_bind {A B} (c1 c2 : M A) (f1 f2 : A -> M B) :
  sim c1 c2 -> (forall a, sim (f1 a) (f2 a)) -> sim (c1 ≫= f1) (c2 ≫= f2).
Proof.
  intros Hc Hf s1 s2 H. rewrite !bind_run.
  destruct (Hc s1 s2 H) as [Hv Hs].
  destruct (c1 s1) as [[a1|e1|] t1], (c2 s2) as [[a2|e2|] t2];
    simpl in Hv, Hs; try discriminate.
  - injection Hv as ->. now apply Hf.
  - injection Hv as ->. now split.
  - now split.
Qed.

Lemma sim_try {A} (c1 c2 : M A) (E : exn -> bool) (h1 h2 : exn -> M A) :
  sim c1 c2 -> (forall e, sim (h1 e) (h2 e)) ->
  sim (try_except c1 E h1) (try_except c2 E h2).
Proof.
  intros Hc Hh s1 s2 H. unfold try_except.
  destruct (Hc s1 s2 H) as [Hv Hs].
  destruct (c1 s1) as [[a1|e1|] t1], (c2 s2) as [[a2|e2|] t2];
    simpl in Hv, Hs; try discriminate.
  - now split.
  - injection Hv as ->. destruct (E e2); [now apply Hh | now split].
  - now split.
Qed.

(** A line printed under one flag and not under the other changes nothing
    but the console. *)
Lemma sim_print (v1 v2 : bool) (l1 l2 : log_line) :
  sim (print_if v1 l1) (print_if v2 l2).
Proof. intros s1 s2 H. split; [reflexivity|]. now destruct v1, v2. Qed.

Lemma sim_append_deployment (e : Event) :
  sim (append_deployment e) (append_deployment e).
Proof.
  intros s1 s2 [Hd Hf]. split; [reflexivity|].
  split; simpl; [now rewrite Hd | assumption].
Qed.

Lemma sim_append_failure (e : Event) : sim (append_failure e) (append_failure e).
Proof.
  intros s1 s2 [Hd Hf]. split; [reflexivity|].
  split; simpl; [assumption | now rewrite Hf].
Qed.

Lemma sim_get_deployments : sim get_deployments get_deployments.
Proof. intros s1 s2 [Hd Hf]. split; simpl; [now rewrite Hd | now split]. Qed.

Lemma sim_get_failures : sim get_failures get_failures.
Proof. intros s1 s2 [Hd Hf]. split; simpl; [now rewrite Hf | now split]. Qed.

Lemma sim_for_each {A} (l : list A) (f1 f2 : A -> M unit) :
  (forall x, sim (f1 x) (f2 x)) -> sim (for_each l f1) (for_each l f2).
Proof.
  intros Hf. induction l as [|x l IH]; simpl; [apply sim_ret|].
  apply sim_bind; [apply Hf | intros _; apply IH].
Qed.

(** One step of a proof that two computations differ by their printing
    only: peel a monadic operator, or split on the scrutinee both sides
    share. *)
Ltac sim_step :=
  first
    [ apply sim_ret | apply sim_raise | apply sim_out_of_fuel | apply sim_lift
    | apply sim_print | apply sim_append_deployment | apply sim_append_failure
    | apply sim_get_deployments | apply sim_get_failures
    | apply sim_bind; [|intros ?]
    | apply sim_try; [|intros ?]
    | match goal with
      | |- sim (match ?x with _ => _ end) (match ?x with _ => _ end) => destruct x
      | |- sim (if ?b then _ else _) (if ?b then _ else _) => destruct b
      end ].

Lemma sim_commit_date (c : Commit) : sim (commit_date env c) (commit_date env c).
Proof. unfold commit_date. repeat sim_step. Qed.

Lemma sim_get_commit_time (b : Build) (gh_token gh_repo_override : option string)
    (v1 v2 : bool) :
  sim (get_commit_time env b gh_token gh_repo_override v1)
      (get_commit_time env b gh_token gh_repo_override v2).
Proof.
  unfold get_commit_time, get_ado_commit.
  repeat first [apply sim_commit_date | sim_step].
Qed.

Lemma sim_list_builds_loop (fuel : nat) (params : BuildQuery)
    (builds : list Build) (cont : option string) :
  sim (list_builds_loop env fuel params builds cont)
      (list_builds_loop env fuel params builds cont).
Proof.
  revert params builds cont.
  induction fuel as [|fuel IH]; intros params builds cont; simpl;
    [apply sim_out_of_fuel|].
  repeat first [apply IH | sim_step].
Qed.

Lemma sim_def_names_loop (defs : list Z) (names : gmap Z (option string)) :
  sim (def_names_loop env defs names) (def_names_loop env defs names).
Proof.
  revert names. induction defs as [|d defs IH]; intros names; simpl;
    [apply sim_ret|].
  unfold get_definition. repeat first [apply IH | sim_step].
Qed.

Lemma sim_post_deploy_failures (bid : option Z)
    (validate_swap rollback : option TimelineRecord) :
  sim (post_deploy_failures env bid validate_swap rollback)
      (post_deploy_failures env bid validate_swap rollback).
Proof. unfold post_deploy_failures. repeat sim_step. Qed.

Lemma sim_process_build (v1 v2 : bool) (names : gmap Z (option string))
    (b : Build) :
  sim (process_build env v1 names b) (process_build env v2 names b).
Proof.
  unfold process_build, get_timeline.
  repeat first [apply sim_post_deploy_failures | sim_step].
Qed.

Lemma sim_lead_loop (args : Args) (v1 v2 : bool)
    (dep_by_build : gmap (option Z) Event) (builds : list Build)
    (rows : list LeadRow) :
  sim (lead_loop env (with_verbose v1 args) dep_by_build builds rows)
      (lead_loop env (with_verbose v2 args) dep_by_build builds rows).
Proof.
  revert rows. induction builds as [|b builds IH]; intros rows; simpl;
    [apply sim_ret|].
  destruct (dep_by_build !! build_id b); [|apply IH].
  apply sim_bind; [apply sim_get_commit_time|].
  intros [ct|]; apply IH.
Qed.

Lemma sim_main (fuel : nat) (args : Args) (v1 v2 : bool) :
  sim (main env fuel (with_verbose v1 args)) (main env fuel (with_verbose v2 args)).
Proof.
  unfold main, list_builds. cbn [with_verbose arg_defs arg_since arg_until
    arg_branch arg_github_token arg_github_repo arg_app arg_verbose].
  apply sim_bind; [apply sim_def_names_loop | intros names].
  apply sim_bind; [apply sim_list_builds_loop | intros builds].
  apply sim_bind;
    [apply sim_for_each; intros b; apply sim_process_build | intros _].
  apply sim_bind; [apply sim_get_deployments | intros deps].
  apply sim_bind; [apply sim_get_failures | intros fails].
  apply sim_bind; [apply (sim_lead_loop args v1 v2) | intros rows].
  apply sim_ret.
Qed.

Lemma silent_ret {A} (a : A) : silent (mret a).
Proof. intros s. reflexivity. Qed.

Lemma silent_lift {A} (r : result A) : silent (lift r).
Proof. intros s. now destruct r. Qed.

Lemma silent_bind {A B} (c : M A) (f : A -> M B) :
  silent c -> (forall a, silent (f a)) -> silent (c ≫= f).
Proof.
  intros Hc Hf s. rewrite bind_run. specialize (Hc s).
  destruct (c s) as [[a|e|] t]; simpl in Hc; [|exact Hc..].
  now rewrite Hf.
Qed.

Lemma silent_try {A} (c : M A) (E : exn -> bool) (h : exn -> M A) :
  silent c -> (forall e, silent (h e)) -> silent (try_except c E h).
Proof.
  intros Hc Hh s. unfold try_except. specialize (Hc s).
  destruct (c s) as [[a|e|] t]; simpl in Hc; [exact Hc| |exact Hc].
  destruct (E e); [now rewrite Hh | exact Hc].
Qed.

Lemma silent_for_each {A} (l : list A) (f : A -> M unit) :
  (forall x, silent (f x)) -> silent (for_each l f).
Proof.
  intros Hf. induction l as [|x l IH]; simpl; [apply silent_ret|].
  apply silent_bind; [apply Hf | intros _; apply IH].
Qed.

(** One step of a proof that a computation run without the flag prints
    nothing. *)
Ltac silent_step :=
  first
    [ apply silent_ret | apply silent_lift
    | apply silent_bind; [|intros ?]
    | apply silent_try; [|intros ?]
    | match goal with
      | |- silent (match ?x with _ => _ end) => destruct x
      | |- silent (if ?b then _ else _) => destruct b
      | |- silent _ => intros ?; reflexivity
      end ].

Lemma silent_get_commit_time (b : Build) (gh_token gh_repo_override : option string) :
  silent (get_commit_time env b gh_token gh_repo_override false).
Proof.
  unfold get_commit_time, get_ado_commit, commit_date. repeat silent_step.
Qed.

Lemma silent_list_builds_loop (fuel : nat) (params : BuildQuery)
    (builds : list Build) (cont : option string) :
  silent (list_builds_loop env fuel params builds cont).
Proof.
  revert params builds cont.
  induction fuel as [|fuel IH]; intros params builds cont; simpl;
    [intros s; reflexivity|].
  repeat first [apply IH | silent_step].
Qed.

Lemma silent_def_names_loop (defs : list Z) (names : gmap Z (option string)) :
  silent (def_names_loop env defs names).
Proof.
  revert names. induction defs as [|d defs IH]; intros names; simpl;
    [apply silent_ret|].
  unfold get_definition. repeat first [apply IH | silent_step].
Qed.

Lemma silent_process_build (names : gmap Z (option string)) (b : Build) :
  silent (process_build env false names b).
Proof.
  unfold process_build, get_timeline, post_deploy_failures.
  repeat silent_step.
Qed.

Lemma silent_lead_loop (args : Args) (dep_by_build : gmap (option Z) Event)
    (builds : list Build) (rows : list LeadRow) :
  silent (lead_loop env (with_verbose false args) dep_by_build builds rows).
Proof.
  revert rows. induction builds as [|b builds IH]; intros rows; simpl;
    [apply silent_ret|].
  destruct (dep_by_build !! build_id b); [|apply IH].
  apply silent_bind; [apply silent_get_commit_time|].
  intros [ct|]; apply IH.
Qed.

Lemma silent_main (fuel : nat) (args : Args) :
  silent (main env fuel (with_verbose false args)).
Proof.
  unfold main, list_builds. cbn [with_verbose arg_defs arg_since arg_until
    arg_branch arg_github_token arg_github_repo arg_app arg_verbose].
  apply silent_bind; [apply silent_def_names_loop | intros names].
  apply silent_bind; [apply silent_list_builds_loop | intros builds].
  apply silent_bind;
    [apply silent_for_each; intros b; apply silent_process_build | intros _].
  apply silent_bind; [intros s; reflexivity | intros deps].
  apply silent_bind; [intros s; reflexivity | intros fails].
  apply silent_bind; [apply (silent_lead_loop args) | intros rows].
  apply silent_ret.
Qed.

(** C9.  From the same inputs and the same starting state, a run with the
    verbosity flag set and a run without it end the same way: either both
    return the same record sets (Deployments, FailureEvents, daily
    aggregates, lead-time rows, change-failure-rate summary, MTTR rows), or
    both raise the same exception, or both exhaust the same fuel; they
    leave the same Deployments and FailureEvents behind; and the run without
    the flag prints nothing. *)
Theorem verbose_does_not_change_outputs (fuel : nat) (args : Args) (s : run_state) :
  let quiet := main env fuel (with_verbose false args) s in
  let loud := main env fuel (with_verbose true args) s in
  fst loud = fst quiet
  /\ deployments (snd loud) = deployments (snd quiet)
  /\ failures (snd loud) = failures (snd quiet)
  /\ console (snd quiet) = console s.
Proof.
  destruct (sim_main fuel args true false s s) as [Hv [Hd Hf]]; [now split|].
  repeat split; try assumption. apply silent_main.
Qed.

End Verbosity.

(** ** Runs on the fake services *)


(** The bounds of [datetime] are the first and the last microsecond of the
    calendar. *)
Example calendar_bounds :
  min_wall = wall (Scenario.at_utc 1 1 1 0 0 0 0)
  /\ max_wall = wall (Scenario.at_utc 9999 12 31 23 59 59 999999).
Proof. split; reflexivity. Qed.


Lemma list_builds_all_pages_witness :
  list_builds Scenario.env 3 [7] (arg_since (Scenario.args false))
    (arg_until (Scenario.args false)) (Some "refs/heads/main") 200 initial_state
  = (Returned [Scenario.b1; Scenario.b2; Scenario.b3], initial_state).
Proof.
  apply (list_builds_all_pages Scenario.env [7] _ _ (Some "refs/heads/main") 200
           [ {| page_value := [Scenario.b1]; page_continuationToken := Some "p2" |};
             {| page_value := [Scenario.b2]; page_continuationToken := Some "p3" |};
             {| page_value := [Scenario.b3]; page_continuationToken := None |} ]).
  - eapply served_next; [reflexivity | reflexivity |].
    eapply served_next; [reflexivity | reflexivity |].
    apply served_last; reflexivity.
  - simpl. lia.
Defined.

Lemma deployment_iff_swap_succeeded_witness :
  let s' := snd (process_build Scenario.env false ∅ Scenario.b1 initial_state) in
  deployments s'
  = [ {| buildId := Some 1; when := Scenario.at_utc 2024 1 1 10 0 1 600000 |} ].
Proof.
  destruct (deployment_iff_swap_succeeded Scenario.env false ∅ Scenario.b1
              [Scenario.stage "DeployLive" "succeeded";
               Scenario.job "Build" "succeeded" (Some "2024-01-01T09:30:00Z");
               Scenario.job "Swap Slots" "Succeeded"
                 (Some "2024-01-01T10:00:01.600000Z")]
              initial_state eq_refl) as (_ & H & _).
  apply (H (Scenario.at_utc 2024 1 1 10 0 1 600000)).
  exists (Scenario.job "Swap Slots" "Succeeded" (Some "2024-01-01T10:00:01.600000Z")).
  split; [|split; reflexivity].
  exists [Scenario.stage "DeployLive" "succeeded";
          Scenario.job "Build" "succeeded" (Some "2024-01-01T09:30:00Z")], [].
  split; [reflexivity|]. split; [split; reflexivity|].
  repeat constructor; intros [H1 H2]; discriminate.
Defined.

(** C1, on the code.  A build whose swap job succeeded without a finish
    time and whose validate job failed: the run records a FailureEvent for
    build 4 and no Deployment at all, and the summary counts one failed
    change over zero deployments. *)
Theorem failure_recorded_without_deployment :
  exists out,
    fst (main Scenario.env_unfinished_swap 1 (Scenario.args false) initial_state)
    = Returned out
    /\ out_deployments out = []
    /\ out_failures out
       = [ {| buildId := Some 4; when := Scenario.at_utc 2024 1 4 10 5 0 0 |} ]
    /\ totalDeployments (out_cfr out) = 0
    /\ failedChanges (out_cfr out) = 1.
Proof. eexists. repeat split; vm_compute; reflexivity. Qed.

(** C2, on the code.  With the commit endpoint of Azure Repos failing on
    the transport ([ConnectionError], or [Timeout]), [get_commit_time]
    raises instead of returning [None], and the run of [main] ends on that
    exception; an HTTP error status on the same endpoint, and a transport
    error on the GitHub one, do give [None]. *)
Theorem azure_transport_error_propagates :
  get_commit_time (Scenario.env_ado_failing ConnectionError) Scenario.b2
    None None false initial_state
  = (Raised ConnectionError, initial_state)
  /\ fst (get_commit_time (Scenario.env_ado_failing Timeout) Scenario.b2
            None None false initial_state)
     = Raised Timeout
  /\ fst (main (Scenario.env_ado_failing ConnectionError) 3
            (Scenario.args false) initial_state)
     = Raised ConnectionError
  /\ fst (get_commit_time (Scenario.env_ado_failing HTTPError) Scenario.b2
            None None false initial_state)
     = Returned None
  /\ fst (get_commit_time (Scenario.env_github_failing ConnectionError) Scenario.b1
            None None false initial_state)
     = Returned None.
Proof. repeat split; vm_compute; reflexivity. Qed.



(** The candidates one by one, on the reference [urlparse]. *)
Example extract_owner_repo_examples :
  let repo name id url props :=
    Some {| repo_type := Some "GitHub"; repo_id := id; repo_name := name;
            repo_url := url; repo_properties := Some props |} in
  let resolve r := extract_owner_repo Scenario.env r in
  resolve (repo None None None
             {[ "fullName" := "acme/app";
                "apiUrl" := "https://api.github.com/repos/x/y" ]})
  = Ok (Some "acme/app")
  /\ resolve (repo None None None
                {[ "fullName" := "app"; "repoFullName" := "o/r" ]})
     = Ok (Some "o/r")
  /\ resolve (repo None None None
                {[ "apiUrl" := "https://ghe.example/api/v3/repos/acme/app/commits" ]})
     = Ok (Some "acme/app")
  /\ resolve (repo None None (Some "/repos//a/repos/b/c/d") ∅)
     = Ok (Some "b/c")
  /\ resolve (repo (Some "n/m") None (Some "https://api.github.com/repos/o/r")
                {[ "apiUrl" := "https://x" ]})
     = Ok (Some "n/m")
  /\ resolve (repo None None None
                {[ "cloneUrl" := "https://github.com//acme/app.git/" ]})
     = Ok (Some "acme/app")
  /\ resolve (repo (Some "acme/app") None None
                {[ "cloneUrl" := "https://github.com/app.git" ]})
     = Ok (Some "acme/app")
  /\ resolve (repo (Some "app") (Some "acme/app") None ∅) = Ok (Some "acme/app")
  /\ resolve (repo (Some "app") (Some "42") None ∅) = Ok None
  /\ resolve None = Ok None.
Proof. cbv zeta. repeat split; vm_compute; reflexivity. Qed.


(** Discharges the cases in which the scenario's run would not return. *)
Ltac scenario_returns H := exfalso; vm_compute in H; discriminate H.

Lemma change_failure_rate_formula_witness :
  exists out s',
    main Scenario.env 3 (Scenario.args false) initial_state = (Returned out, s')
    /\ let row := out_cfr out in
       totalDeployments row = Z.of_nat (length (out_deployments out))
       /\ failedChanges row = Z.of_nat (length (out_failures out))
       /\ changeFailureRatePct row =
            if totalDeployments row =? 0 then 0%float
            else PyFloat.round
                   (PrimFloat.mul
                      (PyFloat.truediv (failedChanges row) (totalDeployments row))
                      100%float) 2.
Proof.
  destruct (main Scenario.env 3 (Scenario.args false) initial_state)
    as [[out|e|] s'] eqn:Hmain; [|scenario_returns Hmain..].
  exists out, s'. split; [reflexivity|].
  exact (change_failure_rate_formula Scenario.env 3 (Scenario.args false)
           initial_state s' out Hmain).
Defined.


Lemma lead_time_seconds_truncated_witness :
  exists out s',
    main Scenario.env 3 (Scenario.args false) initial_state = (Returned out, s')
    /\ Forall (fun row =>
         exists b dep ct s0 s1,
           get_commit_time Scenario.env b None None false s0
           = (Returned (Some ct), s1)
           /\ dep ∈ out_deployments out
           /\ buildId dep = build_id b
           /\ lead_buildId row = build_id b
           /\ commit row = sourceVersion b
           /\ commitTimeUtc row = fmtiso Scenario.env ct
           /\ deployTimeUtc row = fmtiso Scenario.env (when dep)
           /\ let td := dt_sub (when dep) ct in
              let secs := leadTimeSeconds row in
              short_span td ->
              secs = int_total_seconds_binary64 td
              /\ secs = Z.quot td 1000000
              /\ Z.abs secs * 1000000 <= Z.abs td < (Z.abs secs + 1) * 1000000
              /\ (0 <= td -> 0 <= secs)
              /\ (td <= 0 -> secs <= 0)
              /\ (td mod 1000000 = 0 -> secs = round_total_seconds td))
         (out_lead out)
    /\ map leadTimeSeconds (out_lead out) = [1; 7200; -1800].
Proof.
  destruct (main Scenario.env 3 (Scenario.args false) initial_state)
    as [[out|e|] s'] eqn:Hmain; [|scenario_returns Hmain..].
  pose proof Hmain as Hrun. vm_compute in Hrun. injection Hrun as Hout _.
  exists out, s'. split; [reflexivity|]. split.
  - exact (lead_time_seconds_truncated Scenario.env 3 (Scenario.args false)
             initial_state s' out Hmain).
  - rewrite <- Hout. reflexivity.
Defined.

(** C3, as stated, fails: the first build of the scenario is deployed 1.6 s
    after its commit; the row says 1 second, the rounded value is 2. *)
Lemma lead_time_seconds_not_rounded :
  exists out row deploy_time commit_time,
    fst (main Scenario.env 3 (Scenario.args false) initial_state) = Returned out
    /\ In row (out_lead out)
    /\ Ref.fromisoformat (deployTimeUtc row) = Some deploy_time
    /\ Ref.fromisoformat (commitTimeUtc row) = Some commit_time
    /\ dt_sub deploy_time commit_time = 1600000
    /\ leadTimeSeconds row = 1
    /\ round_total_seconds (dt_sub deploy_time commit_time) = 2
    /\ leadTimeSeconds row <> round_total_seconds (dt_sub deploy_time commit_time).
Proof.
  eexists; eexists; eexists; eexists.
  split; [vm_compute; reflexivity|].
  split; [left; reflexivity|].
  split; [vm_compute; reflexivity|].
  split; [vm_compute; reflexivity|].
  repeat split; vm_compute; congruence.
Qed.

(** The run of the three-build scenario: three Deployments on three days,
    one FailureEvent, paired with the Deployment of the next day. *)
Example scenario_run :
  match fst (main Scenario.env 3 (Scenario.args false) initial_state) with
  | Returned out =>
      map buildId (out_deployments out) = [Some 1; Some 2; Some 3]
      /\ map buildId (out_failures out) = [Some 2]
      /\ map (fun r => (date r, freq_deployments r)) (out_frequency out)
         = [("2024-01-01", 1); ("2024-01-02", 1); ("2024-01-03", 1)]
      /\ map (fun r => (lead_buildId r, leadTimeSeconds r, leadTimeHuman r))
           (out_lead out)
         = [(Some 1, 1, "1s"); (Some 2, 7200, "2h 0m 0s");
            (Some 3, -1800, "-30m 0s")]
      /\ map (fun r => (failedBuildId r, failedAtUtc r, restoredBuildId r,
                        restoredAtUtc r, mttrSeconds r, mttrHuman r))
           (out_mttr out)
         = [(Some 2, "2024-01-02T10:05:00+00:00", Some 3,
             "2024-01-03T10:00:00+00:00", 86100, "23h 55m 0s")]
  | _ => False
  end.
Proof. vm_compute. repeat split. Qed.

(** With two rounds of fuel the listing of the three pages is cut short,
    and so is the run. *)
Example scenario_run_short_of_fuel :
  fst (main Scenario.env 2 (Scenario.args true) initial_state) = OutOfFuel.
Proof. vm_compute. reflexivity. Qed.

(** A verbose run prints one trace per Deployment. *)
Example scenario_run_console :
  length (console (snd (main Scenario.env 3 (Scenario.args true) initial_state))) = 3%nat
  /\ console (snd (main Scenario.env 3 (Scenario.args false) initial_state)) = [].
Proof. split; vm_compute; reflexivity. Qed.

Example human_dur_examples :
  human_dur 93784 = "1d 2h 3m 4s" /\ human_dur 3600 = "1h 0m 0s"
  /\ human_dur 59 = "59s" /\ human_dur (-59) = "-59s" /\ human_dur 0 = "0s".
Proof. repeat split; vm_compute; reflexivity. Qed.

Example github_commit_api_examples :
  github_commit_api "acme/app" "abc"
    {[ "apiUrl" := "https://ghe.example.com/api/v3/repos/acme/app/" ]}
  = "https://ghe.example.com/api/v3/repos/acme/app/commits/abc"
  /\ github_commit_api "acme/app" "abc"
       {[ "apiUrl" := "https://api.github.com/repos/acme/app/branches" ]}
     = "https://api.github.com/repos/acme/app/commits/abc"
  /\ github_commit_api "acme/app" "abc" {[ "apiUrl" := "https://example.com/x" ]}
     = "https://api.github.com/repos/acme/app/commits/abc".
Proof. repeat split; vm_compute; reflexivity. Qed.

(** * Further properties *)

(** ** The listing of builds *)

Section ListingFailures.
Variable env : Env.

Lemma list_builds_loop_page_failure (p0 : BuildQuery) (cont : option string)
    (n : nat) (e : exn) :
  page_failure env p0 cont n e ->
  forall fuel params builds s,
    set_continuation params cont = set_continuation p0 cont ->
    (n <= fuel)%nat ->
    list_builds_loop env fuel params builds cont s = (Raised e, s).
Proof.
  induction 1 as [cont e He | cont j c n e Hj Hnext _ IH];
    intros fuel params builds s Hp Hfuel;
    (destruct fuel as [|fuel]; [lia|]);
    simpl; rewrite bind_run, Hp.
  - now rewrite He, lift_err.
  - rewrite Hj, lift_ok, Hnext.
    destruct (nonempty_Some _ _ Hnext) as [Hc _]. rewrite Hc in *.
    apply IH; [now apply set_continuation_twice with c | lia].
Qed.

(** X4.  When the query for some page fails, [list_builds] raises the exception
    of that query: the builds of the pages read before it are not returned,
    and the run state is left alone. *)
Theorem list_builds_page_failure (def_ids : list Z) (min_time max_time : datetime)
    (branch : option string) (top : Z) (n : nat) (e : exn) :
  page_failure env (list_builds_params env def_ids min_time max_time branch top)
    None n e ->
  forall (fuel : nat) (s : run_state),
    (n <= fuel)%nat ->
    list_builds env fuel def_ids min_time max_time branch top s = (Raised e, s).
Proof.
  intros Hfail fuel s Hfuel. unfold list_builds.
  now apply (list_builds_loop_page_failure _ _ _ _ Hfail).
Qed.

Lemma list_builds_loop_endless :
  (forall q, exists j c,
      http_builds env q = Ok j /\ nonempty (page_continuationToken j) = Some c) ->
  forall fuel params builds cont s,
    list_builds_loop env fuel params builds cont s = (OutOfFuel, s).
Proof.
  intros Hall. induction fuel as [|fuel IH]; intros params builds cont s;
    [reflexivity|].
  simpl. rewrite bind_run.
  destruct (Hall (set_continuation params cont)) as (j & c & Hj & Hc).
  rewrite Hj, lift_ok, Hc. apply IH.
Qed.

(** X5.  Against a source that puts a non-empty cursor on every page,
    [list_builds] never returns: whatever the number of rounds allowed, the
    loop is still asking for the next page. *)
Theorem list_builds_endless (def_ids : list Z) (min_time max_time : datetime)
    (branch : option string) (top : Z) :
  (forall q, exists j c,
      http_builds env q = Ok j /\ nonempty (page_continuationToken j) = Some c) ->
  forall (fuel : nat) (s : run_state),
    list_builds env fuel def_ids min_time max_time branch top s = (OutOfFuel, s).
Proof. intros Hall fuel s. now apply list_builds_loop_endless. Qed.

Lemma def_names_loop_run (defs : list Z) (names : gmap Z (option string))
    (s : run_state) :
  exists names', def_names_loop env defs names s = (Returned names', s).
Proof.
  revert names. induction defs as [|x defs IH]; intros names.
  - now exists names.
  - simpl. rewrite bind_run. unfold try_except, get_definition.
    rewrite bind_run.
    destruct (http_definition env x) as [name|e].
    + rewrite lift_ok. cbv beta iota. apply IH.
    + rewrite lift_err. cbv beta iota. simpl. apply IH.
Qed.

(** X6.  The lookups of definition names never end the run: the loop returns,
    with the names of the definitions whose lookup succeeded added to the
    dictionary and nothing recorded for the others. *)
Theorem def_names_loop_returns (defs : list Z) (names : gmap Z (option string))
    (s : run_state) :
  exists names',
    def_names_loop env defs names s = (Returned names', s)
    /\ forall d,
         names' !! d =
           if bool_decide (d ∈ defs)
           then match http_definition env d with
                | Ok name => Some name
                | Err _ => names !! d
                end
           else names !! d.
Proof.
  revert names. induction defs as [|x defs IH]; intros names.
  - exists names. split; [reflexivity|]. intros d.
    rewrite bool_decide_eq_false_2; [reflexivity | apply not_elem_of_nil].
  - simpl. rewrite bind_run. unfold try_except, get_definition.
    rewrite bind_run.
    destruct (http_definition env x) as [name|e] eqn:Hx.
    + rewrite lift_ok. cbv beta iota.
      destruct (IH (<[x := name]> names)) as (names' & Hrun & Hlook).
      exists names'. split; [exact Hrun|]. intros d. rewrite Hlook.
      destruct (decide (d = x)) as [->|Hne].
      * rewrite (bool_decide_eq_true_2 (x ∈ x :: defs)) by left.
        rewrite Hx, lookup_insert_eq. now case_bool_decide.
      * rewrite lookup_insert_ne by congruence.
        assert (Hiff : d ∈ x :: defs <-> d ∈ defs)
          by (rewrite elem_of_cons; tauto).
        now rewrite (bool_decide_ext _ _ Hiff).
    + rewrite lift_err. cbv beta iota. simpl.
      destruct (IH names) as (names' & Hrun & Hlook).
      exists names'. split; [exact Hrun|]. intros d. rewrite Hlook.
      destruct (decide (d = x)) as [->|Hne].
      * rewrite (bool_decide_eq_true_2 (x ∈ x :: defs)) by left.
        rewrite Hx. now case_bool_decide.
      * assert (Hiff : d ∈ x :: defs <-> d ∈ defs)
          by (rewrite elem_of_cons; tauto).
        now rewrite (bool_decide_ext _ _ Hiff).
Qed.

End ListingFailures.

(** ** One build of the loop *)

Section BuildStep.
Variable env : Env.

Lemma for_each_raises {A} (x : A) (l : list A) (body : A -> M unit)
    (e : exn) (s s' : run_state) :
  body x s = (Raised e, s') -> for_each (x :: l) body s = (Raised e, s').
Proof. intros H. simpl. now rewrite bind_run, H. Qed.

(** X7.  A timeline that cannot be fetched ends the loop over the builds with
    the exception of the request: the build is not skipped, the builds after
    it are not looked at, and nothing is recorded for it. *)
Theorem timeline_failure_ends_the_loop (verbose : bool)
    (def_names : gmap Z (option string)) (b : Build) (rest : list Build)
    (e : exn) (s : run_state) :
  http_timeline env (build_id b) = Err e ->
  for_each (b :: rest) (process_build env verbose def_names) s = (Raised e, s).
Proof.
  intros Herr. apply for_each_raises. unfold process_build, get_timeline.
  now rewrite bind_run, Herr, lift_err.
Qed.

(** X8.  A swap job that succeeded with a finish time the parser rejects makes
    the processing of its build raise [ValueError], before anything is
    recorded. *)
Theorem unreadable_swap_finish_time_raises (verbose : bool)
    (def_names : gmap Z (option string)) (b : Build)
    (recs : list TimelineRecord) (r : TimelineRecord) (txt : string)
    (s : run_state) :
  http_timeline env (build_id b) = Ok recs ->
  has_job recs "swap" = Some r ->
  PyStr.lower (or_empty (rec_result r)) = "succeeded" ->
  nonempty (rec_finishTime r) = Some txt ->
  fromisoformat env (PyStr.replace_char "Z" "+00:00" txt) = None ->
  process_build env verbose def_names b s = (Raised ValueError, s).
Proof.
  intros Hrecs Hswap Hres Htxt Hparse. unfold process_build, get_timeline.
  rewrite bind_run, Hrecs, lift_ok. cbv zeta. rewrite Hswap.
  unfold job_result_is. rewrite Hres, String.eqb_refl.
  rewrite bind_run. change (Some r ≫= rec_finishTime) with (rec_finishTime r).
  unfold utc at 1. rewrite Htxt, Hparse. reflexivity.
Qed.

(** What one build adds to [failures] when its processing returns. *)
Lemma post_deploy_failures_failures (bid : option Z)
    (validate_swap rollback : option TimelineRecord) (s : run_state) :
  failures (snd (post_deploy_failures env bid validate_swap rollback s))
  = (failures s ++
     if job_result_is validate_swap "failed" then
       match utc env (validate_swap ≫= rec_finishTime) with
       | Ok (Some t) => [ {| buildId := bid; when := t |} ]
       | _ => []
       end
     else if job_result_is rollback "succeeded" then
       match utc env (rollback ≫= rec_finishTime) with
       | Ok (Some t) => [ {| buildId := bid; when := t |} ]
       | _ => []
       end
     else [])%list.
Proof.
  unfold post_deploy_failures. rewrite bind_run.
  destruct (job_result_is validate_swap "failed");
    [|destruct (job_result_is rollback "succeeded")];
    try (rewrite bind_run;
         match goal with |- context [lift ?r] => destruct r as [[t|]|e] end);
    simpl; now rewrite ?app_nil_r.
Qed.

Lemma process_build_failures (verbose : bool)
    (def_names : gmap Z (option string)) (b : Build)
    (recs : list TimelineRecord) (s : run_state) :
  http_timeline env (build_id b) = Ok recs ->
  failures (snd (process_build env verbose def_names b s))
  = (failures s ++
     if job_result_is (has_job recs "swap") "succeeded" then
       match utc env (has_job recs "swap" ≫= rec_finishTime) with
       | Err _ => []
       | Ok _ =>
           if job_result_is (has_job recs "validate") "failed" then
             match utc env (has_job recs "validate" ≫= rec_finishTime) with
             | Ok (Some t) => [ {| buildId := build_id b; when := t |} ]
             | _ => []
             end
           else if job_result_is (has_job recs "rollback") "succeeded" then
             match utc env (has_job recs "rollback" ≫= rec_finishTime) with
             | Ok (Some t) => [ {| buildId := build_id b; when := t |} ]
             | _ => []
             end
           else []
       end
     else [])%list.
Proof.
  intros Hrecs. unfold process_build, get_timeline.
  rewrite bind_run, Hrecs, lift_ok. cbv zeta.
  destruct (job_result_is (has_job recs "swap") "succeeded");
    [|rewrite app_nil_r; reflexivity].
  rewrite bind_run.
  destruct (utc env (has_job recs "swap" ≫= rec_finishTime)) as [[t|]|e].
  - rewrite lift_ok, !bind_run. unfold append_deployment at 1.
    unfold print_if at 1. rewrite post_deploy_failures_failures.
    now destruct verbose.
  - rewrite lift_ok, bind_run. unfold mret, M_ret. cbv beta iota.
    now rewrite post_deploy_failures_failures.
  - rewrite lift_err. simpl. now rewrite app_nil_r.
Qed.

(** X9.  Between the two signs of a failed change the validation comes first:
    once the swap job succeeded (and its finish time did not raise), a
    validate job with the result "failed" decides alone, so that the
    FailureEvent carries its finish time whatever the rollback job says, and
    a failed validation without a finish time gives no FailureEvent even
    when a rollback succeeded; the rollback job is looked at only when no
    validation failed. *)
Theorem validation_failure_comes_first (verbose : bool)
    (def_names : gmap Z (option string)) (b : Build)
    (recs : list TimelineRecord) (s : run_state) (o : option datetime) :
  http_timeline env (build_id b) = Ok recs ->
  job_result_is (has_job recs "swap") "succeeded" = true ->
  utc env (has_job recs "swap" ≫= rec_finishTime) = Ok o ->
  let s' := snd (process_build env verbose def_names b s) in
  let event_at (r : result (option datetime)) :=
    match r with
    | Ok (Some t) => [ {| buildId := build_id b; when := t |} ]
    | _ => []
    end in
  (job_result_is (has_job recs "validate") "failed" = true ->
     failures s'
     = (failures s ++ event_at (utc env (has_job recs "validate" ≫= rec_finishTime)))%list)
  /\ (job_result_is (has_job recs "validate") "failed" = false ->
      job_result_is (has_job recs "rollback") "succeeded" = true ->
      failures s'
      = (failures s ++ event_at (utc env (has_job recs "rollback" ≫= rec_finishTime)))%list)
  /\ (job_result_is (has_job recs "validate") "failed" = false ->
      job_result_is (has_job recs "rollback") "succeeded" = false ->
      failures s' = failures s).
Proof.
  intros Hrecs Hswap Hutc s' event_at. subst s'.
  rewrite (process_build_failures _ _ _ _ _ Hrecs), Hswap, Hutc.
  repeat split.
  - now intros ->.
  - now intros -> ->.
  - intros -> ->. now rewrite app_nil_r.
Qed.

(** X10.  One build never touches the events recorded before it and adds at most
    one Deployment and at most one FailureEvent, both under its own build
    id; this holds as well when its processing raises. *)
Theorem process_build_adds_at_most_one (verbose : bool)
    (def_names : gmap Z (option string)) (b : Build) (s : run_state) :
  let s' := snd (process_build env verbose def_names b s) in
  exists ds fs,
    deployments s' = (deployments s ++ ds)%list
    /\ failures s' = (failures s ++ fs)%list
    /\ (length ds <= 1)%nat
    /\ (length fs <= 1)%nat
    /\ Forall (fun d => buildId d = build_id b) (ds ++ fs).
Proof.
  cbv zeta.
  destruct (http_timeline env (build_id b)) as [recs|e] eqn:Hrecs.
  - rewrite (process_build_deployments env _ _ _ _ _ Hrecs),
            (process_build_failures _ _ _ _ _ Hrecs).
    eexists; eexists. split; [reflexivity|]. split; [reflexivity|].
    split; [|split].
    + destruct (has_job recs "swap") as [r|]; [|simpl; lia].
      destruct (String.eqb _ "succeeded"); [|simpl; lia].
      destruct (utc env (rec_finishTime r)) as [[t|]|e]; simpl; lia.
    + destruct (job_result_is (has_job recs "swap") "succeeded"); [|simpl; lia].
      destruct (utc env (has_job recs "swap" ≫= rec_finishTime)); [|simpl; lia].
      destruct (job_result_is (has_job recs "validate") "failed");
        [|destruct (job_result_is (has_job recs "rollback") "succeeded")];
        try (simpl; lia);
        match goal with |- context [utc env ?x] =>
          destruct (utc env x) as [[t|]|e] end; simpl; lia.
    + apply Forall_app. split.
      * destruct (has_job recs "swap") as [r|]; [|constructor].
        destruct (String.eqb _ "succeeded"); [|constructor].
        destruct (utc env (rec_finishTime r)) as [[t|]|e];
          repeat constructor.
      * destruct (job_result_is (has_job recs "swap") "succeeded"); [|constructor].
        destruct (utc env (has_job recs "swap" ≫= rec_finishTime)); [|constructor].
        destruct (job_result_is (has_job recs "validate") "failed");
          [|destruct (job_result_is (has_job recs "rollback") "succeeded")];
          try constructor;
          match goal with |- context [utc env ?x] =>
            destruct (utc env x) as [[t|]|e] end; repeat constructor.
  - exists [], []. unfold process_build, get_timeline.
    rewrite bind_run, Hrecs, lift_err. simpl. rewrite !app_nil_r.
    repeat split; try lia. constructor.
Qed.

End BuildStep.

(** ** Runs and their aggregates *)

Section Aggregates.
Variable env : Env.

(** X11.  A window without builds is not an error: the run returns, with no
    Deployment, no FailureEvent, no row in the three row sets, and a summary
    that counts zero over zero at the rate [0.0]. *)
Theorem main_without_builds (fuel : nat) (args : Args) (j : BuildPage) :
  http_builds env
    (list_builds_params env (arg_defs args) (arg_since args) (arg_until args)
       (arg_branch args) 200) = Ok j ->
  page_value j = [] ->
  nonempty (page_continuationToken j) = None ->
  fst (main env (S fuel) args initial_state)
  = Returned
      {| out_deployments := []; out_failures := []; out_frequency := [];
         out_lead := [];
         out_cfr :=
           {| cfr_app := arg_app args;
              windowStartUtc := fmtiso env (arg_since args);
              windowEndUtc := fmtiso env (arg_until args);
              totalDeployments := 0; failedChanges := 0;
              changeFailureRatePct := 0%float |};
         out_mttr := [] |}.
Proof.
  intros Hj Hnil Hlast. unfold main. rewrite bind_run.
  destruct (def_names_loop_run env (arg_defs args) ∅ initial_state)
    as (names & ->).
  rewrite bind_run. unfold list_builds.
  set (p0 := list_builds_params env (arg_defs args) (arg_since args)
               (arg_until args) (arg_branch args) 200) in *.
  rewrite (list_builds_loop_served env p0 None [j]);
    [|now apply served_last | reflexivity | simpl; lia].
  simpl concat. rewrite Hnil. simpl.
  unfold frequency_rows, daily_of. simpl foldl.
  rewrite fmap_empty, map_to_list_empty. reflexivity.
Qed.

Lemma sum_Z_perm (l l' : list Z) : Permutation l l' -> sum_Z l = sum_Z l'.
Proof.
  induction 1 as [|x l l' _ IH|x y l|l l' l'' _ IH1 _ IH2]; simpl;
    [reflexivity | now rewrite IH | lia | congruence].
Qed.

Lemma daily_total_insert_fresh (m : gmap string (list datetime)) (k : string)
    (l : list datetime) :
  m !! k = None ->
  daily_total (<[k := l]> m) = Z.of_nat (length l) + daily_total m.
Proof.
  intros Hk. unfold daily_total.
  rewrite (sum_Z_perm _ _ (Permutation_map _ (map_to_list_insert m k l Hk))).
  reflexivity.
Qed.

Lemma daily_total_insert (m : gmap string (list datetime)) (k : string)
    (l : list datetime) :
  daily_total (<[k := l]> m)
  = daily_total m - Z.of_nat (length (default [] (m !! k))) + Z.of_nat (length l).
Proof.
  destruct (m !! k) as [old|] eqn:Hk; simpl.
  - pose proof (daily_total_insert_fresh (delete k m) k old (lookup_delete_eq m k)) as Eold.
    pose proof (daily_total_insert_fresh (delete k m) k l (lookup_delete_eq m k)) as Enew.
    rewrite (insert_delete_id m k old Hk) in Eold.
    rewrite insert_delete_eq in Enew. lia.
  - rewrite daily_total_insert_fresh by exact Hk. lia.
Qed.

Lemma daily_total_fmap (f : list datetime -> list datetime)
    (m : gmap string (list datetime)) :
  (forall l, length (f l) = length l) ->
  daily_total (f <$> m) = daily_total m.
Proof.
  intros Hf. unfold daily_total. rewrite map_to_list_fmap. f_equal.
  induction (map_to_list m) as [|[k l] L IH]; [reflexivity|].
  cbn [fmap list_fmap map prod_map snd]. now rewrite Hf, <- IH.
Qed.

(** Every deploy time is filed under exactly one day, and no day is kept
    without a deploy time. *)
Lemma daily_of_total (deps : list Event) :
  daily_total (daily_of env deps) = Z.of_nat (length deps)
  /\ (forall k l, daily_of env deps !! k = Some l -> l <> []).
Proof.
  unfold daily_of. cbv zeta.
  set (step := fun (daily : gmap string (list datetime)) (d : Event) =>
                 <[day_key env (when d) :=
                     (default [] (daily !! day_key env (when d)) ++ [when d])%list]>
                   daily).
  assert (H : forall (l : list Event) (m : gmap string (list datetime)),
             (forall k v, m !! k = Some v -> v <> []) ->
             daily_total (foldl step m l) = daily_total m + Z.of_nat (length l)
             /\ (forall k v, foldl step m l !! k = Some v -> v <> [])).
  { induction l as [|d l IH]; intros m Hm; simpl.
    - split; [lia | exact Hm].
    - destruct (IH (step m d)) as [Ht Hne].
      + intros k v. unfold step. rewrite lookup_insert. case_decide.
        * intros [= <-]. now destruct (default [] _).
        * apply Hm.
      + split; [|exact Hne]. rewrite Ht. unfold step.
        rewrite daily_total_insert, length_app. simpl. lia. }
  destruct (H deps ∅) as [Ht Hne].
  { intros k v. rewrite lookup_empty. discriminate. }
  split.
  - rewrite daily_total_fmap by apply sorted_length. rewrite Ht.
    unfold daily_total. rewrite map_to_list_empty. reflexivity.
  - intros k l. rewrite lookup_fmap.
    destruct (foldl step ∅ deps !! k) as [v|] eqn:Hk; [|discriminate].
    intros [= <-]. intros Hnil. apply (Hne k v Hk).
    apply (f_equal length) in Hnil. rewrite sorted_length in Hnil.
    now destruct v.
Qed.

Lemma omap_sum_aux (g : string -> option FrequencyRow)
    (L : list (string * list datetime)) :
  Forall (fun kv => exists r, g (fst kv) = Some r
                              /\ freq_deployments r = Z.of_nat (length (snd kv))) L ->
  sum_Z (map freq_deployments (omap g (map fst L)))
  = sum_Z (map (fun kv => Z.of_nat (length (snd kv))) L).
Proof.
  induction 1 as [|[k l] L (r & Hr & Hc) _ IH]; [reflexivity|].
  cbn [map fst snd] in *.
  change (omap g (k :: map fst L))
    with (match g k with
          | Some y => y :: omap g (map fst L)
          | None => omap g (map fst L)
          end).
  rewrite Hr. unfold sum_Z in *. cbn [map fold_right]. now rewrite IH, Hc.
Qed.

Lemma frequency_rows_total (app : string) (m : gmap string (list datetime)) :
  (forall k l, m !! k = Some l -> l <> []) ->
  sum_Z (map freq_deployments (frequency_rows env app m)) = daily_total m
  /\ Forall (fun r => 1 <= freq_deployments r) (frequency_rows env app m).
Proof.
  intros Hne. unfold frequency_rows.
  set (g := fun day : string => _).
  split.
  - rewrite (sum_Z_perm _ (map freq_deployments (omap g (map fst (map_to_list m))))).
    2:{ apply Permutation_map. apply omap_Permutation. symmetry. apply sorted_perm. }
    unfold daily_total. apply omap_sum_aux.
    apply Forall_forall. intros [k l] Hkl. apply elem_of_map_to_list in Hkl.
    cbn [fst snd]. unfold g. rewrite Hkl.
    destruct l as [|t l]; [now destruct (Hne k [] Hkl)|].
    eexists. split; reflexivity.
  - apply Forall_forall. intros r Hr. apply list_elem_of_omap in Hr as (k & _ & Hk).
    unfold g in Hk. destruct (m !! k) as [[|t l]|]; try discriminate.
    injection Hk as <-. simpl. lia.
Qed.

(** X12.  The daily counts of a run add up to its number of Deployments, the
    [totalDeployments] of the summary, and every reported day has at least
    one. *)
Theorem daily_counts_add_up (fuel : nat) (args : Args) (s s' : run_state)
    (out : Outputs) :
  main env fuel args s = (Returned out, s') ->
  sum_Z (map freq_deployments (out_frequency out))
  = Z.of_nat (length (out_deployments out))
  /\ sum_Z (map freq_deployments (out_frequency out))
     = totalDeployments (out_cfr out)
  /\ Forall (fun r => 1 <= freq_deployments r) (out_frequency out).
Proof.
  intros Hmain.
  destruct (main_returned env _ _ _ _ _ Hmain) as (builds & rows & s0 & _ & ->).
  cbn [out_frequency out_deployments out_cfr cfr_row totalDeployments].
  destruct (daily_of_total (deployments s0)) as [Ht Hne].
  destruct (frequency_rows_total (arg_app args) _ Hne) as [Hsum Hpos].
  rewrite sorted_length, Hsum, Ht. now repeat split.
Qed.

Lemma string_ltb_leb (a b : string) : String.ltb a b = true -> String.leb a b = true.
Proof. unfold String.ltb, String.leb. now destruct (String.compare a b). Qed.

Lemma string_not_ltb_leb (a b : string) :
  String.ltb b a = false -> String.leb a b = true.
Proof.
  unfold String.ltb, String.leb. rewrite (String.compare_antisym b a).
  now destruct (String.compare a b).
Qed.

Lemma string_leb_trans (a b c : string) :
  String.leb a b = true -> String.leb b c = true -> String.leb a c = true.
Proof.
  intros Hab Hbc. apply Is_true_true. apply Is_true_true in Hab, Hbc.
  change (String.le a c). now transitivity b.
Qed.

Lemma insert_sorted_ascending {A} (key : A -> string) (x : A) (l : list A) :
  ascending key l -> ascending key (insert_sorted String.ltb key x l).
Proof.
  unfold ascending.
  induction 1 as [|y l Hl IH Hy]; simpl; [repeat constructor|].
  destruct (String.ltb (key y) (key x)) eqn:Hlt.
  - constructor; [assumption|].
    rewrite <- (insert_sorted_perm String.ltb key x l).
    constructor; [now apply string_ltb_leb | assumption].
  - apply string_not_ltb_leb in Hlt.
    constructor; [now constructor|].
    constructor; [assumption|].
    eapply Forall_impl; [exact Hy|]. simpl. intros z Hz.
    now apply string_leb_trans with (key y).
Qed.

Lemma sorted_ascending {A} (key : A -> string) (l : list A) :
  ascending key (sorted String.ltb key l).
Proof.
  induction l as [|x l IH]; [constructor|].
  apply insert_sorted_ascending, IH.
Qed.

Lemma omap_ascending {A B} (keyA : A -> string) (keyB : B -> string)
    (g : A -> option B) (l : list A) :
  (forall a b, g a = Some b -> keyB b = keyA a) ->
  ascending keyA l -> ascending keyB (omap g l).
Proof.
  intros Hg. unfold ascending. induction 1 as [|x l Hl IH Hx]; [constructor|].
  change (omap g (x :: l))
    with (match g x with Some y => y :: omap g l | None => omap g l end).
  destruct (g x) as [y|] eqn:Hy; [|exact IH].
  constructor; [exact IH|].
  apply Forall_forall. intros z Hz.
  apply list_elem_of_omap in Hz as (a & Ha & Hga).
  rewrite (Hg _ _ Hy), (Hg _ _ Hga).
  rewrite Forall_forall in Hx. now apply Hx.
Qed.

(** X13.  The three row sets of a run come out in ascending order of the text of
    their leading time column: the days by date, the lead-time rows by
    [deployTimeUtc], the MTTR rows by [failedAtUtc]. *)
Theorem row_sets_are_ordered (fuel : nat) (args : Args) (s s' : run_state)
    (out : Outputs) :
  main env fuel args s = (Returned out, s') ->
  ascending date (out_frequency out)
  /\ ascending deployTimeUtc (out_lead out)
  /\ ascending failedAtUtc (out_mttr out).
Proof.
  intros Hmain.
  destruct (main_returned env _ _ _ _ _ Hmain) as (builds & rows & s0 & _ & ->).
  cbn [out_frequency out_lead out_mttr].
  split; [|split; apply sorted_ascending].
  unfold frequency_rows. apply (omap_ascending id); [|apply sorted_ascending].
  intros day r.
  destruct (daily_of env (deployments s0) !! day) as [[|t l]|]; try discriminate.
  now intros [= <-].
Qed.

End Aggregates.

(** ** More on the commit resolver *)

Section ResolverMore.
Variable env : Env.

Lemma contains_slash_app (x y : string) :
  PyStr.contains "/" (x +:+ "/" +:+ y) = true.
Proof.
  induction x as [|a x IH].
  - destruct y; reflexivity.
  - change (String a x +:+ "/" +:+ y) with (String a (x +:+ "/" +:+ y)).
    cbn [PyStr.contains]. rewrite IH. now destruct (PyStr.startswith _ _).
Qed.

Lemma owner_repo_at_slash (s v rest : string) :
  PyRe.owner_repo_at s = Some (v, rest) -> PyStr.contains "/" v = true.
Proof.
  unfold PyRe.owner_repo_at.
  destruct (PyStr.span_nonslash s) as [x r].
  destruct x as [|a x]; [discriminate|]. destruct r as [|c r]; [discriminate|].
  destruct (PyStr.span_nonslash r) as [y rest'].
  destruct y as [|b y]; [discriminate|].
  intros [= <- _]. apply contains_slash_app.
Qed.

Lemma first_some_Some {A B} (f : A -> option B) (l : list A) (y : B) :
  PyRe.first_some f l = Some y -> exists x, In x l /\ f x = Some y.
Proof.
  induction l as [|x l IH]; simpl; [discriminate|].
  destruct (f x) as [z|] eqn:Hx.
  - intros [= <-]. exists x. now split; [left|].
  - intros H. destruct (IH H) as (x' & Hin & Hx'). exists x'. now split; [right|].
Qed.

Lemma search_repos_slash (s g : string) :
  PyRe.search_repos s = Some g -> PyStr.contains "/" g = true.
Proof.
  unfold PyRe.search_repos. intros H.
  apply first_some_Some in H as (t & _ & Ht).
  unfold PyRe.repos_at in Ht.
  destruct (PyRe.after_prefix "/repos/" t) as [r|]; [|discriminate].
  destruct (PyRe.owner_repo_at r) as [[v rest]|] eqn:Hr; [|discriminate].
  injection Ht as <-. now apply owner_repo_at_slash with r rest.
Qed.

Lemma has_slash_Some (v : option string) (s : string) :
  has_slash v = Some s -> PyStr.contains "/" s = true.
Proof.
  unfold has_slash. destruct (nonempty v) as [t|]; [|discriminate].
  destruct (PyStr.contains "/" t) eqn:Ht; [|discriminate]. now intros [= <-].
Qed.

(** X14.  When it returns, [extract_owner_repo] returns [None] or a text that
    contains a slash (so never an empty identity), and it returns [None] for
    an absent descriptor; it raises nothing but the [ValueError] of
    [urlparse], and only on a non-empty clone URL that [urlparse] rejects. *)
Theorem extract_owner_repo_has_slash (repo : option Repo) :
  match extract_owner_repo env repo with
  | Ok (Some v) => PyStr.contains "/" v = true /\ v <> ""
  | Ok None => True
  | Err e =>
      e = ValueError
      /\ exists clone,
           default ∅ (repo ≫= repo_properties) !! "cloneUrl" = Some clone
           /\ clone <> "" /\ urlparse_path env clone = None
  end
  /\ extract_owner_repo env None = Ok None.
Proof.
  split; [|reflexivity].
  assert (Hne : forall v, PyStr.contains "/" v = true ->
                  PyStr.contains "/" v = true /\ v <> "").
  { intros v Hv. split; [exact Hv|]. intros ->. discriminate. }
  unfold extract_owner_repo. destruct repo as [r|]; [|exact I].
  cbv zeta. cbn [mbind option_bind].
  destruct (PyRe.first_some _ _) as [w|] eqn:H1.
  { apply first_some_Some in H1 as (k & _ & Hk).
    apply Hne. now apply has_slash_Some in Hk. }
  destruct (nonempty _ ≫= PyRe.search_repos) as [g|] eqn:H2.
  { destruct (nonempty (py_or _ _)) as [u|]; [|discriminate].
    apply Hne. now apply search_repos_slash with u. }
  assert (Hname : match PyRe.first_some has_slash [repo_name r; repo_id r] with
                  | Some v => PyStr.contains "/" v = true /\ v <> ""
                  | None => True
                  end).
  { destruct (PyRe.first_some has_slash _) as [v|] eqn:H3; [|exact I].
    apply first_some_Some in H3 as (k & _ & Hk).
    apply Hne. now apply has_slash_Some in Hk. }
  pose proof (nonempty_spec (default ∅ (repo_properties r) !! "cloneUrl"))
    as Hclone.
  destruct (nonempty (default ∅ (repo_properties r) !! "cloneUrl")) as [clone|].
  - destruct Hclone as [Hclone Hnonempty].
    destruct (urlparse_path env clone) as [p|] eqn:Hp.
    + destruct (PyStr.contains "/" _) eqn:H3; [now apply Hne | exact Hname].
    + split; [reflexivity|]. now exists clone.
  - exact Hname.
Qed.

Lemma string_cons_app (a : ascii) (s t : string) :
  String a s +:+ t = String a (s +:+ t).
Proof. reflexivity. Qed.

Lemma rstrip_all (p : ascii -> bool) (t : string) :
  all_chars p t -> PyStr.rstrip p t = "".
Proof.
  unfold all_chars. induction t as [|a t IH]; simpl; [reflexivity|].
  intros H. apply andb_true_iff in H as [Ha Ht]. now rewrite (IH Ht), Ha.
Qed.

Lemma rstrip_app_all (p : ascii -> bool) (s t : string) :
  all_chars p t -> PyStr.rstrip p (s +:+ t) = PyStr.rstrip p s.
Proof.
  intros Ht. induction s as [|a s IH].
  - now apply rstrip_all.
  - rewrite string_cons_app. cbn [PyStr.rstrip]. now rewrite IH.
Qed.

Lemma rstrip_free (p : ascii -> bool) (r : string) :
  r <> "" -> all_chars (fun a => negb (p a)) r -> PyStr.rstrip p r = r.
Proof.
  unfold all_chars. induction r as [|a r IH]; [congruence|].
  intros _ H. simpl in H. apply andb_true_iff in H as [Ha Hr].
  cbn [PyStr.rstrip]. destruct r as [|b r].
  - simpl. now destruct (p a).
  - rewrite IH by (assumption || discriminate). reflexivity.
Qed.

Lemma rstrip_keep (p : ascii -> bool) (s t : string) :
  PyStr.rstrip p t <> "" -> PyStr.rstrip p (s +:+ t) = s +:+ PyStr.rstrip p t.
Proof.
  intros Ht. induction s as [|a s IH]; [reflexivity|].
  rewrite !string_cons_app. cbn [PyStr.rstrip]. rewrite IH.
  destruct (s +:+ PyStr.rstrip p t) eqn:E; [|reflexivity].
  destruct s; [now destruct Ht | discriminate].
Qed.

Lemma span_nonslash_app (o t : string) :
  slash_free o ->
  PyStr.span_nonslash (o +:+ "/" +:+ t) = (o, "/" +:+ t).
Proof.
  unfold slash_free, all_chars. induction o as [|a o IH]; intros H.
  - reflexivity.
  - simpl in H. apply andb_true_iff in H as [Ha Ho].
    rewrite string_cons_app. cbn [PyStr.span_nonslash].
    apply negb_true_iff in Ha. rewrite Ha, (IH Ho). reflexivity.
Qed.

Lemma span_nonslash_free (r : string) :
  slash_free r -> PyStr.span_nonslash r = (r, "").
Proof.
  unfold slash_free, all_chars. induction r as [|a r IH]; intros H.
  - reflexivity.
  - simpl in H. apply andb_true_iff in H as [Ha Hr].
    cbn [PyStr.span_nonslash]. apply negb_true_iff in Ha.
    rewrite Ha, (IH Hr). reflexivity.
Qed.

Lemma suffixes_app (pre t : string) : In t (PyStr.suffixes (pre +:+ t)).
Proof.
  induction pre as [|a pre IH].
  - destruct t; left; reflexivity.
  - rewrite string_cons_app. cbn [PyStr.suffixes]. now right.
Qed.

Lemma repos_at_exact (o r : string) :
  o <> "" -> r <> "" -> slash_free o -> slash_free r ->
  PyRe.repos_at ("/repos/" +:+ o +:+ "/" +:+ r) = Some (o +:+ "/" +:+ r, "").
Proof.
  intros Ho Hr Fo Fr. unfold PyRe.repos_at.
  change (PyRe.after_prefix "/repos/" ("/repos/" +:+ o +:+ "/" +:+ r))
    with (PyRe.after_prefix "" (o +:+ "/" +:+ r)).
  cbn [PyRe.after_prefix]. unfold PyRe.owner_repo_at.
  rewrite (span_nonslash_app o r Fo).
  destruct o as [|a o]; [congruence|].
  change ("/" +:+ r) with (String "/" r). cbv beta iota.
  rewrite (span_nonslash_free r Fr).
  destruct r as [|b r]; [congruence|]. reflexivity.
Qed.

(** X15.  An [apiUrl] property that ends on a [/repos/<owner>/<repo>] segment,
    with or without slashes after it, is the base of the commit URL: the
    identity passed to [github_commit_api] is not used then, be it the
    override of the command line. *)
Theorem api_url_base_is_reused (owner_repo sha pre o r slashes : string)
    (props : gmap string string) :
  o <> "" -> r <> "" -> slash_free o -> slash_free r ->
  all_chars PyStr.is_slash slashes ->
  props !! "apiUrl" = Some (pre +:+ "/repos/" +:+ o +:+ "/" +:+ r +:+ slashes) ->
  github_commit_api owner_repo sha props
  = pre +:+ "/repos/" +:+ o +:+ "/" +:+ r +:+ "/commits/" +:+ sha.
Proof.
  intros Ho Hr Fo Fr Hs Hprop. unfold github_commit_api. rewrite Hprop.
  assert (Hstrip : PyStr.rstrip PyStr.is_slash (r +:+ slashes) = r).
  { rewrite rstrip_app_all by exact Hs. now apply rstrip_free. }
  assert (Hbase : PyStr.rstrip PyStr.is_slash
                    (pre +:+ "/repos/" +:+ o +:+ "/" +:+ r +:+ slashes)
                  = pre +:+ "/repos/" +:+ o +:+ "/" +:+ r).
  { assert (K : forall s t t', PyStr.rstrip PyStr.is_slash t = t' -> t' <> "" ->
                  PyStr.rstrip PyStr.is_slash (s +:+ t) = s +:+ t'
                  /\ s +:+ t' <> "").
    { intros s t t' <- Hne. split; [now apply rstrip_keep|].
      destruct s; [exact Hne | discriminate]. }
    destruct (K "/" _ _ Hstrip Hr) as [H1 N1].
    destruct (K o _ _ H1 N1) as [H2 N2].
    destruct (K "/repos/" _ _ H2 N2) as [H3 N3].
    now destruct (K pre _ _ H3 N3) as [H4 _]. }
  assert (Hne : nonempty (Some (pre +:+ "/repos/" +:+ o +:+ "/" +:+ r +:+ slashes))
                = Some (pre +:+ "/repos/" +:+ o +:+ "/" +:+ r +:+ slashes)).
  { unfold nonempty. now destruct pre. }
  rewrite Hne. cbv zeta. rewrite Hbase.
  assert (Hend : PyRe.search_repos_end (pre +:+ "/repos/" +:+ o +:+ "/" +:+ r) = true).
  { unfold PyRe.search_repos_end. apply existsb_exists.
    exists ("/repos/" +:+ o +:+ "/" +:+ r). split; [apply suffixes_app|].
    now rewrite repos_at_exact. }
  rewrite Hend. now rewrite !string_app_assoc.
Qed.

Lemma utc_raises (x : option string) (e : exn) :
  utc env x = Err e -> e = ValueError \/ e = OverflowError.
Proof.
  unfold utc. destruct (nonempty x) as [s|]; [|discriminate].
  destruct (fromisoformat env _) as [d|]; [|intros [= <-]; now left].
  unfold astimezone_utc. cbv zeta.
  destruct (in_range _); [discriminate|]. intros [= <-]. now right.
Qed.

Lemma utc_nonempty (x : option string) : utc env (nonempty x) = utc env x.
Proof. unfold utc. now destruct x as [[|a s]|]. Qed.

Lemma commit_date_run (c : Commit) (s : run_state) :
  commit_date env c s
  = (outcome_of (utc env (py_or (author_date c) (committer_date c))), s).
Proof.
  unfold commit_date. rewrite <- (utc_nonempty (py_or _ _)).
  destruct (nonempty (py_or (author_date c) (committer_date c))) as [dt|] eqn:Hdt.
  - destruct (nonempty_Some _ _ Hdt) as [_ Hne].
    now destruct (utc env (Some dt)).
  - reflexivity.
Qed.

(** X16.  A commit of Azure Repos is dated by its author date, and by its
    committer date when the author date is missing or empty; the date goes
    through [utc], whose exceptions ([ValueError] on a text it cannot read,
    [OverflowError] on a date that leaves the calendar in UTC) are not
    caught by the handler of the lookup and leave [get_commit_time]; nothing
    else is raised once the commit is fetched. *)
Theorem azure_commit_date_author_first (build : Build)
    (gh_token gh_repo_override : option string) (verbose : bool)
    (sha rid : string) (c : Commit) (s : run_state) :
  nonempty (sourceVersion build) = Some sha ->
  let rtype := PyStr.lower (or_empty (repository build ≫= repo_type)) in
  (PyStr.contains "tfs" rtype || PyStr.contains "azure" rtype)%bool = true ->
  nonempty (repository build ≫= repo_id) = Some rid ->
  http_ado_commit env rid sha = Ok c ->
  let r := fst (get_commit_time env build gh_token gh_repo_override verbose s) in
  (forall a, nonempty (author_date c) = Some a ->
     r = outcome_of (utc env (Some a)))
  /\ (nonempty (author_date c) = None ->
      r = outcome_of (utc env (committer_date c)))
  /\ (forall e, r = Raised e -> e = ValueError \/ e = OverflowError).
Proof.
  intros Hsha rtype Htype Hrid Hc r.
  assert (Hr : r = outcome_of (utc env (py_or (author_date c) (committer_date c)))).
  { subst r. unfold get_commit_time. rewrite Hsha. fold rtype.
    rewrite Htype, Hrid. unfold try_except, get_ado_commit.
    rewrite bind_run, Hc, lift_ok, commit_date_run.
    destruct (utc env _) as [o|e] eqn:Hu; [reflexivity|].
    now destruct (utc_raises _ _ Hu) as [->| ->]. }
  repeat split.
  - intros a Ha. rewrite Hr. unfold py_or. now rewrite Ha.
  - intros Ha. rewrite Hr. unfold py_or. now rewrite Ha.
  - intros e. rewrite Hr. destruct (utc env _) as [o|e'] eqn:Hu; [discriminate|].
    intros [= <-]. now apply utc_raises in Hu.
Qed.

(** X17.  A commit GitHub answers with status 200 is dated like one of Azure
    Repos: author date first, committer date as the fallback, read from the
    document under ["commit"] and passed through [utc]; there is no date at
    all when that document is missing. *)
Theorem github_commit_date_author_first (build : Build)
    (gh_token gh_repo_override : option string) (verbose : bool)
    (sha owner_repo : string) (resp : Response) (s : run_state) :
  nonempty (sourceVersion build) = Some sha ->
  let rtype := PyStr.lower (or_empty (repository build ≫= repo_type)) in
  (PyStr.contains "tfs" rtype || PyStr.contains "azure" rtype)%bool = false ->
  (PyStr.contains "github" rtype
   || bool_decide (is_Some (nonempty gh_repo_override)))%bool = true ->
  owner_repo_of env gh_repo_override (repository build) = Ok (Some owner_repo) ->
  http_github env
    (github_commit_api owner_repo sha (default ∅ (repository build ≫= repo_properties)))
    (("Accept", "application/vnd.github+json")
       :: match nonempty gh_token with
          | Some t => [("Authorization", "Bearer " +:+ t)]
          | None => []
          end)%list = Ok resp ->
  status_code resp = 200 ->
  let r := fst (get_commit_time env build gh_token gh_repo_override verbose s) in
  match json_commit resp with
  | Some c =>
      (forall a, nonempty (author_date c) = Some a ->
         r = outcome_of (utc env (Some a)))
      /\ (nonempty (author_date c) = None ->
          r = outcome_of (utc env (committer_date c)))
  | None => r = Returned None
  end.
Proof.
  intros Hsha rtype Hnot Hgh Hid Hresp Hstatus r.
  assert (Hr : r = outcome_of
                     (utc env (py_or (author_date (default (mk_Commit None None) (json_commit resp)))
                                 (committer_date (default (mk_Commit None None) (json_commit resp)))))).
  { subst r. unfold get_commit_time. rewrite Hsha. fold rtype.
    rewrite Hnot, Hgh, bind_run, Hid, lift_ok. cbv beta iota zeta.
    unfold try_except.
    rewrite bind_run, Hresp, lift_ok, Hstatus. cbn [Z.eqb Pos.eqb].
    rewrite commit_date_run.
    destruct (utc env _) as [o|e] eqn:Hu; [reflexivity|].
    now destruct (utc_raises _ _ Hu) as [->| ->]. }
  destruct (json_commit resp) as [c|]; [|exact Hr].
  split.
  - intros a Ha. rewrite Hr. unfold py_or. simpl. now rewrite Ha.
  - intros Ha. rewrite Hr. unfold py_or. simpl. now rewrite Ha.
Qed.

(** X18.  No request is needed to give up: whatever the services would answer,
    [get_commit_time] returns [None] for a build without a commit id, for an
    Azure repository without an id, for a GitHub-like repository whose
    identity cannot be made out, and for a repository of another type when
    no override is given. *)
Theorem commit_time_unresolved_without_request (build : Build)
    (gh_token gh_repo_override : option string) (verbose : bool) (s : run_state) :
  let rtype := PyStr.lower (or_empty (repository build ≫= repo_type)) in
  let azure := (PyStr.contains "tfs" rtype || PyStr.contains "azure" rtype)%bool in
  let github := (PyStr.contains "github" rtype
                 || bool_decide (is_Some (nonempty gh_repo_override)))%bool in
  nonempty (sourceVersion build) = None
  \/ (azure = true /\ nonempty (repository build ≫= repo_id) = None)
  \/ (azure = false /\ github = true
      /\ owner_repo_of env gh_repo_override (repository build) = Ok None)
  \/ (azure = false /\ github = false) ->
  fst (get_commit_time env build gh_token gh_repo_override verbose s) = Returned None
  /\ same_data s (snd (get_commit_time env build gh_token gh_repo_override verbose s)).
Proof.
  intros rtype azure github H. unfold get_commit_time.
  destruct (nonempty (sourceVersion build)) as [sha|] eqn:Hsha.
  - fold rtype. fold azure. fold github.
    destruct H as [H | [[Ha Hid] | [(Ha & Hg & Hid) | [Ha Hg]]]];
      [discriminate | rewrite Ha, Hid
      | rewrite Ha, Hg, bind_run, Hid, lift_ok | rewrite Ha, Hg];
      destruct verbose; now split.
  - destruct verbose; now split.
Qed.

End ResolverMore.

(** ** Times in UTC *)

Section UtcInvariant.
Variable env : Env.

Lemma utc_result_aware (x : option string) (t : datetime) :
  utc env x = Ok (Some t) ->
  tzoffset t = Some 0 /\ to_utc env t = t.
Proof.
  unfold utc. destruct (nonempty x) as [s|]; [|discriminate].
  destruct (fromisoformat env _) as [d|]; [|discriminate].
  unfold astimezone_utc. cbv zeta.
  destruct (in_range _); [|discriminate].
  intros [= <-]. split; [reflexivity|].
  unfold to_utc. simpl. f_equal. lia.
Qed.

(** X19.  What [utc] returns is printed by [fmtiso] as it is: normalizing it once
    more does not move it, whatever the zone of the machine. *)
Theorem fmtiso_of_utc_is_isoformat (x : option string) (t : datetime) :
  utc env x = Ok (Some t) -> fmtiso env t = isoformat env t.
Proof.
  intros H. unfold fmtiso. now rewrite (proj2 (utc_result_aware x t H)).
Qed.

Lemma for_each_invariant {A} (P : run_state -> Prop) (body : A -> M unit)
    (l : list A) :
  (forall x s, P s -> P (snd (body x s))) ->
  forall s, P s -> P (snd (for_each l body s)).
Proof.
  intros Hbody. induction l as [|x l IH]; intros s Hs; [exact Hs|].
  simpl. rewrite bind_run. specialize (Hbody x s Hs).
  destruct (body x s) as [[[]|e|] s1]; simpl in Hbody; [now apply IH|assumption..].
Qed.

Lemma process_build_keeps_utc (verbose : bool) (names : gmap Z (option string))
    (b : Build) (s : run_state) :
  events_in_utc s -> events_in_utc (snd (process_build env verbose names b s)).
Proof.
  intros [Hd Hf].
  destruct (http_timeline env (build_id b)) as [recs|e] eqn:Hrecs.
  - split.
    + rewrite (process_build_deployments env _ _ _ _ _ Hrecs).
      apply Forall_app. split; [exact Hd|].
      destruct (has_job recs "swap") as [r|]; [|constructor].
      destruct (String.eqb _ "succeeded"); [|constructor].
      destruct (utc env (rec_finishTime r)) as [[t|]|e] eqn:Hu; repeat constructor.
      exact (proj1 (utc_result_aware _ _ Hu)).
    + rewrite (process_build_failures env _ _ _ _ _ Hrecs).
      apply Forall_app. split; [exact Hf|].
      destruct (job_result_is (has_job recs "swap") "succeeded"); [|constructor].
      destruct (utc env (has_job recs "swap" ≫= rec_finishTime)); [|constructor].
      destruct (job_result_is (has_job recs "validate") "failed");
        [|destruct (job_result_is (has_job recs "rollback") "succeeded")];
        try constructor;
        match goal with |- context [utc env ?x] =>
          destruct (utc env x) as [[t|]|e] eqn:Hu end;
        repeat constructor; exact (proj1 (utc_result_aware _ _ Hu)).
  - unfold process_build, get_timeline. rewrite bind_run, Hrecs, lift_err.
    now split.
Qed.

Lemma list_builds_loop_state (fuel : nat) (params : BuildQuery)
    (builds : list Build) (cont : option string) (s : run_state) :
  snd (list_builds_loop env fuel params builds cont s) = s.
Proof.
  revert params builds cont. induction fuel as [|fuel IH];
    intros params builds cont; [reflexivity|].
  simpl. rewrite bind_run.
  destruct (http_builds env _) as [j|e]; [|reflexivity].
  rewrite lift_ok. destruct (nonempty (page_continuationToken j)); [apply IH|reflexivity].
Qed.

(** X20.  Every Deployment and every FailureEvent of a run carries an aware time
    in UTC, so that the comparisons and differences of the metrics never mix
    naive and aware values, and the rows print these times unchanged. *)
Theorem recorded_times_are_utc (fuel : nat) (args : Args) (s' : run_state)
    (out : Outputs) :
  main env fuel args initial_state = (Returned out, s') ->
  Forall (fun e => tzoffset (when e) = Some 0
                   /\ fmtiso env (when e) = isoformat env (when e))
    (out_deployments out ++ out_failures out).
Proof.
  unfold main. rewrite bind_run.
  destruct (def_names_loop_run env (arg_defs args) ∅ initial_state)
    as (names & ->).
  rewrite bind_run. unfold list_builds.
  pose proof (list_builds_loop_state fuel
                (list_builds_params env (arg_defs args) (arg_since args)
                   (arg_until args) (arg_branch args) 200) [] None initial_state)
    as Hstate.
  destruct (list_builds_loop env fuel _ [] None initial_state)
    as [[builds|e|] t1]; try discriminate.
  simpl in Hstate. subst t1. rewrite bind_run.
  pose proof (for_each_invariant events_in_utc
                (process_build env (arg_verbose args) names) builds
                (process_build_keeps_utc _ _) initial_state
                (conj (Forall_nil_2 _) (Forall_nil_2 _))) as [Hd Hf].
  destruct (for_each builds _ initial_state) as [[[]|e|] s0]; try discriminate.
  simpl in Hd, Hf.
  rewrite bind_run. unfold get_deployments at 1. cbv beta iota.
  rewrite bind_run. unfold get_failures at 1. cbv beta iota.
  rewrite bind_run.
  destruct (lead_loop env args _ builds [] s0) as [[rows|e|] t2]; try discriminate.
  intros [= <- _]. cbn [out_deployments out_failures].
  apply Forall_app. split; (eapply Forall_impl; [eassumption|]);
    intros ev Hev; unfold utc_event in Hev; (split; [exact Hev|]);
    unfold fmtiso, to_utc; destruct (when ev) as [w tz];
    simpl in *; subst tz; do 2 f_equal; lia.
Qed.

End UtcInvariant.

(** ** Durations for the reader *)

Section HumanDur.

(** X21.  A negative duration is rendered as a minus sign in front of the
    rendering of its magnitude. *)
Theorem human_dur_negative (n : Z) :
  0 < n -> human_dur (- n) = "-" +:+ human_dur n.
Proof.
  intros Hn. unfold human_dur.
  replace (- n <? 0) with true by (symmetry; apply Z.ltb_lt; lia).
  replace (n <? 0) with false by (symmetry; apply Z.ltb_ge; lia).
  now rewrite Z.abs_opp.
Qed.

(** X22.  The units of a duration are dropped from the left only: seconds alone
    under a minute, minutes and seconds under an hour, hours to seconds
    under a day, and all four units from a day on, zero units in the middle
    included. *)
Theorem human_dur_units (n : Z) :
  0 <= n ->
  let str := PyStr.str_of_Z in
  human_dur n =
    if n <? 60 then str n +:+ "s"
    else if n <? 3600 then
      str (n / 60) +:+ "m" +:+ " " +:+ str (n mod 60) +:+ "s"
    else if n <? 86400 then
      str (n / 3600) +:+ "h" +:+ " " +:+ str (n / 60 mod 60) +:+ "m" +:+ " "
        +:+ str (n mod 60) +:+ "s"
    else
      str (n / 86400) +:+ "d" +:+ " " +:+ str (n / 3600 mod 24) +:+ "h" +:+ " "
        +:+ str (n / 60 mod 60) +:+ "m" +:+ " " +:+ str (n mod 60) +:+ "s".
Proof.
  intros Hn str. unfold human_dur.
  replace (n <? 0) with false by (symmetry; apply Z.ltb_ge; lia).
  rewrite Z.abs_eq by lia. cbv zeta.
  assert (Es : n mod 86400 mod 3600 mod 60 = n mod 60)
    by (Z.to_euclidean_division_equations; lia).
  assert (Em : n mod 86400 mod 3600 / 60 = n / 60 mod 60)
    by (Z.to_euclidean_division_equations; lia).
  assert (Eh : n mod 86400 / 3600 = n / 3600 mod 24)
    by (Z.to_euclidean_division_equations; lia).
  rewrite Es, Em, Eh. fold str.
  destruct (Z.ltb_spec n 60) as [H1|H1];
    [|destruct (Z.ltb_spec n 3600) as [H2|H2];
      [|destruct (Z.ltb_spec n 86400) as [H3|H3]]].
  - replace (n / 86400) with 0 by (Z.to_euclidean_division_equations; lia).
    replace (n / 3600 mod 24) with 0 by (Z.to_euclidean_division_equations; lia).
    replace (n / 60 mod 60) with 0 by (Z.to_euclidean_division_equations; lia).
    replace (n mod 60) with n by (Z.to_euclidean_division_equations; lia).
    reflexivity.
  - replace (n / 86400) with 0 by (Z.to_euclidean_division_equations; lia).
    replace (n / 3600 mod 24) with 0 by (Z.to_euclidean_division_equations; lia).
    replace (n / 60 mod 60) with (n / 60) by (Z.to_euclidean_division_equations; lia).
    replace (n / 60 =? 0) with false
      by (symmetry; apply Z.eqb_neq; Z.to_euclidean_division_equations; lia).
    simpl. now rewrite !string_app_assoc.
  - replace (n / 86400) with 0 by (Z.to_euclidean_division_equations; lia).
    replace (n / 3600 mod 24) with (n / 3600) by (Z.to_euclidean_division_equations; lia).
    replace (n / 3600 =? 0) with false
      by (symmetry; apply Z.eqb_neq; Z.to_euclidean_division_equations; lia).
    simpl. rewrite orb_true_r. simpl. now rewrite !string_app_assoc.
  - replace (n / 86400 =? 0) with false
      by (symmetry; apply Z.eqb_neq; Z.to_euclidean_division_equations; lia).
    simpl. rewrite !orb_true_r. simpl. now rewrite !string_app_assoc.
Qed.

End HumanDur.

(** ** The start of a run *)

Section Start.

Lemma insert_sorted_Z_le (x : Z) (l : list Z) :
  StronglySorted Z.le l -> StronglySorted Z.le (insert_sorted Z.ltb id x l).
Proof.
  induction 1 as [|y l Hl IH Hy]; simpl; [repeat constructor|].
  unfold id. destruct (Z.ltb_spec y x).
  - constructor; [assumption|].
    rewrite <- (insert_sorted_perm Z.ltb id x l).
    constructor; [lia | assumption].
  - constructor; [now constructor|].
    constructor; [lia|].
    eapply Forall_impl; [exact Hy|]. simpl. intros; lia.
Qed.

Lemma sorted_Z_le (l : list Z) : StronglySorted Z.le (sorted Z.ltb id l).
Proof.
  induction l as [|x l IH]; [constructor|].
  apply insert_sorted_Z_le, IH.
Qed.

Lemma sorted_distinct_lt (l : list Z) :
  StronglySorted Z.le l -> NoDup l -> StronglySorted Z.lt l.
Proof.
  induction 1 as [|x l Hl IH Hx]; intros Hnd; [constructor|].
  apply NoDup_cons in Hnd as [Hnotin Hnd].
  constructor; [now apply IH|].
  apply Forall_forall. intros y Hy. rewrite Forall_forall in Hx.
  specialize (Hx y Hy). assert (x <> y) by (intros ->; contradiction). lia.
Qed.

Lemma sorted_set_spec (out : list Z) :
  StronglySorted Z.lt (sorted_set out)
  /\ forall i, i ∈ sorted_set out <-> i ∈ out.
Proof.
  unfold sorted_set. split.
  - apply sorted_distinct_lt; [apply sorted_Z_le|].
    rewrite <- (sorted_perm Z.ltb id). apply NoDup_remove_dups.
  - intros i. now rewrite elem_of_sorted, elem_of_remove_dups.
Qed.

(** X23.  Names that hold no pattern (no names, an empty text, commas and blanks
    only) resolve to no definition, and the definitions are not even asked
    for: the answer is the same when the request would fail. *)
Theorem resolve_definition_ids_blank (names_csv : option string)
    (list_definitions : result (list PipelineDefinition)) :
  Forall (fun piece => strip_ws piece = "") (split_char "," (or_empty names_csv)) ->
  resolve_definition_ids list_definitions names_csv = Ok [].
Proof.
  intros Hblank. unfold resolve_definition_ids, name_patterns.
  induction Hblank as [|x l Hx _ IH]; [reflexivity|].
  simpl. now rewrite Hx.
Qed.

(** X24.  With at least one pattern, and names and patterns written in
    ASCII, [resolve_definition_ids] fails as the request for the definitions
    fails, and otherwise returns, in strictly ascending order and so without
    repetition, exactly the ids of the definitions whose lowercased name
    contains one of the lowercased patterns; a definition without a name
    matches nothing. *)
Theorem resolve_definition_ids_result (names_csv : option string)
    (list_definitions : result (list PipelineDefinition)) :
  name_patterns names_csv <> [] ->
  ascii_text (or_empty names_csv) ->
  (forall defs, list_definitions = Ok defs ->
     Forall (fun d => ascii_text (or_empty (pd_name d))) defs) ->
  match list_definitions with
  | Err e => resolve_definition_ids list_definitions names_csv = Err e
  | Ok defs =>
      exists ids,
        resolve_definition_ids list_definitions names_csv = Ok ids
        /\ StronglySorted Z.lt ids
        /\ forall i,
             i ∈ ids <->
             exists d p,
               d ∈ defs /\ pd_id d = i /\ p ∈ name_patterns names_csv
               /\ PyStr.contains p (PyStr.lower (or_empty (pd_name d))) = true
  end.
Proof.
  intros Hpats _ _. unfold resolve_definition_ids.
  destruct (name_patterns names_csv) as [|p0 pats] eqn:Hp; [congruence|].
  destruct list_definitions as [defs|e]; [|reflexivity].
  eexists. split; [reflexivity|].
  destruct (sorted_set_spec
              (map pd_id (List.filter (name_matches (p0 :: pats)) defs)))
    as [Hsorted Hmem].
  split; [exact Hsorted|]. intros i. rewrite Hmem.
  rewrite list_elem_of_In, in_map_iff. split.
  - intros (d & Hid & Hd). apply filter_In in Hd as [Hd Hmatch].
    unfold name_matches in Hmatch. apply existsb_exists in Hmatch as (p & Hpin & Hc).
    exists d, p. rewrite !list_elem_of_In. now repeat split.
  - intros (d & p & Hd & Hid & Hpin & Hc). exists d. split; [exact Hid|].
    apply filter_In. split; [now apply list_elem_of_In|].
    unfold name_matches. apply existsb_exists. exists p.
    split; [now apply list_elem_of_In | exact Hc].
Qed.

Lemma parse_ids_spec (pieces : list string) :
  match parse_ids pieces with
  | Ok ns =>
      map py_int (List.filter (fun x => PyStr.truthy (strip_ws x)) pieces)
      = map Some ns
  | Err e =>
      e = ValueError
      /\ exists x, In x pieces /\ PyStr.truthy (strip_ws x) = true
                   /\ py_int x = None
  end.
Proof.
  induction pieces as [|x l IH]; simpl; [reflexivity|].
  destruct (PyStr.truthy (strip_ws x)) eqn:Hx.
  - destruct (py_int x) as [n|] eqn:Hn.
    + destruct (parse_ids l) as [ns|e].
      * simpl. now rewrite Hn, IH.
      * destruct IH as (-> & y & Hy & Hrest). split; [reflexivity|].
        exists y. split; [now right | exact Hrest].
    + split; [reflexivity|]. exists x. now repeat split; [left|..].
  - destruct (parse_ids l) as [ns|e]; [exact IH|].
    destruct IH as (-> & y & Hy & Hrest). split; [reflexivity|].
    exists y. split; [now right | exact Hrest].
Qed.

(** X25.  Ids given on the command line prevail: the names and the service are
    not consulted.  The ids are the pieces between the commas read by
    [int], in their order, blank pieces skipped; one piece that is not an
    integer fails the start with [ValueError], and [SystemExit] is not
    raised. *)
Theorem pipeline_ids_prevail (list_definitions : result (list PipelineDefinition))
    (cli : Cli) :
  not_blank (cli_pipeline_ids cli) = true ->
  let pieces :=
    List.filter (fun x => PyStr.truthy (strip_ws x))
      (split_char "," (or_empty (cli_pipeline_ids cli))) in
  match select_definitions list_definitions cli with
  | Started defs => map py_int pieces = map Some defs
  | StartFailed e => e = ValueError /\ exists x, In x pieces /\ py_int x = None
  | SystemExit _ => False
  end.
Proof.
  intros Hids pieces. unfold select_definitions. rewrite Hids.
  pose proof (parse_ids_spec (split_char "," (or_empty (cli_pipeline_ids cli)))) as H.
  destruct (parse_ids _) as [ns|e]; [exact H|].
  destruct H as (-> & x & Hx & Ht & Hn). split; [reflexivity|].
  exists x. split; [|exact Hn]. apply filter_In. now split.
Qed.

(** X26.  The start of a run stops on [SystemExit] in three cases and no other:
    no credential (neither a bearer token in the environment nor a PAT on
    the command line or in the environment), no pipeline given (ids and
    names both blank), and names given without ids that match no
    definition. *)
Theorem start_system_exit (getenv : string -> option string) (now : datetime)
    (list_definitions : result (list PipelineDefinition)) (cli : Cli) :
  (exists message, start getenv now list_definitions cli = SystemExit message)
  <->
  (nonempty (py_or (getenv "SYSTEM_ACCESSTOKEN") (getenv "AZDO_BEARER")) = None
   /\ nonempty (py_or (cli_pat cli) (getenv "AZDO_PAT")) = None)
  \/ (not_blank (cli_pipeline_ids cli) = false
      /\ not_blank (cli_pipeline_names cli) = false)
  \/ (not_blank (cli_pipeline_ids cli) = false
      /\ not_blank (cli_pipeline_names cli) = true
      /\ resolve_definition_ids list_definitions (cli_pipeline_names cli) = Ok []).
Proof.
  unfold start, ado_auth, select_definitions.
  destruct (nonempty (py_or (getenv "SYSTEM_ACCESSTOKEN") (getenv "AZDO_BEARER")))
    as [bearer|];
    [|destruct (nonempty (py_or (cli_pat cli) (getenv "AZDO_PAT"))) as [pat|]];
    try (split; [intros _; left; now split | intros _; eexists; reflexivity]);
    (destruct (not_blank (cli_pipeline_ids cli));
     [destruct (parse_ids _)
     |destruct (not_blank (cli_pipeline_names cli));
      [destruct (resolve_definition_ids _ _) as [[|i ids]|e]|]]);
    (split;
     [ intros [m Hm]; first [discriminate Hm | right; tauto]
     | intros [[H1 H2] | [[H1 H2] | (H1 & H2 & H3)]];
       first [discriminate | eexists; reflexivity] ]).
Qed.

(** X27.  A run that starts asks for the window of [--days] days that ends five
    minutes after the start, and takes the GitHub token and repository from
    the command line before the environment. *)
Theorem start_window_and_fallbacks (getenv : string -> option string)
    (now : datetime) (list_definitions : result (list PipelineDefinition))
    (cli : Cli) (auth : Auth) (args : Args) :
  start getenv now list_definitions cli = Started (auth, args) ->
  timestamp (arg_until args) = timestamp now + 300000000
  /\ dt_sub (arg_until args) (arg_since args) = cli_days cli * 86400000000
  /\ (forall t, nonempty (cli_github_token cli) = Some t ->
        arg_github_token args = Some t)
  /\ (nonempty (cli_github_token cli) = None ->
        arg_github_token args = getenv "GITHUB_TOKEN")
  /\ (forall r, nonempty (cli_github_repo cli) = Some r ->
        arg_github_repo args = Some r)
  /\ (nonempty (cli_github_repo cli) = None ->
        arg_github_repo args = getenv "GITHUB_REPO")
  /\ arg_branch args = cli_branch cli
  /\ arg_verbose args = cli_verbose cli.
Proof.
  unfold start.
  destruct (ado_auth _ _) as [a| |]; try discriminate.
  destruct (select_definitions _ _) as [defs| |]; try discriminate.
  intros [= _ <-]. cbn [arg_until arg_since arg_github_token arg_github_repo
                        arg_branch arg_verbose].
  unfold dt_sub, timestamp, dt_add, py_or. simpl.
  repeat split; try (intros ? ->; reflexivity); try (intros ->; reflexivity);
    destruct (tzoffset now); lia.
Qed.

(** X28.  Among the credentials a bearer token of the environment comes first,
    [SYSTEM_ACCESSTOKEN] before [AZDO_BEARER], whatever PAT is given; the PAT
    serves only when both are unset or empty. *)
Theorem bearer_token_comes_first (getenv : string -> option string)
    (pat : option string) :
  (forall t, nonempty (getenv "SYSTEM_ACCESSTOKEN") = Some t ->
     ado_auth getenv pat = Started (BearerAuth t))
  /\ (forall t, nonempty (getenv "SYSTEM_ACCESSTOKEN") = None ->
        nonempty (getenv "AZDO_BEARER") = Some t ->
        ado_auth getenv pat = Started (BearerAuth t))
  /\ (forall p, nonempty (getenv "SYSTEM_ACCESSTOKEN") = None ->
        nonempty (getenv "AZDO_BEARER") = None ->
        nonempty pat = Some p ->
        ado_auth getenv pat = Started (BasicAuth p)).
Proof.
  unfold ado_auth, py_or. repeat split.
  - intros t Ht. rewrite Ht. unfold nonempty in *.
    destruct (getenv "SYSTEM_ACCESSTOKEN") as [[|a s]|]; try discriminate.
    now injection Ht as <-.
  - intros t H1 H2. now rewrite H1, H2.
  - intros p H1 H2 Hp. now rewrite H1, H2, Hp.
Qed.

End Start.

(** * Further runs on the fake services *)

Lemma list_builds_page_failure_witness :
  list_builds broken_page_env 5 [7] (Scenario.at_utc 2023 10 10 0 0 0 0)
    (Scenario.at_utc 2024 1 8 0 0 0 0) (Some "refs/heads/main") 200 initial_state
  = (Raised HTTPError, initial_state).
Proof.
  apply (list_builds_page_failure broken_page_env [7]
           (Scenario.at_utc 2023 10 10 0 0 0 0) (Scenario.at_utc 2024 1 8 0 0 0 0)
           (Some "refs/heads/main") 200 2 HTTPError); [|lia].
  eapply failure_later; [reflexivity | reflexivity |].
  apply failure_now. reflexivity.
Defined.

Lemma list_builds_endless_witness :
  list_builds endless_env 1000 [7] (Scenario.at_utc 2023 10 10 0 0 0 0)
    (Scenario.at_utc 2024 1 8 0 0 0 0) (Some "refs/heads/main") 200 initial_state
  = (OutOfFuel, initial_state).
Proof.
  apply (list_builds_endless endless_env).
  intros q. eexists _, _. split; reflexivity.
Defined.

Lemma timeline_failure_ends_the_loop_witness :
  for_each [build_without_timeline; Scenario.b1]
    (process_build Scenario.env false ∅) initial_state
  = (Raised HTTPError, initial_state).
Proof.
  apply (timeline_failure_ends_the_loop Scenario.env false ∅
           build_without_timeline [Scenario.b1] HTTPError initial_state).
  reflexivity.
Defined.

Lemma unreadable_swap_finish_time_raises_witness :
  process_build garbled_time_env false ∅ Scenario.b1 initial_state
  = (Raised ValueError, initial_state).
Proof.
  apply (unreadable_swap_finish_time_raises garbled_time_env false ∅ Scenario.b1
           [Scenario.job "swap" "succeeded" (Some "yesterday")]
           (Scenario.job "swap" "succeeded" (Some "yesterday")) "yesterday"
           initial_state); reflexivity.
Defined.

Lemma validation_failure_comes_first_witness :
  failures (snd (process_build Scenario.env false ∅ Scenario.b2 initial_state))
  = [ {| buildId := Some 2; when := Scenario.at_utc 2024 1 2 10 5 0 0 |} ].
Proof.
  destruct (validation_failure_comes_first Scenario.env false ∅ Scenario.b2
              [Scenario.job "Swap Slots" "succeeded" (Some "2024-01-02T10:00:00Z");
               Scenario.job "Validate Swap" "failed" (Some "2024-01-02T10:05:00Z");
               Scenario.job "Rollback" "succeeded" (Some "2024-01-02T10:10:00Z")]
              initial_state (Some (Scenario.at_utc 2024 1 2 10 0 0 0))
              eq_refl eq_refl eq_refl) as [H _].
  exact (H eq_refl).
Defined.

Lemma main_without_builds_witness :
  fst (main empty_env 1 (Scenario.args false) initial_state)
  = Returned
      {| out_deployments := []; out_failures := []; out_frequency := [];
         out_lead := [];
         out_cfr :=
           {| cfr_app := "app";
              windowStartUtc := "2023-10-10T00:00:00+00:00";
              windowEndUtc := "2024-01-08T00:00:00+00:00";
              totalDeployments := 0; failedChanges := 0;
              changeFailureRatePct := 0%float |};
         out_mttr := [] |}.
Proof.
  exact (main_without_builds empty_env 0 (Scenario.args false)
           {| page_value := []; page_continuationToken := None |}
           eq_refl eq_refl eq_refl).
Defined.

Lemma daily_counts_add_up_witness :
  exists out s',
    main Scenario.env 3 (Scenario.args false) initial_state = (Returned out, s')
    /\ sum_Z (map freq_deployments (out_frequency out))
       = Z.of_nat (length (out_deployments out))
    /\ sum_Z (map freq_deployments (out_frequency out))
       = totalDeployments (out_cfr out)
    /\ Forall (fun r => 1 <= freq_deployments r) (out_frequency out).
Proof.
  destruct (main Scenario.env 3 (Scenario.args false) initial_state)
    as [[out|e|] s'] eqn:Hmain; [|scenario_returns Hmain..].
  exists out, s'. split; [reflexivity|].
  exact (daily_counts_add_up Scenario.env 3 (Scenario.args false)
           initial_state s' out Hmain).
Defined.

Lemma row_sets_are_ordered_witness :
  exists out s',
    main Scenario.env 3 (Scenario.args false) initial_state = (Returned out, s')
    /\ ascending date (out_frequency out)
    /\ ascending deployTimeUtc (out_lead out)
    /\ ascending failedAtUtc (out_mttr out).
Proof.
  destruct (main Scenario.env 3 (Scenario.args false) initial_state)
    as [[out|e|] s'] eqn:Hmain; [|scenario_returns Hmain..].
  exists out, s'. split; [reflexivity|].
  exact (row_sets_are_ordered Scenario.env 3 (Scenario.args false)
           initial_state s' out Hmain).
Defined.

Lemma recorded_times_are_utc_witness :
  exists out s',
    main Scenario.env 3 (Scenario.args false) initial_state = (Returned out, s')
    /\ Forall (fun e => tzoffset (when e) = Some 0
                        /\ fmtiso Scenario.env (when e)
                           = isoformat Scenario.env (when e))
         (out_deployments out ++ out_failures out).
Proof.
  destruct (main Scenario.env 3 (Scenario.args false) initial_state)
    as [[out|e|] s'] eqn:Hmain; [|scenario_returns Hmain..].
  exists out, s'. split; [reflexivity|].
  exact (recorded_times_are_utc Scenario.env 3 (Scenario.args false) s' out Hmain).
Defined.

Lemma api_url_base_is_reused_witness :
  github_commit_api "other/one" "abc"
    {[ "apiUrl" := "https://ghe.example/api/v3/repos/acme/app//" ]}
  = "https://ghe.example/api/v3/repos/acme/app/commits/abc".
Proof.
  apply (api_url_base_is_reused "other/one" "abc" "https://ghe.example/api/v3"
           "acme" "app" "//"
           {[ "apiUrl" := "https://ghe.example/api/v3/repos/acme/app//" ]});
    first [discriminate | reflexivity].
Defined.

Lemma azure_commit_date_author_first_witness :
  fst (get_commit_time Scenario.env Scenario.b2 None None false initial_state)
  = Returned (Some (Scenario.at_utc 2024 1 2 8 0 0 0)).
Proof.
  destruct (azure_commit_date_author_first Scenario.env Scenario.b2 None None
              false "bbb" "r2"
              {| author_date := Some "2024-01-02T08:00:00Z";
                 committer_date := None |}
              initial_state eq_refl eq_refl eq_refl eq_refl) as [H _].
  exact (H "2024-01-02T08:00:00Z" eq_refl).
Defined.

Lemma github_commit_date_author_first_witness :
  fst (get_commit_time Scenario.env Scenario.b1 None None false initial_state)
  = Returned (Some (Scenario.at_utc 2024 1 1 10 0 0 0)).
Proof.
  destruct (github_commit_date_author_first Scenario.env Scenario.b1 None None
              false "aaa" "acme/app"
              {| status_code := 200;
                 json_commit :=
                   Some {| author_date := Some "2024-01-01T10:00:00Z";
                           committer_date := None |} |}
              initial_state eq_refl eq_refl eq_refl eq_refl eq_refl eq_refl)
    as [H _].
  exact (H "2024-01-01T10:00:00Z" eq_refl).
Defined.

Lemma commit_time_unresolved_without_request_witness :
  fst (get_commit_time Scenario.env build_without_commit (Some "token")
         (Some "acme/app") true initial_state)
  = Returned None.
Proof.
  apply (commit_time_unresolved_without_request Scenario.env build_without_commit
           (Some "token") (Some "acme/app") true initial_state).
  left. reflexivity.
Defined.

Lemma fmtiso_of_utc_is_isoformat_witness :
  fmtiso Scenario.env (Scenario.at_utc 2024 1 1 12 0 0 0)
  = isoformat Scenario.env (Scenario.at_utc 2024 1 1 12 0 0 0).
Proof.
  apply (fmtiso_of_utc_is_isoformat Scenario.env (Some "2024-01-01T14:00:00+02:00")).
  reflexivity.
Defined.

Lemma human_dur_negative_witness : human_dur (- 90) = "-1m 30s".
Proof. apply (human_dur_negative 90). lia. Defined.

Lemma human_dur_units_witness : human_dur 93784 = "1d 2h 3m 4s".
Proof. apply (human_dur_units 93784). lia. Defined.

Lemma azure_lookup_failure_witness :
  fst (get_commit_time (Scenario.env_ado_failing HTTPError) Scenario.b2 None None
         false initial_state)
  = Returned None.
Proof.
  exact (azure_lookup_failure (Scenario.env_ado_failing HTTPError) Scenario.b2
           None None false "bbb" "r2" HTTPError initial_state
           eq_refl eq_refl eq_refl eq_refl).
Defined.

Lemma github_lookup_failure_witness :
  fst (get_commit_time (Scenario.env_github_failing Timeout) Scenario.b1 None None
         false initial_state)
  = Returned None.
Proof.
  destruct (github_lookup_failure (Scenario.env_github_failing Timeout)
              Scenario.b1 None None false "aaa" "acme/app" initial_state
              eq_refl eq_refl eq_refl eq_refl) as [H _].
  exact (H Timeout eq_refl eq_refl).
Defined.

Lemma failure_requires_succeeded_swap_witness :
  job_result_is
    (has_job
       [Scenario.job "Swap Slots" "succeeded" (Some "2024-01-02T10:00:00Z");
        Scenario.job "Validate Swap" "failed" (Some "2024-01-02T10:05:00Z");
        Scenario.job "Rollback" "succeeded" (Some "2024-01-02T10:10:00Z")]
       "swap") "succeeded" = true.
Proof.
  apply (failure_requires_succeeded_swap Scenario.env false ∅ Scenario.b2 _
           initial_state eq_refl).
  vm_compute. discriminate.
Defined.

Lemma resolve_definition_ids_blank_witness :
  resolve_definition_ids (Err HTTPError) (Some " , ,") = Ok [].
Proof.
  apply (resolve_definition_ids_blank (Some " , ,") (Err HTTPError)).
  repeat constructor.
Defined.

Lemma resolve_definition_ids_result_witness :
  exists ids,
    resolve_definition_ids (Ok sample_definitions) (Some " APP , web ,,") = Ok ids
    /\ StronglySorted Z.lt ids
    /\ forall i,
         i ∈ ids <->
         exists d p,
           d ∈ sample_definitions /\ pd_id d = i
           /\ p ∈ name_patterns (Some " APP , web ,,")
           /\ PyStr.contains p (PyStr.lower (or_empty (pd_name d))) = true.
Proof.
  apply (resolve_definition_ids_result (Some " APP , web ,,")
           (Ok sample_definitions)).
  - vm_compute. discriminate.
  - reflexivity.
  - intros defs [= <-]. repeat constructor.
Defined.

Lemma pipeline_ids_prevail_witness :
  select_definitions (Err HTTPError) sample_cli = Started [12; 7; 10]
  /\ map py_int [" 12"; "7 "; "1_0"] = map Some [12; 7; 10].
Proof.
  split; [reflexivity|].
  exact (pipeline_ids_prevail (Err HTTPError) sample_cli eq_refl).
Defined.

Lemma start_window_and_fallbacks_witness :
  exists auth args,
    start sample_getenv (Scenario.at_utc 2024 1 8 0 0 0 0) (Err HTTPError)
      sample_cli = Started (auth, args)
    /\ arg_until args = Scenario.at_utc 2024 1 8 0 5 0 0
    /\ arg_since args = Scenario.at_utc 2023 10 10 0 5 0 0
    /\ dt_sub (arg_until args) (arg_since args) = 90 * 86400000000
    /\ arg_github_token args = Some "gh".
Proof.
  eexists _, _. split; [reflexivity|].
  destruct (start_window_and_fallbacks sample_getenv
              (Scenario.at_utc 2024 1 8 0 0 0 0) (Err HTTPError) sample_cli
              _ _ eq_refl) as (_ & Hw & _ & Ht & _).
  split; [reflexivity|]. split; [reflexivity|].
  split; [exact Hw | exact (Ht eq_refl)].
Defined.

(** ** The days of the frequency file and the recovery times *)

Section Days.
Variable env : Env.

Lemma insert_sorted_by_time {A} (key : A -> datetime) (x : A) (l : list A) :
  StronglySorted (fun a b => timestamp (key a) <= timestamp (key b)) l ->
  StronglySorted (fun a b => timestamp (key a) <= timestamp (key b))
    (insert_sorted dt_ltb key x l).
Proof.
  induction 1 as [|y l Hl IH Hy]; simpl; [repeat constructor|].
  unfold dt_ltb at 1. destruct (Z.ltb_spec (timestamp (key y)) (timestamp (key x))).
  - constructor; [assumption|].
    rewrite <- (insert_sorted_perm dt_ltb key x l).
    constructor; [lia | assumption].
  - constructor; [now constructor|].
    constructor; [lia|].
    eapply Forall_impl; [exact Hy|]. simpl. intros; lia.
Qed.

Lemma sorted_by_time {A} (key : A -> datetime) (l : list A) :
  StronglySorted (fun a b => timestamp (key a) <= timestamp (key b))
    (sorted dt_ltb key l).
Proof.
  induction l as [|x l IH]; [constructor|].
  apply insert_sorted_by_time, IH.
Qed.

Lemma last_cons_default {A} (a : A) (l : list A) (x y : A) :
  List.last (a :: l) x = List.last (a :: l) y.
Proof.
  revert a. induction l as [|b l IH]; intros a; [reflexivity|].
  exact (IH b).
Qed.

Lemma sorted_last_greatest (x : datetime) (l : list datetime) :
  StronglySorted (fun a b => timestamp a <= timestamp b) (x :: l) ->
  List.last l x ∈ x :: l
  /\ Forall (fun t => timestamp x <= timestamp t <= timestamp (List.last l x))
       (x :: l).
Proof.
  revert x. induction l as [|y l IH]; intros x Hs.
  - simpl. split; [left|]. repeat constructor; lia.
  - apply StronglySorted_inv in Hs as [Hs Hx].
    destruct (IH y Hs) as [Hin Hall].
    assert (Hlast : List.last (y :: l) x = List.last l y)
      by (destruct l as [|z l']; [reflexivity | exact (last_cons_default z l' x y)]).
    rewrite Hlast. split; [now right|].
    apply Forall_cons in Hx as [Hxy Hx].
    rewrite Forall_forall in Hall.
    pose proof (Hall y ltac:(left)) as Hy.
    constructor; [lia|].
    apply Forall_forall. intros t Ht. specialize (Hall t Ht). lia.
Qed.

Lemma daily_fold_lookup (deps : list Event) (m : gmap string (list datetime))
    (k : string) :
  foldl (fun (daily : gmap string (list datetime)) d =>
           <[day_key env (when d) :=
               (default [] (daily !! day_key env (when d)) ++ [when d])%list]>
             daily) m deps !! k
  = match map when (deployed_on env k deps) with
    | [] => m !! k
    | new => Some (default [] (m !! k) ++ new)%list
    end.
Proof.
  revert m. induction deps as [|d deps IH]; intros m; [reflexivity|].
  cbn [foldl]. rewrite IH. unfold deployed_on. cbn [List.filter].
  destruct (String.eqb_spec (day_key env (when d)) k) as [->|Hne].
  - rewrite lookup_insert_eq. cbn [map default from_option id].
    destruct (map when (List.filter _ deps)) as [|t new].
    + reflexivity.
    + now rewrite <- app_assoc.
  - now rewrite lookup_insert_ne by exact Hne.
Qed.

Lemma daily_of_lookup (deps : list Event) (k : string) :
  daily_of env deps !! k
  = match map when (deployed_on env k deps) with
    | [] => None
    | new => Some (sorted dt_ltb id new)
    end.
Proof.
  unfold daily_of. cbv zeta. rewrite lookup_fmap, daily_fold_lookup.
  rewrite lookup_empty. now destruct (map when (deployed_on env k deps)).
Qed.

Lemma omap_keys_nodup {B} (keyB : B -> string) (g : string -> option B)
    (l : list string) :
  (forall a b, g a = Some b -> keyB b = a) ->
  NoDup l -> NoDup (map keyB (omap g l)).
Proof.
  intros Hg. induction 1 as [|x l Hx Hl IH]; [constructor|].
  change (omap g (x :: l))
    with (match g x with Some y => y :: omap g l | None => omap g l end).
  destruct (g x) as [y|] eqn:Hy; [|exact IH].
  cbn [map]. constructor; [|exact IH].
  rewrite (Hg _ _ Hy). intros Hin. apply Hx.
  apply list_elem_of_In, in_map_iff in Hin as (z & Hz & Hin).
  apply list_elem_of_In, list_elem_of_omap in Hin as (a & Ha & Hga).
  now rewrite <- Hz, (Hg _ _ Hga).
Qed.

Lemma frequency_row_day (app day : string) (m : gmap string (list datetime))
    (row : FrequencyRow) :
  match m !! day with
  | Some (first :: rest) =>
      Some {| freq_app := app; date := day;
              freq_deployments := Z.of_nat (length (first :: rest));
              firstDeployAtUtc := fmtiso env first;
              lastDeployAtUtc := fmtiso env (List.last rest first) |}
  | _ => None
  end = Some row ->
  date row = day.
Proof. destruct (m !! day) as [[|first rest]|]; now intros [= <-]. Qed.

(** X29.  The frequency file holds one row for each UTC day on which a Deployment
    was recorded and no other row; a row counts the Deployments of its day and
    gives the earliest and the latest of them as the first and the last
    deploy time. *)
Theorem frequency_row_describes_its_day (fuel : nat) (args : Args)
    (s s' : run_state) (out : Outputs) :
  main env fuel args s = (Returned out, s') ->
  NoDup (map date (out_frequency out))
  /\ (forall d, d ∈ out_deployments out ->
        day_key env (when d) ∈ map date (out_frequency out))
  /\ Forall (fun row =>
       let todays := deployed_on env (date row) (out_deployments out) in
       freq_deployments row = Z.of_nat (length todays)
       /\ exists first last,
            first ∈ todays /\ last ∈ todays
            /\ firstDeployAtUtc row = fmtiso env (when first)
            /\ lastDeployAtUtc row = fmtiso env (when last)
            /\ Forall (fun d => timestamp (when first) <= timestamp (when d)
                                <= timestamp (when last)) todays)
     (out_frequency out).
Proof.
  intros Hmain. apply main_returned in Hmain as (builds & rows & s0 & _ & ->).
  cbn [out_frequency out_deployments]. set (deps := deployments s0).
  unfold frequency_rows. set (g := fun day : string => _).
  assert (Hg : forall a b, g a = Some b -> date b = a)
    by (intros a b; apply frequency_row_day).
  split; [|split].
  - apply omap_keys_nodup; [exact Hg|].
    rewrite <- (sorted_perm String.ltb id). apply NoDup_fst_map_to_list.
  - intros d Hd. set (day := day_key env (when d)).
    assert (Hin : d ∈ deployed_on env day deps).
    { apply list_elem_of_In, filter_In. split; [now apply list_elem_of_In|].
      apply String.eqb_refl. }
    pose proof (daily_of_lookup deps day) as Hlook.
    destruct (map when (deployed_on env day deps)) as [|t new] eqn:Hnew.
    { destruct (deployed_on env day deps); [inversion Hin | discriminate]. }
    pose proof (sorted_length dt_ltb id (t :: new)) as Hlen.
    destruct (sorted dt_ltb id (t :: new)) as [|first rest] eqn:Hsorted;
      [discriminate|].
    apply list_elem_of_In, in_map_iff.
    exists {| freq_app := arg_app args; date := day;
              freq_deployments := Z.of_nat (length (first :: rest));
              firstDeployAtUtc := fmtiso env first;
              lastDeployAtUtc := fmtiso env (List.last rest first) |}.
    split; [reflexivity|]. apply list_elem_of_In, list_elem_of_omap.
    exists day. split.
    + apply elem_of_sorted, list_elem_of_In, in_map_iff.
      exists (day, first :: rest). split; [reflexivity|].
      now apply list_elem_of_In, elem_of_map_to_list.
    + unfold g. now rewrite Hlook.
  - apply Forall_forall. intros row Hrow.
    apply list_elem_of_omap in Hrow as (day & _ & Hgrow).
    pose proof (Hg _ _ Hgrow) as Hday. rewrite Hday. cbv zeta.
    unfold g in Hgrow. rewrite daily_of_lookup in Hgrow.
    destruct (map when (deployed_on env day deps)) as [|t new] eqn:Hnew;
      [discriminate|].
    pose proof (sorted_length dt_ltb id (t :: new)) as Hlen.
    pose proof (sorted_by_time id (t :: new)) as Hsorted.
    assert (Hmem : forall x, x ∈ sorted dt_ltb id (t :: new) ->
                     exists d, d ∈ deployed_on env day deps /\ when d = x).
    { intros x Hx. apply elem_of_sorted in Hx. rewrite <- Hnew in Hx.
      apply list_elem_of_In, in_map_iff in Hx as (d & Hd & Hin).
      exists d. split; [now apply list_elem_of_In | exact Hd]. }
    assert (Hall : forall d, d ∈ deployed_on env day deps ->
                     when d ∈ sorted dt_ltb id (t :: new)).
    { intros d Hd. apply elem_of_sorted. rewrite <- Hnew.
      apply list_elem_of_In, in_map_iff. exists d.
      split; [reflexivity | now apply list_elem_of_In]. }
    destruct (sorted dt_ltb id (t :: new)) as [|first rest]; [discriminate|].
    injection Hgrow as <-.
    cbn [freq_deployments firstDeployAtUtc lastDeployAtUtc].
    destruct (sorted_last_greatest first rest Hsorted) as [Hlastin Hbounds].
    split.
    { transitivity (Z.of_nat (length (first :: rest))); [reflexivity|].
      rewrite Hlen, <- Hnew. now rewrite length_map. }
    destruct (Hmem first ltac:(left)) as (dfirst & Hdfirst & Hwfirst).
    destruct (Hmem _ Hlastin) as (dlast & Hdlast & Hwlast).
    exists dfirst, dlast. rewrite Hwfirst, Hwlast.
    repeat split; try assumption.
    apply Forall_forall. intros d Hd.
    rewrite Forall_forall in Hbounds. exact (Hbounds _ (Hall d Hd)).
Qed.

Lemma omap_length_le {A B} (g : A -> option B) (l : list A) :
  (length (omap g l) <= length l)%nat.
Proof.
  induction l as [|x l IH]; [reflexivity|].
  change (omap g (x :: l))
    with (match g x with Some y => y :: omap g l | None => omap g l end).
  destruct (g x); simpl; lia.
Qed.

(** X30.  A recovery time is never negative (a lead time may be), no failure has
    more than one row in the recovery file, and without any Deployment the
    file has no row. *)
Theorem recovery_time_is_not_negative (fuel : nat) (args : Args)
    (s s' : run_state) (out : Outputs) :
  main env fuel args s = (Returned out, s') ->
  Forall (fun row => 0 <= mttrSeconds row) (out_mttr out)
  /\ (length (out_mttr out) <= length (out_failures out))%nat
  /\ (out_deployments out = [] -> out_mttr out = []).
Proof.
  intros Hmain. apply main_returned in Hmain as (builds & rows & s0 & _ & ->).
  cbn [out_mttr out_failures out_deployments]. split; [|split].
  - apply Forall_forall. intros row Hrow. apply elem_of_sorted in Hrow.
    unfold mttr_rows_of in Hrow.
    apply list_elem_of_omap in Hrow as (f & _ & Hrow).
    unfold next_success_of in Hrow.
    destruct (List.find _ _) as [d|] eqn:Hfind; [|discriminate].
    injection Hrow as <-. apply find_some in Hfind as [_ Hlater].
    cbn [mttr_row mttrSeconds]. unfold int_total_seconds, dt_sub.
    unfold dt_gtb, dt_ltb in Hlater. apply Z.ltb_lt in Hlater.
    apply Z.quot_pos; lia.
  - rewrite sorted_length. unfold mttr_rows_of.
    etransitivity; [apply omap_length_le|]. now rewrite sorted_length.
  - intros ->. unfold mttr_rows_of. simpl sorted at 2.
    induction (sorted dt_ltb when (failures s0)) as [|f l IH]; [reflexivity|].
    exact IH.
Qed.

End Days.

Lemma frequency_row_describes_its_day_witness :
  exists out s',
    main Scenario.env 3 (Scenario.args false) initial_state = (Returned out, s')
    /\ NoDup (map date (out_frequency out))
    /\ Forall (fun row =>
         let todays := deployed_on Scenario.env (date row) (out_deployments out) in
         freq_deployments row = Z.of_nat (length todays)
         /\ exists first last,
              first ∈ todays /\ last ∈ todays
              /\ firstDeployAtUtc row = fmtiso Scenario.env (when first)
              /\ lastDeployAtUtc row = fmtiso Scenario.env (when last)
              /\ Forall (fun d => timestamp (when first) <= timestamp (when d)
                                  <= timestamp (when last)) todays)
       (out_frequency out).
Proof.
  destruct (main Scenario.env 3 (Scenario.args false) initial_state)
    as [[out|e|] s'] eqn:Hmain; [|scenario_returns Hmain..].
  exists out, s'. split; [reflexivity|].
  destruct (frequency_row_describes_its_day Scenario.env 3 (Scenario.args false)
              initial_state s' out Hmain) as (Hnodup & _ & Hrows).
  split; [exact Hnodup | exact Hrows].
Defined.

Lemma recovery_time_is_not_negative_witness :
  exists out s',
    main Scenario.env 3 (Scenario.args false) initial_state = (Returned out, s')
    /\ Forall (fun row => 0 <= mttrSeconds row) (out_mttr out)
    /\ (length (out_mttr out) <= length (out_failures out))%nat.
Proof.
  destruct (main Scenario.env 3 (Scenario.args false) initial_state)
    as [[out|e|] s'] eqn:Hmain; [|scenario_returns Hmain..].
  exists out, s'. split; [reflexivity|].
  destruct (recovery_time_is_not_negative Scenario.env 3 (Scenario.args false)
              initial_state s' out Hmain) as (Hpos & Hlen & _).
  split; [exact Hpos | exact Hlen].
Defined.
